(** * TailorTalk: the appointment-booking pipeline

    A shallow embedding of the slot generator of the calendar backend
    (src/backend.py and src/tailortalk-backend/api.py, whose
    [get_availability] loops are the same text) and of the conversational
    agent of src/app.py (date parser, intent classifier, router and the
    suggestion, booking and cancellation handlers).

    Conventions of the model:
    - an instant (an aware [datetime]) is the integer number of seconds
      since 1970-01-01T00:00:00+00:00; a slot, which the code carries as the
      ISO-8601 text of an instant, is that instant;
    - the zone Asia/Kolkata of [pytz] is a parameter: the table that gives
      the offset of the zone, in seconds, at a UTC instant; local hours
      and minutes are read through it, whatever its history;
    - the backend's slot loop, the explicit date of the parser and its next
      day are checked against the range of [datetime], where the code
      raises [OverflowError]; the slots the agent handles come out of
      that loop, which has already converted each of them to the zone and
      added its half hour, so the agent's conversions of a slot are taken
      to succeed;
    - text is a [string] over the code points below 256, on which the
      character classes below are those of Python's [str] methods and of
      the [re] module;
    - a Python exception is a value of [exn] carried by [Raise];
    - the language model, the HTTP backend seen from the agent, the clock,
      [dateutil]'s fuzzy parser and [strftime] are fields of an
      environment record [env]: every statement holds for all of them. *)

From Stdlib Require Import ZArith List String Ascii Bool Lia Sorted.
From Stdlib Require Import DecimalString.
Import ListNotations.
Open Scope Z_scope.

(** ** Exceptions and results *)

Inductive exn : Type :=
| KeyError (key : string)
| IndexError
| ValueError (msg : string)
| OverflowError (msg : string)
| AttributeError (msg : string)
| TransportError (msg : string).

Inductive result (A : Type) : Type :=
| Ok (a : A)
| Raise (e : exn).
Arguments Ok {A} a.
Arguments Raise {A} e.

(** [str(e)] *)
Definition str_exn (e : exn) : string :=
  match e with
  | KeyError k => ("'" ++ k ++ "'")%string
  | IndexError => "list index out of range"%string
  | ValueError m => m
  | OverflowError m => m
  | AttributeError m => m
  | TransportError m => m
  end.

(** ** Text *)

Definition code (c : ascii) : N := N_of_ascii c.

(** [\d] of [re] *)
Definition is_digit (c : ascii) : bool :=
  ((48 <=? code c) && (code c <=? 57))%N.

(** [\s] of [re], and the characters removed by [str.strip()] *)
Definition is_space (c : ascii) : bool :=
  (((9 <=? code c) && (code c <=? 13)) || ((28 <=? code c) && (code c <=? 32))
   || (code c =? 133) || (code c =? 160))%N.

Definition lower_char (c : ascii) : ascii :=
  let n := code c in
  if (((65 <=? n) && (n <=? 90))
      || ((192 <=? n) && (n <=? 222) && negb (n =? 215)))%N
  then ascii_of_N (n + 32) else c.

(** [str.lower()] *)
Fixpoint lower (s : string) : string :=
  match s with
  | EmptyString => EmptyString
  | String c r => String (lower_char c) (lower r)
  end.

Fixpoint lstrip (s : string) : string :=
  match s with
  | EmptyString => EmptyString
  | String c r => if is_space c then lstrip r else s
  end.

Fixpoint rstrip (s : string) : string :=
  match s with
  | EmptyString => EmptyString
  | String c r =>
      match rstrip r with
      | EmptyString => if is_space c then EmptyString else String c EmptyString
      | r' => String c r'
      end
  end.

(** [str.strip()] *)
Definition strip (s : string) : string := rstrip (lstrip s).

(** [needle in hay] *)
Fixpoint contains (needle hay : string) : bool :=
  prefix needle hay ||
  match hay with
  | EmptyString => false
  | String _ r => contains needle r
  end.

(** [str(i)] for a non-negative integer *)
Definition str (i : nat) : string := NilZero.string_of_uint (Nat.to_uint i).

Definition digit_value (c : ascii) : Z := Z.of_N (code c) - 48.

(** [sep.join(parts)] *)
Definition join (sep : string) (parts : list string) : string :=
  String.concat sep parts.

(** ** Clock arithmetic *)

(** The offset of Asia/Kolkata since 15 October 1945, +05:30. *)
Definition IST_OFFSET : Z := 19800.

(** [t.astimezone(tz).hour] for [tz = pytz.timezone('Asia/Kolkata')]:
    [pytz] adds to the UTC value the offset [tz t] that its table gives at
    that instant. *)
Definition ist_hour (tz : Z -> Z) (t : Z) : Z := ((t + tz t) / 3600) mod 24.

(** [t.astimezone(tz).minute] *)
Definition ist_minute (tz : Z -> Z) (t : Z) : Z := ((t + tz t) / 60) mod 60.

(** The range of [datetime], in seconds on the scale of the instants:
    0001-01-01T00:00:00 and 9999-12-31T23:59:59. *)
Definition MIN_WALL : Z := -62135596800.
Definition MAX_WALL : Z := 253402300799.

Definition in_range (wall : Z) : bool :=
  (MIN_WALL <=? wall) && (wall <=? MAX_WALL).

(** The exception of a [datetime] result outside that range. *)
Definition out_of_range : exn := OverflowError "date value out of range".

(** [t.astimezone(tz)] for an aware [t]: the value is first taken to UTC,
    then [tz.fromutc] adds the offset of the table; either step raises
    outside the range. The result is the wall-clock value in the zone. *)
Definition astimezone (tz : Z -> Z) (t : Z) : result Z :=
  if in_range t && in_range (t + tz t) then Ok (t + tz t)
  else Raise out_of_range.

(** [timedelta(minutes=30)] *)
Definition HALF_HOUR : Z := 1800.

(** ** The slot generator: [get_availability] of the backend *)

(** An entry of [busy_slots]: [event['start'].get('dateTime')] and
    [event['end'].get('dateTime')], [None] for an event that carries no
    [dateTime] (an all-day event). *)
Record busy_slot : Type := {
  bs_start : option Z;
  bs_end : option Z
}.

(** The exception of [None.replace('Z', '+00:00')]. *)
Definition none_replace : exn :=
  AttributeError "'NoneType' object has no attribute 'replace'".

(** [any(fromisoformat(slot['start']) < slot_end and
         fromisoformat(slot['end']) > current_time for slot in busy_slots)];
    [and] and [any] are lazy, so an entry's [end] is read only when its
    [start] passed, and no entry is read after the first overlap. *)
Fixpoint any_overlap (current_time slot_end : Z) (busy_slots : list busy_slot)
  : result bool :=
  match busy_slots with
  | [] => Ok false
  | slot :: rest =>
      match bs_start slot with
      | None => Raise none_replace
      | Some st =>
          if st <? slot_end then
            match bs_end slot with
            | None => Raise none_replace
            | Some en =>
                if en >? current_time then Ok true
                else any_overlap current_time slot_end rest
            end
          else any_overlap current_time slot_end rest
      end
  end.

(** The [while current_time < end_time] loop; [fuel] bounds the number of
    iterations. [current_time] keeps the UTC offset [offset] that
    [start_time] was written with, so [current_time + timedelta(minutes=30)]
    raises when that local value leaves the range of [datetime]. *)
Fixpoint slot_loop (tz : Z -> Z) (offset : Z) (fuel : nat)
    (current_time end_time : Z) (busy_slots : list busy_slot)
  : result (list Z) :=
  match fuel with
  | O => Ok []
  | S fuel' =>
      if current_time <? end_time then
        if negb (in_range (current_time + offset + HALF_HOUR)) then
          Raise out_of_range
        else
          let slot_end := current_time + HALF_HOUR in
          match astimezone tz current_time with
          | Raise e => Raise e
          | Ok _ =>
              if (9 <=? ist_hour tz current_time)
                 && (ist_hour tz current_time <? 18) then
                match any_overlap current_time slot_end busy_slots with
                | Raise e => Raise e
                | Ok true =>
                    slot_loop tz offset fuel' slot_end end_time busy_slots
                | Ok false =>
                    match
                      slot_loop tz offset fuel' slot_end end_time busy_slots
                    with
                    | Raise e => Raise e
                    | Ok rest => Ok (current_time :: rest)
                    end
                end
              else slot_loop tz offset fuel' slot_end end_time busy_slots
          end
      else Ok []
  end.

(** The number of iterations the loop makes from [start_time]. *)
Definition iterations (start_time end_time : Z) : nat :=
  Z.to_nat ((end_time - start_time + HALF_HOUR - 1) / HALF_HOUR).

Inductive http_response (A : Type) : Type :=
| Http200 (body : A)
| HttpError (status : Z) (detail : string).
Arguments Http200 {A} body.
Arguments HttpError {A} status detail.

(** [GET /availability], for the zone table [tz], from the parsed
    [start_time] (its instant and the UTC offset it was written with, 0
    when it has none) and [end_time] and the events the calendar lists for
    that range. *)
Definition get_availability (tz : Z -> Z) (offset : Z)
    (start_time end_time : Z) (busy_slots : list busy_slot)
  : http_response (list Z) :=
  if start_time >=? end_time then
    HttpError 400 "start_time must be before end_time"
  else
    let body :=
      match astimezone tz start_time with      (* start_ist *)
      | Raise e => Raise e
      | Ok _ =>
          match astimezone tz end_time with    (* end_ist *)
          | Raise e => Raise e
          | Ok _ =>
              slot_loop tz offset (iterations start_time end_time)
                start_time end_time busy_slots
          end
      end in
    match body with
    | Ok available_slots => Http200 available_slots
    | Raise e =>
        HttpError 500 ("Error fetching availability: " ++ str_exn e)%string
    end.

(** ** The two patterns of the agent *)

(** The longest run of [\s] at the start of [s]: its length and the rest. *)
Fixpoint skip_spaces (s : string) : nat * string :=
  match s with
  | EmptyString => (O, s)
  | String c r =>
      if is_space c then let (n, r') := skip_spaces r in (S n, r') else (O, s)
  end.

Inductive meridian : Type := AM | PM.

(** [\s*(am|pm)] at the start of [s]: group 3 and the length matched. A run
    of [\s] shorter than the longest leaves a space where [a] or [p] is
    required, so only the longest run is tried. *)
Definition match_meridian (s : string) : option (meridian * nat) :=
  let (n, r) := skip_spaces s in
  if prefix "am" r then Some (AM, (n + 2)%nat)
  else if prefix "pm" r then Some (PM, (n + 2)%nat)
  else None.

(** [(?::(\d{2}))?\s*(am|pm)]: the optional group is tried first, and
    given up when the rest fails after it. *)
Definition match_minutes_meridian (s : string) : option (meridian * nat) :=
  match s with
  | String ":" (String a (String b r)) =>
      if is_digit a && is_digit b then
        match match_meridian r with
        | Some (m, n) => Some (m, (3 + n)%nat)
        | None => match_meridian s
        end
      else match_meridian s
  | _ => match_meridian s
  end.

(** A match of [(\d{1,2})(?::(\d{2}))?\s*(am|pm)]: [int(group(1))],
    [group(3)] and the length of the match. *)
Record time_match : Type := {
  tm_hour : Z;
  tm_meridian : meridian;
  tm_len : nat
}.

(** The pattern tried at the start of [s]: two digits before one. *)
Definition match_time_at (s : string) : option time_match :=
  match s with
  | EmptyString => None
  | String a r1 =>
      if is_digit a then
        let one_digit :=
          match match_minutes_meridian r1 with
          | Some (m, n) =>
              Some {| tm_hour := digit_value a; tm_meridian := m;
                      tm_len := S n |}
          | None => None
          end in
        match r1 with
        | EmptyString => one_digit
        | String b r2 =>
            if is_digit b then
              match match_minutes_meridian r2 with
              | Some (m, n) =>
                  Some {| tm_hour := 10 * digit_value a + digit_value b;
                          tm_meridian := m; tm_len := S (S n) |}
              | None => one_digit
              end
            else one_digit
        end
      else None
  end.

(** [re.finditer]: the matches from left to right, the search resuming
    where the last match ended; [skip] counts the characters of [s] that
    still belong to the last match. *)
Fixpoint finditer_time (skip : nat) (s : string) : list time_match :=
  match s with
  | EmptyString => []
  | String _ r =>
      match skip with
      | S k => finditer_time k r
      | O =>
          match match_time_at s with
          | Some m => m :: finditer_time (tm_len m - 1) r
          | None => finditer_time O r
          end
      end
  end.

(** The body of the [for match in time_match] loop of [suggest_slots]. *)
Definition hour24 (m : time_match) : Z :=
  let hour := tm_hour m in
  match tm_meridian m with
  | PM => if negb (hour =? 12) then hour + 12 else hour
  | AM => if hour =? 12 then 0 else hour
  end.

Definition requested_hours (message : string) : list Z :=
  map hour24 (finditer_time O message).

Fixpoint drop (n : nat) (s : string) : string :=
  match n, s with
  | S k, String _ r => drop k r
  | _, _ => s
  end.

(** [month_map], in the order of the alternatives of [date_pattern]. *)
Definition month_map : list (string * Z) :=
  [("january", 1); ("february", 2); ("march", 3); ("april", 4); ("may", 5);
   ("june", 6); ("july", 7); ("august", 8); ("september", 9);
   ("october", 10); ("november", 11); ("december", 12)]%string.

Fixpoint match_month (months : list (string * Z)) (s : string)
  : option (Z * string) :=
  match months with
  | [] => None
  | (name, number) :: rest =>
      if prefix name s then Some (number, drop (String.length name) s)
      else match_month rest s
  end.

Definition int2 (a b : ascii) : Z := 10 * digit_value a + digit_value b.

(** [\s*(\d{4})] *)
Definition match_year (s : string) : option Z :=
  match snd (skip_spaces s) with
  | String a (String b (String c (String d _))) =>
      if is_digit a && is_digit b && is_digit c && is_digit d
      then Some (100 * int2 a b + int2 c d) else None
  | _ => None
  end.

(** [(\d{1,2}),\s*(\d{4})]: day and year. *)
Definition match_day_year (s : string) : option (Z * Z) :=
  match s with
  | String a r1 =>
      if is_digit a then
        let one_digit :=
          match r1 with
          | String "," r2 =>
              match match_year r2 with
              | Some y => Some (digit_value a, y)
              | None => None
              end
          | _ => None
          end in
        match r1 with
        | String b (String "," r3) =>
            if is_digit b then
              match match_year r3 with
              | Some y => Some (int2 a b, y)
              | None => one_digit
              end
            else one_digit
        | _ => one_digit
        end
      else None
  | EmptyString => None
  end.

(** [date_pattern] tried at the start of [s]: month number, day, year. *)
Definition match_date_at (s : string) : option (Z * Z * Z) :=
  match match_month month_map s with
  | None => None
  | Some (month, r) =>
      match r with
      | String c _ =>
          if is_space c then
            match match_day_year (snd (skip_spaces r)) with
            | Some (day, year) => Some (month, day, year)
            | None => None
            end
          else None
      | EmptyString => None
      end
  end.

(** [re.search(date_pattern, message)]: the leftmost match. *)
Fixpoint search_date (s : string) : option (Z * Z * Z) :=
  match match_date_at s with
  | Some m => Some m
  | None =>
      match s with
      | EmptyString => None
      | String _ r => search_date r
      end
  end.

(** ** Dates: the arithmetic of [datetime] *)

Definition is_leap (year : Z) : bool :=
  (year mod 4 =? 0) && (negb (year mod 100 =? 0) || (year mod 400 =? 0)).

Definition days_in_month (year month : Z) : Z :=
  if (month =? 2) && is_leap year then 29
  else nth (Z.to_nat month) [0; 31; 28; 31; 30; 31; 30; 31; 31; 30; 31; 30; 31] 0.

Definition days_before_year (year : Z) : Z :=
  let y := year - 1 in y * 365 + y / 4 - y / 100 + y / 400.

Definition days_before_month (year month : Z) : Z :=
  nth (Z.to_nat month) [0; 0; 31; 59; 90; 120; 151; 181; 212; 243; 273; 304; 334] 0
  + (if (2 <? month) && is_leap year then 1 else 0).

(** [date(year, month, day).toordinal()] *)
Definition ymd2ord (year month day : Z) : Z :=
  days_before_year year + days_before_month year month + day.

(** The ordinal of 1970-01-01 and of [date.max]. *)
Definition EPOCH_ORDINAL : Z := 719163.
Definition MAX_ORDINAL : Z := 3652059.

Definition DAY : Z := 86400.

(** [datetime.combine(date, datetime.min.time(), tzinfo=pytz.UTC)] *)
Definition midnight_utc (ordinal : Z) : Z := (ordinal - EPOCH_ORDINAL) * DAY.

(** [now.date().toordinal()] for [now] in UTC. *)
Definition date_ordinal (now : Z) : Z := now / DAY + EPOCH_ORDINAL.

(** [date.weekday()]: Monday is 0. *)
Definition weekday (ordinal : Z) : Z := (ordinal + 6) mod 7.

(** [datetime(year, month, day, tzinfo=pytz.UTC)], for a month of
    [month_map]. *)
Definition datetime_utc (year month day : Z) : result Z :=
  if negb ((1 <=? year) && (year <=? 9999)) then
    Raise (ValueError ("year " ++ NilZero.string_of_int (Z.to_int year)
                       ++ " is out of range")%string)
  else if negb ((1 <=? day) && (day <=? days_in_month year month)) then
    Raise (ValueError "day is out of range for month")
  else Ok (midnight_utc (ymd2ord year month day)).

(** [t + timedelta(days=n)] *)
Definition add_days (t n : Z) : result Z :=
  if date_ordinal (t + n * DAY) <=? MAX_ORDINAL then Ok (t + n * DAY)
  else Raise (OverflowError "date value out of range").

(** [t.replace(hour=h, minute=0, second=0, microsecond=0)] on a UTC value. *)
Definition replace_hour (t h : Z) : Z := t / DAY * DAY + h * 3600.

(** ** The date parser: [parse_user_date] *)

(** [day_map], in insertion order, for [today] given by its ordinal. The
    clock is taken to read a date more than a week before [date.max], so
    that no entry overflows. *)
Definition day_map (today : Z) : list (string * Z) :=
  let wd := weekday today in
  [("today", today);
   ("tomorrow", today + 1);
   ("monday", today + (0 - wd) mod 7);
   ("tuesday", today + (1 - wd) mod 7);
   ("wednesday", today + (2 - wd) mod 7);
   ("thursday", today + (3 - wd) mod 7);
   ("friday", today + (4 - wd) mod 7);
   ("saturday", today + (5 - wd) mod 7);
   ("sunday", today + (6 - wd) mod 7)]%string.

(** The [for day, date in day_map.items()] loop with its [break]. *)
Fixpoint first_day (entries : list (string * Z)) (message : string)
  : option Z :=
  match entries with
  | [] => None
  | (day, date) :: rest =>
      if contains day message then Some date else first_day rest message
  end.

(** Rules 1 and 2: [start_date] and [end_date] after the keyword loop. *)
Definition keyword_range (now : Z) (message : string)
  : option Z * option Z :=
  match first_day (day_map (date_ordinal now)) message with
  | Some date => (Some (midnight_utc date), Some (midnight_utc date + DAY))
  | None => (None, None)
  end.

(** Rule 3: the [if match:] block, which assigns both variables whatever
    they held. *)
Definition explicit_range (before : option Z * option Z) (message : string)
  : result (option Z * option Z) :=
  match search_date message with
  | None => Ok before
  | Some (month, day, year) =>
      match datetime_utc year month day with
      | Raise e => Raise e
      | Ok start_date =>
          match add_days start_date 1 with
          | Raise e => Raise e
          | Ok end_date => Ok (Some start_date, Some end_date)
          end
      end
  end.

Definition any_slot_keyword (message : string) : bool :=
  (contains "any slot" message || contains "any time" message
   || contains "whole day" message || contains "all day" message)%string.

(** Rules 4 and 5: the final [if]/[elif]. *)
Definition narrow_range (now : Z) (range : option Z * option Z)
    (message : string) : option Z * option Z :=
  match range with
  | (Some start_date, end_date) =>
      if contains "afternoon" message then
        let start_date := replace_hour start_date 12 in
        (Some start_date, Some (replace_hour start_date 18))
      else if any_slot_keyword message then
        let start_date := replace_hour start_date 9 in
        (Some start_date, Some (replace_hour start_date 18))
      else range
  | (None, end_date) =>
      if any_slot_keyword message then
        let start_date := replace_hour (now + DAY) 9 in
        (Some start_date, Some (replace_hour start_date 18))
      else range
  end.

Definition parse_user_date (now : Z) (message : string)
  : result (option Z * option Z) :=
  let message := lower message in
  match explicit_range (keyword_range now message) message with
  | Raise e => Raise e
  | Ok range => Ok (narrow_range now range message)
  end.

(** ** The agent: state, collaborators and effects *)

(** An entry of [state["messages"]]: a dict with the key ["content"] or
    the key ["error"], and ["role"]. *)
Inductive turn : Type :=
| Content (content role : string)
| Error (error role : string).

(** An event of [GET /upcoming-events]: ['id'], ['summary'] and
    ['start']['dateTime'], the last two absent from some calendar events. *)
Record event : Type := {
  ev_id : string;
  ev_summary : option string;
  ev_start : option Z
}.

Record AgentState : Type := {
  messages : list turn;
  intent : string;
  suggested_slots : list Z;
  confirmed_slot : option Z;
  time_zone : string;
  events : list event
}.

(** The prompt templates, each with the arguments of its [format]. *)
Inductive prompt : Type :=
| intention_prompt (message history : string)
| suggestion_prompt (message : string) (slots : list string) (history : string)
| confirmation_prompt (slot selected_message history : string).

Inductive llm_reply : Type :=
| Completion (content : string)
| LlmFailure (e : string).

(** What an [httpx] call gives once [raise_for_status()] has run: the JSON
    body, an [HTTPStatusError], or another exception of the transport. *)
Inductive http_reply (A : Type) : Type :=
| Reply (body : A)
| HTTPStatusError (e : string)
| RequestError (e : string).
Arguments Reply {A} body.
Arguments HTTPStatusError {A} e.
Arguments RequestError {A} e.

Record env : Type := {
  llm_invoke : prompt -> llm_reply;
  (** [parser.parse(message, fuzzy=True).time()]: hour and minute, [None]
      when it raises *)
  fuzzy_time : string -> option (Z * Z);
  (** [astimezone(tz).strftime("%B %d, %Y, %I:%M %p")] *)
  strftime_ist : Z -> string;
  (** [datetime.now(pytz.UTC)] *)
  now_utc : Z;
  (** [pytz.timezone("Asia/Kolkata")]: its offset at a UTC instant *)
  asia_kolkata : Z -> Z;
  backend_availability : Z -> Z -> http_reply (list Z);
  backend_book : Z -> Z -> string -> string -> http_reply string;
  backend_upcoming_events : http_reply (list event);
  backend_cancel : string -> http_reply unit
}.

(** The calls a turn makes, in the order it makes them. *)
Inductive effect : Type :=
| LlmInvoke (p : prompt)
| GetAvailability (start_time end_time : Z)
| PostBook (start_time end_time : Z) (summary description : string)
| GetUpcomingEvents
| DeleteCancel (event_id : string).

(** A computation that may raise and that logs its calls. *)
Definition M (A : Type) : Type := list effect -> result A * list effect.

Definition ret {A : Type} (a : A) : M A := fun log => (Ok a, log).

Definition raise {A : Type} (e : exn) : M A := fun log => (Raise e, log).

Definition lift {A : Type} (r : result A) : M A := fun log => (r, log).

Definition bind {A B : Type} (m : M A) (k : A -> M B) : M B :=
  fun log =>
    match m log with
    | (Ok a, log') => k a log'
    | (Raise e, log') => (Raise e, log')
    end.

Definition perform {A : Type} (ev : effect) (answer : A) : M A :=
  fun log => (Ok answer, log ++ [ev]).

Declare Scope agent_scope.
Delimit Scope agent_scope with agent.
Notation "x <- m ;; k" := (bind m (fun x => k))
  (at level 61, m at next level, right associativity) : agent_scope.

(** Running a computation from an empty log. *)
Definition run {A : Type} (m : M A) : result A * list effect := m [].

Definition NL : string := String (ascii_of_nat 10) EmptyString.

Definition ASSISTANT : string := "assistant".

Definition get_content (t : turn) : result string :=
  match t with
  | Content content _ => Ok content
  | Error _ _ => Raise (KeyError "content")
  end.

(** [state["messages"][-1]] *)
Definition last_message (ms : list turn) : result turn :=
  match rev ms with
  | [] => Raise IndexError
  | t :: _ => Ok t
  end.

(** [state["messages"][-1]["content"]] *)
Definition last_content (ms : list turn) : result string :=
  match last_message ms with
  | Raise e => Raise e
  | Ok t => get_content t
  end.

Fixpoint contents (ms : list turn) : result (list string) :=
  match ms with
  | [] => Ok []
  | t :: rest =>
      match get_content t with
      | Raise e => Raise e
      | Ok c =>
          match contents rest with
          | Raise e => Raise e
          | Ok cs => Ok (c :: cs)
          end
      end
  end.

(** ["\n".join(msg["content"] for msg in state["messages"][:-1])] *)
Definition history_of (ms : list turn) : result string :=
  match contents (removelast ms) with
  | Raise e => Raise e
  | Ok cs => Ok (join NL cs)
  end.

(** [state["messages"].append(t)] *)
Definition append_message (state : AgentState) (t : turn) : AgentState :=
  {| messages := messages state ++ [t];
     intent := intent state;
     suggested_slots := suggested_slots state;
     confirmed_slot := confirmed_slot state;
     time_zone := time_zone state;
     events := events state |}.

Definition set_intent (state : AgentState) (i : string) : AgentState :=
  {| messages := messages state;
     intent := i;
     suggested_slots := suggested_slots state;
     confirmed_slot := confirmed_slot state;
     time_zone := time_zone state;
     events := events state |}.

Definition set_suggested_slots (state : AgentState) (slots : list Z)
  : AgentState :=
  {| messages := messages state;
     intent := intent state;
     suggested_slots := slots;
     confirmed_slot := confirmed_slot state;
     time_zone := time_zone state;
     events := events state |}.

Definition set_confirmed_slot (state : AgentState) (slot : Z) : AgentState :=
  {| messages := messages state;
     intent := intent state;
     suggested_slots := suggested_slots state;
     confirmed_slot := Some slot;
     time_zone := time_zone state;
     events := events state |}.

Definition set_events (state : AgentState) (evs : list event) : AgentState :=
  {| messages := messages state;
     intent := intent state;
     suggested_slots := suggested_slots state;
     confirmed_slot := confirmed_slot state;
     time_zone := time_zone state;
     events := evs |}.

Definition say (state : AgentState) (content : string) : AgentState :=
  append_message state (Content content ASSISTANT).

Definition say_error (state : AgentState) (error : string) : AgentState :=
  append_message state (Error error ASSISTANT).

(** ** The nodes of the graph *)

Section Nodes.

Variable E : env.

Local Open Scope string_scope.
Local Open Scope Z_scope.
Local Open Scope agent_scope.

(** [llm.invoke(p)] *)
Definition invoke (p : prompt) : M llm_reply :=
  perform (LlmInvoke p) (llm_invoke E p).

Definition identify_intent (state : AgentState) : M AgentState :=
  message <- lift (last_content (messages state)) ;;
  history <- lift (history_of (messages state)) ;;
  response <- invoke (intention_prompt message history) ;;
  match response with
  | Completion content => ret (set_intent state (strip content))
  | LlmFailure e =>
      ret (set_intent
             (say_error state
                ("Error processing request: " ++ e ++ ". Please try again."))
             "unclear")
  end.

Definition check_availability_node (state : AgentState) : M AgentState :=
  content <- lift (last_content (messages state)) ;;
  let message := lower (strip content) in
  range <- lift (parse_user_date (now_utc E) message) ;;
  let range :=
    match range with
    | (Some start_date, end_date) => (start_date, end_date)
    | (None, _) =>
        let start_date := replace_hour (now_utc E + DAY) 0 in
        (start_date, Some (start_date + 7 * DAY))
    end in
  match range with
  | (_, None) =>
      raise (AttributeError "'NoneType' object has no attribute 'astimezone'")
  | (start_date, Some end_date) =>
      response <- perform (GetAvailability start_date end_date)
                    (backend_availability E start_date end_date) ;;
      match response with
      | Reply slots =>
          let state := set_suggested_slots state slots in
          let formatted_slots := map (strftime_ist E) (firstn 5 slots) in
          ret (say state ("Available slots in Asia/Kolkata: "
                          ++ join ", " formatted_slots))
      | HTTPStatusError e =>
          ret (say_error state ("Error checking availability: " ++ e))
      | RequestError e => raise (TransportError e)
      end
  end.

(** [dt.hour in requested_hours] *)
Definition hour_requested (requested : list Z) (slot : Z) : bool :=
  existsb (Z.eqb (ist_hour (asia_kolkata E) slot)) requested.

(** The [for slot in slots] loop that fills [prioritized_slots]. *)
Fixpoint prioritize_loop (requested : list Z) (slots prioritized : list Z)
  : list Z :=
  match slots with
  | [] => prioritized
  | slot :: rest =>
      if hour_requested requested slot
      then prioritize_loop requested rest (prioritized ++ [slot])%list
      else prioritize_loop requested rest prioritized
  end.

Definition prioritized_slots (requested slots : list Z) : list Z :=
  match requested with
  | [] => []
  | _ => prioritize_loop requested slots []
  end.

Definition anytime_keyword (message : string) : bool :=
  contains "anytime" message || contains "whole day" message
  || contains "all day" message || contains "any slot" message.

Definition filtered_slots (message : string) (prioritized slots : list Z)
  : list Z :=
  match prioritized with
  | [] =>
      if anytime_keyword message
      then filter (fun slot => (9 <=? ist_hour (asia_kolkata E) slot)
                               && (ist_hour (asia_kolkata E) slot <? 18))
             slots
      else slots
  | _ => prioritized
  end.

(** The slots handed to [suggestion_prompt]: [filtered_slots[:5]]. *)
Definition presented_slots (message : string) (slots : list Z) : list Z :=
  firstn 5
    (filtered_slots message
       (prioritized_slots (requested_hours message) slots) slots).

Definition greetings : list string := ["hi"; "hello"; "hey"].

Definition suggest_slots (state : AgentState) : M AgentState :=
  content <- lift (last_content (messages state)) ;;
  let message := lower (strip content) in
  history <- lift (history_of (messages state)) ;;
  let slots := suggested_slots state in
  if existsb (fun greet => contains greet message) greetings then
    ret (say state "Hi!")
  else if contains "good morning" message
          && (ist_hour (asia_kolkata E) (now_utc E) <? 12) then
    ret (say state "Good morning!")
  else
    match slots with
    | [] =>
        ret (say state
               "No available slots found. Please try a different time or date.")
    | _ =>
        match map (strftime_ist E) (presented_slots message slots) with
        | [] =>
            ret (say state
                   "No matching slots found. Would you like to see other time ranges?")
        | formatted_slots =>
            response <- invoke
                          (suggestion_prompt message formatted_slots history) ;;
            match response with
            | Completion content => ret (say state (strip content))
            | LlmFailure e =>
                ret (say_error state
                       ("Error suggesting slots: " ++ e ++ ". Please try again."))
            end
        end
    end.

(** The [for i, slot in enumerate(slots, 1)] loop with its [break]; [i] is
    the index of the head of [slots]. *)
Fixpoint index_loop (i : nat) (slots : list Z) (message : string)
  : option Z :=
  match slots with
  | [] => None
  | slot :: rest =>
      if contains (str i) message || contains ("slot " ++ str i) message
         || (contains "first" message && (i =? 1)%nat)
      then Some slot
      else index_loop (S i) rest message
  end.

(** The [for slot in slots] loop on the parsed time, with its [break]. *)
Fixpoint time_loop (hour minute : Z) (slots : list Z) : option Z :=
  match slots with
  | [] => None
  | slot :: rest =>
      if (ist_hour (asia_kolkata E) slot =? hour)
         && (Z.abs (ist_minute (asia_kolkata E) slot - minute) <=? 15)
      then Some slot
      else time_loop hour minute rest
  end.

(** [selected_slot] when the three attempts of [confirm_booking] have run. *)
Definition select_slot (slots : list Z) (message : string) : option Z :=
  let selected_slot := index_loop 1 slots message in
  let selected_slot :=
    match selected_slot with
    | Some _ => selected_slot
    | None =>
        match fuzzy_time E message with
        | Some (hour, minute) => time_loop hour minute slots
        | None => None
        end
    end in
  match selected_slot, slots with
  | None, slot :: _ => Some slot
  | _, _ => selected_slot
  end.

Definition confirm_booking (state : AgentState) : M AgentState :=
  content <- lift (last_content (messages state)) ;;
  let message := lower (strip content) in
  let slots := suggested_slots state in
  match select_slot slots message with
  | None =>
      ret (say state
             "No available slots to confirm. Please check availability first.")
  | Some selected_slot =>
      let state := set_confirmed_slot state selected_slot in
      let formatted_slot := strftime_ist E selected_slot in
      match history_of (messages state) with
      | Raise e =>
          ret (say_error state
                 ("Error confirming booking: " ++ str_exn e
                  ++ ". Please try again."))
      | Ok history =>
          response <- invoke
                        (confirmation_prompt formatted_slot message history) ;;
          match response with
          | LlmFailure e =>
              ret (say_error state
                     ("Error confirming booking: " ++ e ++ ". Please try again."))
          | Completion content =>
              let state := say state (strip content) in
              let start_time := selected_slot in
              let end_time := start_time + HALF_HOUR in
              booked <- perform
                          (PostBook start_time end_time "Meeting"
                             "Booked via TailorTalk")
                          (backend_book E start_time end_time "Meeting"
                             "Booked via TailorTalk") ;;
              match booked with
              | Reply message => ret (say state ("Booking confirmed: " ++ message))
              | HTTPStatusError e =>
                  ret (say_error state ("Error booking appointment: " ++ e))
              | RequestError e => raise (TransportError e)
              end
          end
      end
  end.

(** One line of [event_list], for the event at 0-based index [i]. *)
Definition event_line (i : nat) (e : event) : result string :=
  match ev_summary e with
  | None => Raise (KeyError "summary")
  | Some summary =>
      match ev_start e with
      | None => Raise (KeyError "dateTime")
      | Some start =>
          Ok (str (i + 1) ++ ". " ++ summary ++ " at " ++ strftime_ist E start)
      end
  end.

Fixpoint event_lines (i : nat) (evs : list event) : result (list string) :=
  match evs with
  | [] => Ok []
  | e :: rest =>
      match event_line i e with
      | Raise x => Raise x
      | Ok line =>
          match event_lines (S i) rest with
          | Raise x => Raise x
          | Ok lines => Ok (line :: lines)
          end
      end
  end.

(** The [for i in range(len(events))] loop with its [break], from [i]. *)
Fixpoint selected_index (i : nat) (evs : list event) (message : string)
  : option nat :=
  match evs with
  | [] => None
  | _ :: rest =>
      if contains (str (i + 1)) message then Some i
      else selected_index (S i) rest message
  end.

Definition cancel_booking (state : AgentState) : M AgentState :=
  response <- perform GetUpcomingEvents (backend_upcoming_events E) ;;
  match response with
  | HTTPStatusError e =>
      ret (say_error state ("Error fetching upcoming events: " ++ e))
  | RequestError e => raise (TransportError e)
  | Reply evs =>
      let state := set_events state evs in
      content <- lift (last_content (messages state)) ;;
      let message := lower (strip content) in
      match evs with
      | [] => ret (say state "No upcoming bookings found.")
      | _ =>
          lines <- lift (event_lines 0 evs) ;;
          let event_list := join NL lines in
          if negb (contains "select" message)
             && negb (existsb (fun i => contains (str (i + 1)) message)
                        (seq 0 (List.length evs)))
          then
            ret (say state
                   ("Please select an event to cancel:" ++ NL ++ event_list))
          else
            match selected_index 0 evs message with
            | None =>
                ret (say state
                       ("Please specify the event number to cancel:" ++ NL
                        ++ event_list))
            | Some selected =>
                match nth_error evs selected with
                | None => raise IndexError
                | Some ev =>
                    match ev_start ev, ev_summary ev with
                    | Some start, Some summary =>
                        let event_time := strftime_ist E start in
                        deleted <- perform (DeleteCancel (ev_id ev))
                                     (backend_cancel E (ev_id ev)) ;;
                        match deleted with
                        | Reply _ =>
                            ret (say state
                                   ("Cancelled booking: " ++ summary ++ " at "
                                    ++ event_time))
                        | HTTPStatusError e =>
                            ret (say_error state
                                   ("Error cancelling booking: " ++ e))
                        | RequestError e => raise (TransportError e)
                        end
                    | None, _ => raise (KeyError "dateTime")
                    | _, None => raise (KeyError "summary")
                    end
                end
            end
      end
  end.

Definition route (state : AgentState) : string :=
  let intent := intent state in
  if String.eqb intent "book_appointment" then "check_availability"
  else if String.eqb intent "check_availability" then "check_availability"
  else if String.eqb intent "confirm_booking" then "confirm_booking"
  else if String.eqb intent "cancel" then "cancel"
  else "suggest_slots".

(** The compiled graph: entry point [identify_intent], the conditional
    edges of [route], the edge from [check_availability] to
    [suggest_slots], and the edges to [END]. *)
Definition workflow (state : AgentState) : M AgentState :=
  state <- identify_intent state ;;
  let next := route state in
  if String.eqb next "check_availability" then
    state <- check_availability_node state ;;
    suggest_slots state
  else if String.eqb next "suggest_slots" then suggest_slots state
  else if String.eqb next "confirm_booking" then confirm_booking state
  else cancel_booking state.

End Nodes.

(** The state [main] builds for a turn, from the session's messages. *)
Definition initial_state (session : list turn) : AgentState :=
  {| messages := session;
     intent := "";
     suggested_slots := [];
     confirmed_slot := None;
     time_zone := "Asia/Kolkata";
     events := [] |}.

(** The closed set of intents of [intention_prompt]. *)
Definition INTENTS : list string :=
  ["book_appointment"; "check_availability"; "confirm_booking"; "cancel";
   "unclear"]%string.

(** ** The chat loop: [main] *)

(** [new_message["role"] = "assistant"] *)
Definition as_assistant (t : turn) : turn :=
  match t with
  | Content content _ => Content content ASSISTANT
  | Error error _ => Error error ASSISTANT
  end.

Definition role_of (t : turn) : string :=
  match t with
  | Content _ role => role
  | Error _ role => role
  end.

(** [[{"content": msg["content"], "role": msg["role"]} for msg in
    st.session_state.messages]] *)
Fixpoint copy_messages (session : list turn) : result (list turn) :=
  match session with
  | [] => Ok []
  | t :: rest =>
      match get_content t with
      | Raise e => Raise e
      | Ok content =>
          match copy_messages rest with
          | Raise e => Raise e
          | Ok copied => Ok (Content content (role_of t) :: copied)
          end
      end
  end.

(** The turn of [main]'s [except Exception as e]. *)
Definition apology (e : exn) : turn :=
  Content ("Sorry, something went wrong: " ++ str_exn e
           ++ ". Please try again.")%string ASSISTANT.

(** [st.session_state.messages] when the script first runs. *)
Definition greeting_session : list turn :=
  [Content "Hello! How can I assist you today?" "assistant"].

(** The loop of the script that shows the chat history, run before [main]
    on every run of the script: it reads the role and the content of every
    stored message, and gives the lines written. *)
Fixpoint display_history (session : list turn) : result (list string) :=
  match session with
  | [] => Ok []
  | message :: rest =>
      match get_content message with
      | Raise e => Raise e
      | Ok content =>
          let line :=
            if String.eqb (role_of message) "assistant"
            then ("**AI:** " ++ content)%string
            else ("**You:** " ++ content)%string in
          match display_history rest with
          | Raise e => Raise e
          | Ok lines => Ok (line :: lines)
          end
      end
  end.

(** The body of [if prompt := st.chat_input(...)] in [main], for the text
    [prompt]: the messages of the session afterwards, and the calls made.
    What is written to the chat is left out. *)
Definition main_turn (E : env) (session : list turn) (prompt : string)
  : list turn * list effect :=
  let session := session ++ [Content prompt "user"] in
  match copy_messages session with
  | Raise e => (session ++ [apology e], [])
  | Ok copied =>
      match run (workflow E (initial_state copied)) with
      | (Raise e, log) => (session ++ [apology e], log)
      | (Ok result, log) =>
          match last_message (messages result) with
          | Raise e => (session ++ [apology e], log)
          | Ok new_message =>
              let new_message := as_assistant new_message in
              let session := session ++ [new_message] in
              match get_content new_message with
              | Raise e => (session ++ [apology e], log)
              | Ok _ => (session, log)
              end
          end
      end
  end.

(** [main]: [st.chat_input] gives [None] until a text is sent, and the
    guard passes neither [None] nor an empty text. *)
Definition main (E : env) (session : list turn) (prompt : option string)
  : list turn * list effect :=
  match prompt with
  | Some (String _ _ as prompt) => main_turn E session prompt
  | _ => (session, [])
  end.

(** One run of the script, as it is run again for every interaction: the
    session is initialised when nothing is stored, the history is shown,
    then [main] runs. When the run raises, the stored session is as it
    was. *)
Definition script_run (E : env) (stored : option (list turn))
    (prompt : option string) : result (list turn * list effect) :=
  let session :=
    match stored with
    | None => greeting_session
    | Some messages => messages
    end in
  match display_history session with
  | Raise e => Raise e
  | Ok _ => Ok (main E session prompt)
  end.

(** ** The booking endpoint: [book_appointment] of the backend *)

(** [datetime.fromisoformat] of a field of the request: the instant, or
    the message of its [ValueError]. *)
Inductive parsed : Type :=
| Instant (t : Z)
| Malformed (msg : string).

(** What the body of the [try] raises. *)
Inductive backend_raise : Type :=
| RaisedValueError (msg : string)
| RaisedHTTPException (status : Z) (detail : string)
| RaisedException (msg : string).

Section Book.

(** [str(e)] of an [HTTPException], which the framework defines. *)
Variable str_http_exception : Z -> string -> string.

(** [get_calendar_service()] followed by [events().insert(...).execute()]:
    the [htmlLink] of the event created, or [str(e)] of the exception
    raised, taken not to be a [ValueError]. *)
Variable calendar_insert : Z -> Z -> string -> string -> string + string.

(** The body of the [try]: what it returns or raises, and the events it
    asked the calendar to insert. *)
Definition book_body (start_time end_time : parsed)
    (summary description : string)
  : (backend_raise + string) * list (Z * Z) :=
  match start_time with
  | Malformed msg => (inl (RaisedValueError msg), [])
  | Instant start_time =>
      match end_time with
      | Malformed msg => (inl (RaisedValueError msg), [])
      | Instant end_time =>
          if start_time >=? end_time then
            (inl (RaisedHTTPException 400 "start_time must be before end_time"),
             [])
          else
            match calendar_insert start_time end_time summary description with
            | inl link =>
                (inr ("Event created: " ++ link)%string,
                 [(start_time, end_time)])
            | inr e => (inl (RaisedException e), [(start_time, end_time)])
            end
      end
  end.

(** [POST /book]: the [except ValueError] clause, then the
    [except Exception] clause, which also catches the [HTTPException] of
    the body. *)
Definition book_appointment (start_time end_time : parsed)
    (summary description : string)
  : http_response string * list (Z * Z) :=
  match book_body start_time end_time summary description with
  | (inr message, inserted) => (Http200 message, inserted)
  | (inl (RaisedValueError msg), inserted) =>
      (HttpError 400 ("Invalid datetime format: " ++ msg)%string, inserted)
  | (inl (RaisedHTTPException status detail), inserted) =>
      (HttpError 500
         ("Error booking appointment: " ++ str_http_exception status detail)%string,
       inserted)
  | (inl (RaisedException msg), inserted) =>
      (HttpError 500 ("Error booking appointment: " ++ msg)%string, inserted)
  end.

End Book.

(** ** The normalisation of the query of [get_availability] *)

(** [s.replace(old, new)] for a non-empty [old]: the occurrences of [old]
    from left to right, not overlapping; [skip] counts the characters of
    [s] that still belong to the last occurrence. *)
Fixpoint replace (skip : nat) (old new s : string) : string :=
  match s with
  | EmptyString => EmptyString
  | String c r =>
      match skip with
      | S k => replace k old new r
      | O =>
          if prefix old s
          then (new ++ replace (String.length old - 1) old new r)%string
          else String c (replace O old new r)
      end
  end.

(** [start.replace(' ', '+').replace(' 00:00', '+00:00').strip()] *)
Definition normalize (s : string) : string :=
  strip (replace O " 00:00" "+00:00" (replace O " " "+" s)).

(** ** Vocabulary of the statements *)

Open Scope string_scope.
Open Scope Z_scope.

(** An entry of [busy_slots] that carries both instants. *)
Definition is_timed (b : busy_slot) : bool :=
  match bs_start b, bs_end b with
  | Some _, Some _ => true
  | _, _ => false
  end.

(** [event.start < slot_end AND event.end > slot_start] for the slot that
    starts at [slot]; an entry without its instants passes no test. *)
Definition overlaps (slot : Z) (b : busy_slot) : bool :=
  match bs_start b, bs_end b with
  | Some st, Some en => (st <? slot + HALF_HOUR) && (en >? slot)
  | _, _ => false
  end.

(** The zone reads an hour from 9 to 17 at [slot]. *)
Definition business_hours (tz : Z -> Z) (slot : Z) : bool :=
  (9 <=? ist_hour tz slot) && (ist_hour tz slot <? 18).

(** What the backend's loop needs of [datetime] at the instant [t] of its
    stride: the end of the slot in the offset of [start_time], the UTC
    value and the value in the zone are all inside the range. *)
Definition representable (tz : Z -> Z) (offset t : Z) : bool :=
  in_range (t + offset + HALF_HOUR) && in_range t && in_range (t + tz t).

(** The instant has a value in the zone. *)
Definition convertible (tz : Z -> Z) (t : Z) : bool :=
  in_range t && in_range (t + tz t).

(** Asia/Kolkata as it stands since 15 October 1945: +05:30 throughout. *)
Definition modern_kolkata : Z -> Z := fun _ => IST_OFFSET.

(** The first [n] instants of the 30-minute stride that starts at [start]. *)
Fixpoint stride (start : Z) (n : nat) : list Z :=
  match n with
  | O => []
  | S n' => start :: stride (start + HALF_HOUR) n'
  end.

(** The instant at which a clock at +05:30 reads the given date and time. *)
Definition ist_datetime (year month day hour minute : Z) : Z :=
  midnight_utc (ymd2ord year month day) + hour * 3600 + minute * 60
  - IST_OFFSET.

(** The user's [content] appended to the messages of [state]. *)
Definition user_says (state : AgentState) (content : string) : AgentState :=
  append_message state (Content content "user").

(** An environment for the examples: a model that always gives [reply], a
    fuzzy parser that finds no time, and a backend whose calendar is empty
    and whose insert and delete fail with a status error. *)
Definition env_answering (reply : llm_reply) : env :=
  {| llm_invoke := fun _ => reply;
     fuzzy_time := fun _ => None;
     strftime_ist := fun t => NilZero.string_of_int (Z.to_int t);
     now_utc := ist_datetime 2025 6 25 15 0;
     asia_kolkata := modern_kolkata;
     backend_availability := fun _ _ => Reply [];
     backend_book := fun _ _ _ _ => HTTPStatusError "500 Internal Server Error";
     backend_upcoming_events := Reply [];
     backend_cancel := fun _ => HTTPStatusError "500 Internal Server Error" |}.

Definition sample_env : env :=
  env_answering (Completion "Your appointment is confirmed.").


(** The test of the index loop of [confirm_booking] for the 1-based
    index [i]. *)
Definition mentions_index (message : string) (i : nat) : bool :=
  contains (str i) message || contains ("slot " ++ str i) message
  || (contains "first" message && (i =? 1)%nat).


Fixpoint has_digit (s : string) : bool :=
  match s with
  | EmptyString => false
  | String c r => is_digit c || has_digit r
  end.

(** A computation only adds calls to the log it is given. *)
Definition appends {A : Type} (m : M A) : Prop :=
  forall log, exists l, snd (m log) = (log ++ l)%list.

(** The entry of [busy_slots] for the event that [POST /book] inserts for
    the slot that starts at [slot]. *)
Definition booked (slot : Z) : busy_slot :=
  {| bs_start := Some slot; bs_end := Some (slot + HALF_HOUR) |}.

(** A computation only adds calls that satisfy [P] to the log it is
    given. *)
Definition emits {A : Type} (P : effect -> Prop) (m : M A) : Prop :=
  forall log, exists l, snd (m log) = (log ++ l)%list /\ Forall P l.

(** A handler that, when it returns, has added between [lo] and [hi] turns
    to the messages of [state] and changed none. *)
Definition adds_turns (state : AgentState) (lo hi : nat)
    (m : M AgentState) : Prop :=
  forall log state' log',
    m log = (Ok state', log') ->
    exists added,
      messages state' = (messages state ++ added)%list
      /\ (lo <= List.length added <= hi)%nat.

Definition WEEKDAYS : list string :=
  ["monday"; "tuesday"; "wednesday"; "thursday"; "friday"; "saturday";
   "sunday"].

Definition not_booking (ev : effect) : Prop :=
  match ev with
  | PostBook _ _ _ _ => False
  | _ => True
  end.

Definition is_error_turn (t : turn) : bool :=
  match t with
  | Error _ _ => true
  | Content _ _ => false
  end.

Fixpoint all_chars (p : ascii -> bool) (s : string) : bool :=
  match s with
  | EmptyString => true
  | String c r => p c && all_chars p r
  end.

Fixpoint map_chars (f : ascii -> ascii) (s : string) : string :=
  match s with
  | EmptyString => EmptyString
  | String c r => String (f c) (map_chars f r)
  end.

Definition is_blank (c : ascii) : bool := Ascii.eqb c " ".

(** What the decoding of a query string does to a value without escapes:
    every "+" becomes a space. *)
Definition form_decoded (s : string) : string :=
  map_chars (fun c => if Ascii.eqb c "+" then " "%char else c) s.

(** The written form of a time of day, as the statements about requested
    hours understand it: one or two digits, then optionally ":" and two
    digits, then any run of white space, then "am" or "pm". It is stated
    on its own, apart from the matcher of the code. *)
Definition meridian_text (mer : meridian) : string :=
  match mer with
  | AM => "am"
  | PM => "pm"
  end.

(** The number that a run of digits writes. *)
Fixpoint decimal_value (acc : Z) (digits : string) : Z :=
  match digits with
  | EmptyString => acc
  | String c r => decimal_value (10 * acc + digit_value c) r
  end.

Inductive minutes_text : string -> Prop :=
| no_minutes : minutes_text ""
| two_digit_minutes (a b : ascii) :
    is_digit a = true -> is_digit b = true ->
    minutes_text (String ":" (String a (String b ""))).

Inductive time_mention : string -> Z -> meridian -> Prop :=
| mention (hour minutes spaces : string) (mer : meridian) :
    (1 <= String.length hour <= 2)%nat ->
    all_chars is_digit hour = true ->
    minutes_text minutes ->
    all_chars is_space spaces = true ->
    time_mention (hour ++ minutes ++ spaces ++ meridian_text mer)
      (decimal_value 0 hour) mer.

(** pm adds 12 except for 12 pm; 12 am becomes 0. *)
Definition to_24_hour (hour : Z) (mer : meridian) : Z :=
  match mer with
  | PM => if hour =? 12 then 12 else hour + 12
  | AM => if hour =? 12 then 0 else hour
  end.

(** * Properties *)

(** ** The slot generator *)

(** When [any] returns, it returns the overlap test over the whole list. *)
Lemma any_overlap_Ok (current_time : Z) (busy : list busy_slot) (r : bool) :
  any_overlap current_time (current_time + HALF_HOUR) busy = Ok r ->
  r = existsb (overlaps current_time) busy.
Proof.
  induction busy as [|b busy IH]; simpl; [congruence|].
  unfold overlaps at 1.
  destruct (bs_start b) as [st|]; [|discriminate].
  destruct (st <? current_time + HALF_HOUR).
  - destruct (bs_end b) as [en|]; [|discriminate].
    destruct (en >? current_time); simpl; [congruence|exact IH].
  - destruct (bs_end b); simpl; exact IH.
Qed.

(** On entries that carry their instants, [any] returns. *)
Lemma any_overlap_timed (current_time : Z) (busy : list busy_slot) :
  forallb is_timed busy = true ->
  exists r,
    any_overlap current_time (current_time + HALF_HOUR) busy = Ok r.
Proof.
  induction busy as [|b busy IH]; simpl; [eauto|].
  intros Ht. apply andb_true_iff in Ht. destruct Ht as [Hb Ht].
  unfold is_timed in Hb.
  destruct (bs_start b) as [st|]; [|discriminate].
  destruct (bs_end b) as [en|]; [|discriminate].
  destruct (st <? current_time + HALF_HOUR); [|auto].
  destruct (en >? current_time); [eauto|auto].
Qed.

Lemma stride_In (n : nat) : forall start t,
  In t (stride start n) <->
  exists k, 0 <= k < Z.of_nat n /\ t = start + HALF_HOUR * k.
Proof.
  unfold HALF_HOUR.
  induction n as [|n IH]; intros start t; simpl stride.
  - split; [intros []|intros (k & Hk & _); lia].
  - simpl In. rewrite IH. split.
    + intros [<-|(k & Hk & ->)].
      * exists 0. lia.
      * exists (k + 1). unfold HALF_HOUR. lia.
    + intros (k & Hk & ->).
      destruct (Z.eq_dec k 0) as [->|Hne]; [left; lia|right].
      exists (k - 1). unfold HALF_HOUR. lia.
Qed.



Lemma filter_past_end (end_time : Z) (g : Z -> bool) (n : nat) (start : Z) :
  end_time <= start ->
  filter (fun t => (t <? end_time) && g t) (stride start n) = [].
Proof.
  intros Hge.
  assert (H : forall t, In t (stride start n) -> (t <? end_time) = false).
  { intros t Ht. apply stride_In in Ht. destruct Ht as (k & Hk & ->).
    apply Z.ltb_ge. unfold HALF_HOUR. lia. }
  induction (stride start n) as [|x l IHl]; simpl; [reflexivity|].
  rewrite (H x (or_introl eq_refl)). simpl.
  apply IHl. intros t Ht. apply H. right. exact Ht.
Qed.

(** When the loop returns, it returns the stride instants below
    [end_time] that pass both filters, whatever the fuel. *)
Lemma slot_loop_Ok (tz : Z -> Z) (offset : Z) (busy : list busy_slot)
    (end_time : Z) (fuel : nat) :
  forall start slots,
  slot_loop tz offset fuel start end_time busy = Ok slots ->
  slots
  = filter (fun t => (t <? end_time)
                     && (business_hours tz t
                         && negb (existsb (overlaps t) busy)))
      (stride start fuel).
Proof.
  induction fuel as [|fuel IH]; intros start slots; simpl;
    [congruence|].
  destruct (start <? end_time) eqn:Hlt; simpl.
  - destruct (negb (in_range (start + offset + HALF_HOUR))); [discriminate|].
    destruct (astimezone tz start) as [wall|e]; [|discriminate].
    fold (business_hours tz start).
    destruct (business_hours tz start); simpl; [|apply IH].
    destruct (any_overlap start (start + HALF_HOUR) busy) as [r|e] eqn:Ha;
      [|discriminate].
    apply any_overlap_Ok in Ha. rewrite <- Ha.
    destruct r; simpl; [apply IH|].
    destruct (slot_loop tz offset fuel (start + HALF_HOUR) end_time busy)
      as [rest|e] eqn:Hl; [|discriminate].
    intros [= <-]. f_equal. apply IH. exact Hl.
  - intros [= <-]. symmetry.
    apply Z.ltb_ge in Hlt. apply filter_past_end. unfold HALF_HOUR. lia.
Qed.

Lemma representable_astimezone (tz : Z -> Z) (offset t : Z) :
  representable tz offset t = true ->
  negb (in_range (t + offset + HALF_HOUR)) = false
  /\ astimezone tz t = Ok (t + tz t).
Proof.
  unfold representable, astimezone. intros H.
  apply andb_true_iff in H. destruct H as [H H3].
  apply andb_true_iff in H. destruct H as [H1 H2].
  rewrite H1, H2, H3. split; reflexivity.
Qed.

(** On entries that carry their instants, and while every instant of the
    stride below [end_time] stays inside the range of [datetime], the loop
    returns. *)
Lemma slot_loop_total (tz : Z -> Z) (offset : Z) (busy : list busy_slot)
    (end_time : Z) (fuel : nat) :
  forallb is_timed busy = true ->
  forall start,
  (forall k, 0 <= k -> start + HALF_HOUR * k < end_time ->
             representable tz offset (start + HALF_HOUR * k) = true) ->
  exists slots, slot_loop tz offset fuel start end_time busy = Ok slots.
Proof.
  intros Ht. induction fuel as [|fuel IH]; intros start Hrep; simpl;
    [eauto|].
  destruct (start <? end_time) eqn:Hlt; [|eauto].
  apply Z.ltb_lt in Hlt.
  assert (Hnext : forall k, 0 <= k ->
            start + HALF_HOUR + HALF_HOUR * k < end_time ->
            representable tz offset (start + HALF_HOUR + HALF_HOUR * k)
            = true).
  { intros k Hk Hb.
    replace (start + HALF_HOUR + HALF_HOUR * k)
      with (start + HALF_HOUR * (k + 1)) in * by (unfold HALF_HOUR; lia).
    apply Hrep; [lia|exact Hb]. }
  assert (Hhere : representable tz offset start = true).
  { assert (H0 := Hrep 0 ltac:(lia) ltac:(unfold HALF_HOUR; lia)).
    replace (start + HALF_HOUR * 0) with start in H0
      by (unfold HALF_HOUR; lia).
    exact H0. }
  destruct (representable_astimezone tz offset start Hhere) as [-> ->].
  destruct ((9 <=? ist_hour tz start) && (ist_hour tz start <? 18));
    [|apply IH; exact Hnext].
  destruct (any_overlap_timed start busy Ht) as [r ->].
  destruct r; [apply IH; exact Hnext|].
  destruct (IH (start + HALF_HOUR) Hnext) as [rest ->]. eauto.
Qed.

Lemma iterations_spec (start_time end_time k : Z) :
  0 <= k ->
  (k < Z.of_nat (iterations start_time end_time)
   <-> start_time + HALF_HOUR * k < end_time).
Proof.
  intros Hk. unfold iterations, HALF_HOUR.
  set (q := (end_time - start_time + 1800 - 1) / 1800).
  assert (Hq : 1800 * q <= end_time - start_time + 1800 - 1 < 1800 * q + 1800).
  { unfold q.
    pose proof (Z.div_mod (end_time - start_time + 1800 - 1) 1800 ltac:(lia)).
    pose proof (Z.mod_pos_bound (end_time - start_time + 1800 - 1) 1800
                  ltac:(lia)).
    lia. }
  lia.
Qed.


(** What [GET /availability] answers past its range check, in terms of the
    loop. *)
Lemma get_availability_200 (tz : Z -> Z) (offset start_time end_time : Z)
    (busy : list busy_slot) (slots : list Z) :
  start_time < end_time ->
  (get_availability tz offset start_time end_time busy = Http200 slots
   <-> convertible tz start_time = true
       /\ convertible tz end_time = true
       /\ slot_loop tz offset (iterations start_time end_time) start_time
            end_time busy = Ok slots).
Proof.
  intros Hlt.
  assert (Hge : (start_time >=? end_time) = false)
    by (rewrite Z.geb_leb; apply Z.leb_gt; lia).
  unfold get_availability, astimezone. rewrite Hge.
  fold (convertible tz start_time). fold (convertible tz end_time).
  destruct (convertible tz start_time); [|split; [discriminate|]].
  - destruct (convertible tz end_time); [|split; [discriminate|]].
    + destruct (slot_loop tz offset (iterations start_time end_time)
                  start_time end_time busy) as [found|e].
      * split; [intros [= ->]; auto|intros (_ & _ & [= ->]); reflexivity].
      * split; [discriminate|intros (_ & _ & [=])].
    + intros (_ & [=] & _).
  - intros ([=] & _).
Qed.

(** The endpoint answers 200 when every event carries its two instants
    and [datetime] can represent what the loop computes. *)
Lemma get_availability_total (tz : Z -> Z) (offset start_time end_time : Z)
    (busy : list busy_slot) :
  start_time < end_time ->
  forallb is_timed busy = true ->
  convertible tz end_time = true ->
  (forall k, 0 <= k -> start_time + HALF_HOUR * k < end_time ->
             representable tz offset (start_time + HALF_HOUR * k) = true) ->
  exists slots,
    get_availability tz offset start_time end_time busy = Http200 slots.
Proof.
  intros Hlt Ht Hend Hrep.
  destruct (slot_loop_total tz offset busy end_time
              (iterations start_time end_time) Ht start_time Hrep)
    as [slots Hloop].
  exists slots. apply get_availability_200; [exact Hlt|].
  split; [|split; [exact Hend|exact Hloop]].
  assert (H0 : representable tz offset (start_time + HALF_HOUR * 0) = true)
    by (apply Hrep; unfold HALF_HOUR; lia).
  replace (start_time + HALF_HOUR * 0) with start_time in H0
    by (unfold HALF_HOUR; lia).
  unfold representable in H0. unfold convertible.
  apply andb_true_iff in H0. destruct H0 as [H0 H3].
  apply andb_true_iff in H0. destruct H0 as [_ H2].
  rewrite H2, H3. reflexivity.
Qed.



(** ** Suggestion mode *)

Lemma append_assoc (a b c : string) : (a ++ b) ++ c = a ++ b ++ c.
Proof.
  induction a as [|x a IH]; cbn [append]; [reflexivity|]. now rewrite IH.
Qed.

Lemma length_append (a b : string) :
  String.length (a ++ b) = (String.length a + String.length b)%nat.
Proof.
  induction a as [|x a IH]; cbn [append String.length]; [reflexivity|].
  now rewrite IH.
Qed.

Lemma prefix_split (p : string) : forall s,
  prefix p s = true -> exists rest, s = p ++ rest.
Proof.
  induction p as [|c p IH]; intros s H; [exists s; reflexivity|].
  destruct s as [|d s]; [discriminate|].
  cbn [prefix] in H. destruct (ascii_dec c d) as [->|]; [|discriminate].
  destruct (IH s H) as [rest ->]. exists rest. reflexivity.
Qed.

Lemma space_not_digit (c : ascii) : is_space c = true -> is_digit c = false.
Proof.
  destruct c as [[] [] [] [] [] [] [] []]; cbv; congruence.
Qed.

Lemma skip_spaces_app (spaces : string) (c : ascii) (r : string) :
  all_chars is_space spaces = true ->
  is_space c = false ->
  skip_spaces (spaces ++ String c r) = (String.length spaces, String c r).
Proof.
  intros Hs Hc.
  induction spaces as [|d sp IH]; cbn [append skip_spaces String.length].
  - rewrite Hc. reflexivity.
  - cbn [all_chars] in Hs. apply andb_true_iff in Hs. destruct Hs as [Hd Hs].
    rewrite Hd, (IH Hs). reflexivity.
Qed.

Lemma skip_spaces_split (s : string) :
  exists spaces,
    s = spaces ++ snd (skip_spaces s)
    /\ all_chars is_space spaces = true
    /\ fst (skip_spaces s) = String.length spaces.
Proof.
  induction s as [|c r IH]; [exists ""; auto|].
  cbn [skip_spaces]. destruct (is_space c) eqn:Hc.
  - destruct IH as (sp & Heq & Hall & Hlen).
    destruct (skip_spaces r) as [n r']. cbn [fst snd] in *.
    exists (String c sp). cbn [append all_chars String.length].
    rewrite Hc, Hall, Hlen. rewrite <- Heq. auto.
  - exists "". auto.
Qed.

(** The matcher of [\s*(am|pm)] finds what is written, and only that. *)
Lemma match_meridian_complete (spaces : string) (mer : meridian)
    (rest : string) :
  all_chars is_space spaces = true ->
  match_meridian (spaces ++ meridian_text mer ++ rest)
  = Some (mer, (String.length spaces + 2)%nat).
Proof.
  intros Hs. unfold match_meridian.
  destruct mer; cbn [meridian_text append].
  - rewrite (skip_spaces_app spaces "a" _ Hs eq_refl).
    destruct rest; reflexivity.
  - rewrite (skip_spaces_app spaces "p" _ Hs eq_refl).
    destruct rest; reflexivity.
Qed.

Lemma match_meridian_sound (s : string) (mer : meridian) (n : nat) :
  match_meridian s = Some (mer, n) ->
  exists spaces rest,
    s = spaces ++ meridian_text mer ++ rest
    /\ all_chars is_space spaces = true
    /\ n = (String.length spaces + 2)%nat.
Proof.
  unfold match_meridian.
  destruct (skip_spaces_split s) as (sp & Heq & Hall & Hlen).
  destruct (skip_spaces s) as [k r]. cbn [fst snd] in *.
  destruct (prefix "am" r) eqn:Ha.
  - intros [= <- <-]. apply prefix_split in Ha. destruct Ha as [rest ->].
    exists sp, rest. subst k. auto.
  - destruct (prefix "pm" r) eqn:Hp; [|discriminate].
    intros [= <- <-]. apply prefix_split in Hp. destruct Hp as [rest ->].
    exists sp, rest. subst k. auto.
Qed.

Lemma match_minutes_meridian_other (c : ascii) (r : string) :
  c <> ":"%char ->
  match_minutes_meridian (String c r) = match_meridian (String c r).
Proof.
  intros H. destruct c as [[] [] [] [] [] [] [] []]; try reflexivity.
  exfalso. apply H. reflexivity.
Qed.

(** What follows the digits of the hour does not start with a digit. *)
Lemma mention_tail_head (minutes spaces : string) (mer : meridian)
    (rest : string) :
  minutes_text minutes ->
  all_chars is_space spaces = true ->
  exists c r,
    minutes ++ spaces ++ meridian_text mer ++ rest = String c r
    /\ is_digit c = false
    /\ (minutes = "" -> c <> ":"%char).
Proof.
  intros Hm Hs. destruct Hm as [|a b Ha Hb].
  - destruct spaces as [|d sp].
    + destruct mer; cbn [append meridian_text]; do 2 eexists;
        (split; [reflexivity|split; [reflexivity|intros _; discriminate]]).
    + cbn [append]. cbn [all_chars] in Hs.
      apply andb_true_iff in Hs. destruct Hs as [Hd _].
      do 2 eexists. split; [reflexivity|].
      split; [apply space_not_digit; exact Hd|].
      intros _ ->. discriminate Hd.
  - cbn [append]. do 2 eexists.
    split; [reflexivity|split; [reflexivity|discriminate]].
Qed.

Lemma match_minutes_meridian_complete (minutes spaces : string)
    (mer : meridian) (rest : string) :
  minutes_text minutes ->
  all_chars is_space spaces = true ->
  match_minutes_meridian (minutes ++ spaces ++ meridian_text mer ++ rest)
  = Some (mer,
          (String.length minutes + String.length spaces + 2)%nat).
Proof.
  intros Hm Hs.
  pose proof (match_meridian_complete spaces mer rest Hs) as Hc.
  destruct (mention_tail_head minutes spaces mer rest Hm Hs)
    as (c & r & Heq & _ & Hcolon).
  destruct Hm as [|a b Ha Hb].
  - cbn [append String.length] in *. rewrite Heq in *.
    rewrite match_minutes_meridian_other; [exact Hc|auto].
  - cbn [append String.length]. cbn [match_minutes_meridian].
    rewrite Ha, Hb. cbn [andb]. rewrite Hc. reflexivity.
Qed.

Lemma match_minutes_meridian_sound (s : string) (mer : meridian) (n : nat) :
  match_minutes_meridian s = Some (mer, n) ->
  exists minutes spaces rest,
    s = minutes ++ spaces ++ meridian_text mer ++ rest
    /\ minutes_text minutes
    /\ all_chars is_space spaces = true
    /\ n = (String.length minutes + String.length spaces + 2)%nat.
Proof.
  assert (Hplain : match_meridian s = Some (mer, n) ->
            exists minutes spaces rest,
              s = minutes ++ spaces ++ meridian_text mer ++ rest
              /\ minutes_text minutes
              /\ all_chars is_space spaces = true
              /\ n = (String.length minutes + String.length spaces + 2)%nat).
  { intros H. apply match_meridian_sound in H.
    destruct H as (sp & rest & -> & Hall & ->).
    exists "", sp, rest. split; [reflexivity|].
    split; [constructor|]. auto. }
  destruct s as [|c r]; [exact Hplain|].
  destruct (ascii_dec c ":") as [->|Hne];
    [|rewrite match_minutes_meridian_other; [exact Hplain|exact Hne]].
  destruct r as [|a [|b r2]]; [exact Hplain|exact Hplain|].
  cbn [match_minutes_meridian].
  destruct (is_digit a && is_digit b) eqn:Hd; [|exact Hplain].
  destruct (match_meridian r2) as [[m k]|] eqn:Hm; [|exact Hplain].
  intros [= <- <-]. apply match_meridian_sound in Hm.
  destruct Hm as (sp & rest & -> & Hall & ->).
  apply andb_true_iff in Hd. destruct Hd as [Ha Hb].
  exists (String ":" (String a (String b ""))), sp, rest.
  split; [reflexivity|]. split; [constructor; assumption|].
  split; [exact Hall|reflexivity].
Qed.

Lemma hour24_to_24_hour (hour : Z) (mer : meridian) (n : nat) :
  hour24 {| tm_hour := hour; tm_meridian := mer; tm_len := n |}
  = to_24_hour hour mer.
Proof.
  unfold hour24, to_24_hour. cbn [tm_hour tm_meridian].
  destruct mer, (Z.eqb_spec hour 12); cbn [negb]; congruence.
Qed.

(** Where a time of day is written, the pattern matches it, whole. *)
Lemma match_time_at_complete (text : string) (hour : Z) (mer : meridian)
    (rest : string) :
  time_mention text hour mer ->
  match_time_at (text ++ rest)
  = Some {| tm_hour := hour; tm_meridian := mer;
            tm_len := String.length text |}.
Proof.
  intros H. destruct H as [h minutes sp mer Hlen Hd Hm Hs].
  rewrite !append_assoc.
  pose proof (match_minutes_meridian_complete minutes sp mer rest Hm Hs)
    as Hmm.
  destruct (mention_tail_head minutes sp mer rest Hm Hs)
    as (c & r & Heq & Hc & _).
  rewrite !length_append.
  assert (Hl : String.length (meridian_text mer) = 2%nat)
    by (destruct mer; reflexivity).
  destruct h as [|a [|b [|x h]]]; cbn [String.length] in Hlen; try lia.
  - cbn [all_chars] in Hd. rewrite andb_true_r in Hd.
    cbn [append]. unfold match_time_at. rewrite Hd, Hmm, Heq, Hc.
    cbn [decimal_value String.length]. rewrite Hl. f_equal. f_equal; lia.
  - cbn [all_chars] in Hd. rewrite andb_true_r in Hd.
    apply andb_true_iff in Hd. destruct Hd as [Ha Hb].
    cbn [append]. unfold match_time_at. rewrite Ha, Hb, Hmm.
    cbn [decimal_value String.length]. rewrite Hl. f_equal. f_equal; lia.
Qed.

(** What the pattern matches is a time of day as written. *)
Lemma match_time_at_sound (s : string) (m : time_match) :
  match_time_at s = Some m ->
  exists text rest,
    s = text ++ rest
    /\ time_mention text (tm_hour m) (tm_meridian m)
    /\ tm_len m = String.length text.
Proof.
  destruct s as [|a r1]; [discriminate|].
  unfold match_time_at. destruct (is_digit a) eqn:Ha; [|discriminate].
  assert (Hone :
    match match_minutes_meridian r1 with
    | Some (mer, n) =>
        Some {| tm_hour := digit_value a; tm_meridian := mer;
                tm_len := S n |}
    | None => None
    end = Some m ->
    exists text rest,
      String a r1 = text ++ rest
      /\ time_mention text (tm_hour m) (tm_meridian m)
      /\ tm_len m = String.length text).
  { destruct (match_minutes_meridian r1) as [[mer n]|] eqn:Hmm;
      [|discriminate].
    intros [= <-]. apply match_minutes_meridian_sound in Hmm.
    destruct Hmm as (minutes & sp & rest & -> & Hm & Hs & ->).
    exists (String a "" ++ minutes ++ sp ++ meridian_text mer), rest.
    split; [now rewrite !append_assoc|].
    cbn [tm_hour tm_meridian tm_len]. split.
    - replace (digit_value a) with (decimal_value 0 (String a ""))
        by (cbn [decimal_value]; lia).
      apply mention; [cbn [String.length]; lia| |exact Hm|exact Hs].
      cbn [all_chars]. rewrite Ha. reflexivity.
    - rewrite !length_append. cbn [String.length].
      destruct mer; cbn [meridian_text String.length]; lia. }
  cbv zeta.
  destruct r1 as [|b r2]; [exact Hone|].
  destruct (is_digit b) eqn:Hb; [|exact Hone].
  destruct (match_minutes_meridian r2) as [[mer n]|] eqn:Hmm; [|exact Hone].
  intros [= <-]. apply match_minutes_meridian_sound in Hmm.
  destruct Hmm as (minutes & sp & rest & -> & Hm & Hs & ->).
  exists (String a (String b "") ++ minutes ++ sp ++ meridian_text mer), rest.
  split; [now rewrite !append_assoc|].
  cbn [tm_hour tm_meridian tm_len]. split.
  - replace (10 * digit_value a + digit_value b)
      with (decimal_value 0 (String a (String b "")))
      by (cbn [decimal_value]; lia).
    apply mention; [cbn [String.length]; lia| |exact Hm|exact Hs].
    cbn [all_chars]. rewrite Ha, Hb. reflexivity.
  - rewrite !length_append. cbn [String.length].
    destruct mer; cbn [meridian_text String.length]; lia.
Qed.

Lemma finditer_time_sound (s : string) : forall skip m,
  In m (finditer_time skip s) ->
  exists pre post, s = pre ++ post /\ match_time_at post = Some m.
Proof.
  induction s as [|c r IH]; intros skip m Hin; cbn [finditer_time] in Hin.
  - destruct Hin.
  - assert (Hrest : forall k, In m (finditer_time k r) ->
             exists pre post, String c r = pre ++ post
                              /\ match_time_at post = Some m).
    { intros k Hk. destruct (IH k m Hk) as (pre & post & -> & Hm).
      exists (String c pre), post. split; [reflexivity|exact Hm]. }
    destruct skip as [|k]; [|eauto].
    destruct (match_time_at (String c r)) as [t|] eqn:Hm; [|eauto].
    destruct Hin as [<-|Hin]; [|eauto].
    exists "", (String c r). split; [reflexivity|exact Hm].
Qed.

Lemma finditer_time_resumes (pre rest : string) :
  finditer_time (String.length pre) (pre ++ rest) = finditer_time O rest.
Proof.
  induction pre as [|c pre IH]; [reflexivity|].
  cbn [append String.length finditer_time]. exact IH.
Qed.

(** The scan of the message: a written time of day at the front is found
    and the scan goes on after it; where none is at the front, the scan
    moves by one character. *)
Lemma requested_hours_hit (text : string) (hour : Z) (mer : meridian)
    (rest : string) :
  time_mention text hour mer ->
  requested_hours (text ++ rest)
  = to_24_hour hour mer :: requested_hours rest.
Proof.
  intros H. pose proof (match_time_at_complete text hour mer rest H) as Hm.
  unfold requested_hours.
  destruct text as [|c text'].
  { exfalso. inversion H as [h minutes sp mer' Hlen _ _ _ Heq].
    destruct h; cbn [String.length] in Hlen; [lia|discriminate]. }
  cbn [append] in *. cbn [finditer_time]. rewrite Hm.
  cbn [map tm_len String.length]. rewrite hour24_to_24_hour.
  replace (S (String.length text') - 1)%nat with (String.length text')
    by lia.
  rewrite finditer_time_resumes. reflexivity.
Qed.

Lemma requested_hours_skip (c : ascii) (r : string) :
  (forall text hour mer rest,
     String c r = text ++ rest -> ~ time_mention text hour mer) ->
  requested_hours (String c r) = requested_hours r.
Proof.
  intros Hnone. unfold requested_hours. cbn [finditer_time].
  destruct (match_time_at (String c r)) as [m|] eqn:Hm; [|reflexivity].
  exfalso. apply match_time_at_sound in Hm.
  destruct Hm as (text & rest & Heq & Hmention & _).
  exact (Hnone text _ _ rest Heq Hmention).
Qed.

Lemma prioritize_loop_filter (E : env) (requested slots : list Z) :
  forall acc,
  prioritize_loop E requested slots acc
  = (acc ++ filter (hour_requested E requested) slots)%list.
Proof.
  induction slots as [|slot rest IH]; intros acc; simpl.
  - now rewrite app_nil_r.
  - destruct (hour_requested E requested slot); rewrite IH; [|reflexivity].
    now rewrite <- app_assoc.
Qed.

Lemma prioritized_slots_filter (E : env) (requested slots : list Z) :
  prioritized_slots E requested slots = filter (hour_requested E requested) slots.
Proof.
  unfold prioritized_slots. destruct requested as [|h t].
  - induction slots; simpl; auto.
  - apply prioritize_loop_filter.
Qed.

Lemma hour_requested_In (E : env) (requested : list Z) (slot : Z) :
  hour_requested E requested slot = true
  <-> In (ist_hour (asia_kolkata E) slot) requested.
Proof.
  unfold hour_requested. rewrite existsb_exists. split.
  - intros (h & Hin & Heq). apply Z.eqb_eq in Heq. now rewrite Heq.
  - intros Hin. exists (ist_hour (asia_kolkata E) slot).
    split; [exact Hin|apply Z.eqb_refl].
Qed.

(** The suggestion handler past its greeting checks, when some slot has a
    requested hour: the model is asked once, with the first five slots of
    the priority subset. *)
Lemma suggest_slots_priority_prompt (E : env) (state : AgentState)
    (content history : string) (log : list effect) :
  last_content (messages state) = Ok content ->
  history_of (messages state) = Ok history ->
  let message := lower (strip content) in
  let priority :=
    prioritized_slots E (requested_hours message) (suggested_slots state) in
  existsb (fun greet => contains greet message) greetings = false ->
  contains "good morning" message
  && (ist_hour (asia_kolkata E) (now_utc E) <? 12) = false ->
  priority <> [] ->
  let p := suggestion_prompt message
             (map (strftime_ist E) (firstn 5 priority)) history in
  suggest_slots E state log
  = (Ok match llm_invoke E p with
        | Completion c => say state (strip c)
        | LlmFailure e =>
            say_error state
              ("Error suggesting slots: " ++ e ++ ". Please try again.")
        end,
     (log ++ [LlmInvoke p])%list).
Proof.
  intros Hc Hh message priority Hg Hm Hp p.
  unfold suggest_slots, bind, lift. rewrite Hc, Hh. fold message.
  rewrite Hg, Hm.
  destruct (suggested_slots state) as [|s0 rest] eqn:Hs.
  - exfalso. apply Hp. unfold priority.
    rewrite prioritized_slots_filter. reflexivity.
  - unfold presented_slots. fold priority.
    assert (Hf : filtered_slots E message priority (s0 :: rest) = priority).
    { unfold filtered_slots. destruct priority; [congruence|reflexivity]. }
    rewrite Hf.
    destruct priority as [|p0 pr] eqn:Hpr; [congruence|].
    cbn [firstn map]. unfold invoke, perform. subst p. cbn [firstn map].
    destruct (llm_invoke E _); reflexivity.
Qed.

(** C2. Suggestion mode. The requested hours are read off the message from
    left to right: a time of day written at the front (one or two digits,
    optionally ":" and two digits, any white space, "am" or "pm") gives its
    24-hour hour (pm adds 12 except for 12pm, 12am becomes 0) and the
    reading goes on after it; where none is written at the front the
    reading moves on by one character; so every match of the pattern is a
    written time of day. The priority subset is the slots, in their
    original order, whose hour in Asia/Kolkata is a requested hour; when it
    is not empty it is what is presented, cut to its first five, and the
    handler hands exactly those to the model. For slots at 10:00, 14:00 and
    16:00 local and the text "book at 2pm" the priority subset is the 14:00
    slot alone. *)
Theorem suggestion_priority (E : env) (state : AgentState)
    (content history : string) (log : list effect) :
  let message := lower (strip content) in
  let slots := suggested_slots state in
  let requested := requested_hours message in
  let priority := prioritized_slots E requested slots in
  requested_hours "" = []
  /\ (forall text hour mer rest,
        time_mention text hour mer ->
        requested_hours (text ++ rest)
        = to_24_hour hour mer :: requested_hours rest)
  /\ (forall c r,
        (forall text hour mer rest,
           String c r = text ++ rest -> ~ time_mention text hour mer) ->
        requested_hours (String c r) = requested_hours r)
  /\ requested = map hour24 (finditer_time O message)
  /\ (forall m, In m (finditer_time O message) ->
        exists pre text rest,
          message = pre ++ text ++ rest
          /\ time_mention text (tm_hour m) (tm_meridian m)
          /\ hour24 m = to_24_hour (tm_hour m) (tm_meridian m))
  /\ priority
     = filter (fun slot =>
                 existsb (Z.eqb (ist_hour (asia_kolkata E) slot)) requested)
         slots
  /\ (forall slot,
        In slot priority
        <-> In slot slots /\ In (ist_hour (asia_kolkata E) slot) requested)
  /\ (priority <> [] ->
      presented_slots E message slots = firstn 5 priority)
  /\ (List.length (presented_slots E message slots) <= 5)%nat
  /\ (last_content (messages state) = Ok content ->
      history_of (messages state) = Ok history ->
      existsb (fun greet => contains greet message) greetings = false ->
      contains "good morning" message
      && (ist_hour (asia_kolkata E) (now_utc E) <? 12) = false ->
      priority <> [] ->
      let p := suggestion_prompt message
                 (map (strftime_ist E) (firstn 5 priority)) history in
      suggest_slots E state log
      = (Ok match llm_invoke E p with
            | Completion c => say state (strip c)
            | LlmFailure e =>
                say_error state
                  ("Error suggesting slots: " ++ e ++ ". Please try again.")
            end,
         (log ++ [LlmInvoke p])%list))
  /\ (forall s10 s14 s16,
        ist_hour (asia_kolkata E) s10 = 10 ->
        ist_hour (asia_kolkata E) s14 = 14 ->
        ist_hour (asia_kolkata E) s16 = 16 ->
        prioritized_slots E (requested_hours "book at 2pm") [s10; s14; s16]
        = [s14]).
Proof.
  intros message slots requested priority.
  split; [reflexivity|].
  split; [exact requested_hours_hit|].
  split; [exact requested_hours_skip|].
  split; [reflexivity|].
  split.
  { intros m Hin. apply finditer_time_sound in Hin.
    destruct Hin as (pre & post & Heq & Hm).
    apply match_time_at_sound in Hm.
    destruct Hm as (text & rest & -> & Hmention & _).
    exists pre, text, rest. split; [exact Heq|]. split; [exact Hmention|].
    destruct m as [h mer n]. apply hour24_to_24_hour. }
  split; [apply prioritized_slots_filter|].
  split.
  { intros slot. unfold priority.
    rewrite prioritized_slots_filter, filter_In, hour_requested_In.
    reflexivity. }
  split.
  { intros Hne. unfold presented_slots. fold requested slots priority.
    unfold filtered_slots. destruct priority; [congruence|reflexivity]. }
  split.
  { unfold presented_slots. rewrite length_firstn. lia. }
  split.
  { intros Hc Hh Hg Hm Hp.
    apply suggest_slots_priority_prompt; assumption. }
  intros s10 s14 s16 H10 H14 H16.
  rewrite prioritized_slots_filter.
  change (requested_hours "book at 2pm") with [14].
  unfold hour_requested. simpl. rewrite H10, H14, H16. reflexivity.
Qed.

Lemma suggestion_priority_witness :
  (* 26 June 2025 at +05:30: 10:00, 14:00 and 16:00 *)
  let state :=
    user_says
      (set_suggested_slots (initial_state greeting_session)
         [1750912200; 1750926600; 1750933800])
      "book at 2pm" in
  prioritized_slots sample_env (requested_hours "book at 2pm")
    (suggested_slots state)
  = [1750926600]
  /\ snd (run (suggest_slots sample_env state))
     = [LlmInvoke
          (suggestion_prompt "book at 2pm"
             [strftime_ist sample_env 1750926600]
             "Hello! How can I assist you today?")]
  /\ requested_hours "9:30 am or 12pm, else 12 am"
     = 9 :: requested_hours " or 12pm, else 12 am"
  /\ requested_hours "9:30 am or 12pm, else 12 am" = [9; 12; 0].
Proof.
  intros state.
  destruct (suggestion_priority sample_env state "book at 2pm"
              "Hello! How can I assist you today?" [])
    as (_ & Hhit & _ & _ & _ & _ & _ & _ & _ & Hrun & Hex).
  split; [|split; [|split]].
  - apply Hex; reflexivity.
  - unfold run. rewrite Hrun; try reflexivity. discriminate.
  - apply (Hhit ("9" ++ ":30" ++ " " ++ meridian_text AM) 9 AM
             " or 12pm, else 12 am").
    apply (mention "9" ":30" " " AM);
      [cbn; lia|reflexivity|constructor; reflexivity|reflexivity].
  - reflexivity.
Defined.

(** ** Selection mode for booking *)

Lemma index_loop_find (message : string) (slots : list Z) : forall i,
  index_loop i slots message
  = match find (mentions_index message) (seq i (List.length slots)) with
    | Some j => nth_error slots (j - i)
    | None => None
    end.
Proof.
  induction slots as [|slot rest IH]; intros i; [reflexivity|].
  cbn [index_loop List.length seq find].
  fold (mentions_index message i).
  destruct (mentions_index message i).
  - now rewrite Nat.sub_diag.
  - rewrite IH.
    destruct (find (mentions_index message) (seq (S i) (List.length rest)))
      as [j|] eqn:Hf; [|reflexivity].
    apply find_some in Hf. destruct Hf as [Hin _].
    apply in_seq in Hin.
    replace (j - i)%nat with (S (j - S i)) by lia. reflexivity.
Qed.


Lemma prefix_has_digit (needle : string) : forall hay,
  prefix needle hay = true -> has_digit needle = true -> has_digit hay = true.
Proof.
  induction needle as [|c n IH]; intros hay Hp Hd; [discriminate|].
  destruct hay as [|d h]; [discriminate|].
  cbn [prefix] in Hp. destruct (ascii_dec c d) as [->|]; [|discriminate].
  cbn [has_digit] in *. destruct (is_digit d); [reflexivity|].
  simpl in *. eapply IH; eassumption.
Qed.

Lemma contains_has_digit (needle hay : string) :
  contains needle hay = true -> has_digit needle = true ->
  has_digit hay = true.
Proof.
  intros Hc Hd. induction hay as [|d h IH].
  - cbn [contains] in Hc. rewrite orb_false_r in Hc.
    eapply prefix_has_digit; eassumption.
  - cbn [contains] in Hc. apply orb_true_iff in Hc. destruct Hc as [Hp|Hc].
    + eapply prefix_has_digit; eassumption.
    + cbn [has_digit]. rewrite (IH Hc). apply orb_true_r.
Qed.

Lemma str_has_digit (i : nat) : has_digit (str i) = true.
Proof.
  unfold str, NilZero.string_of_uint.
  destruct (Nat.to_uint i); reflexivity.
Qed.










(** ** Empty candidate lists *)

Lemma select_slot_nil (E : env) (message : string) :
  select_slot E [] message = None.
Proof.
  unfold select_slot. cbn [index_loop].
  destruct (fuzzy_time E message) as [[hour minute]|]; reflexivity.
Qed.



(** ** The greeting check of the suggestion handler *)



(** ** The order of classification and greeting *)

Lemma appends_ret {A} (a : A) : appends (ret a).
Proof. intros log. exists []. simpl. now rewrite app_nil_r. Qed.
Lemma appends_raise {A} (e : exn) : appends (@raise A e).
Proof. intros log. exists []. simpl. now rewrite app_nil_r. Qed.
Lemma appends_lift {A} (r : result A) : appends (lift r).
Proof. intros log. exists []. simpl. now rewrite app_nil_r. Qed.
Lemma appends_perform {A} (ev : effect) (a : A) : appends (perform ev a).
Proof. intros log. exists [ev]. reflexivity. Qed.
Lemma appends_bind {A B} (m : M A) (k : A -> M B) :
  appends m -> (forall a, appends (k a)) -> appends (bind m k).
Proof.
  intros Hm Hk log. unfold bind.
  destruct (Hm log) as [l1 H1].
  destruct (m log) as [[a|e] log'] eqn:Hml; simpl in H1; subst log'.
  - destruct (Hk a (log ++ l1)%list) as [l2 H2]. exists (l1 ++ l2)%list.
    rewrite H2. now rewrite app_assoc.
  - exists l1. reflexivity.
Qed.

Ltac appends_step :=
  first
    [ apply appends_ret | apply appends_raise | apply appends_lift
    | apply appends_perform
    | apply appends_bind; [|intros ?]
    | match goal with
      | |- appends (match ?x with _ => _ end) => destruct x
      | |- appends (if ?x then _ else _) => destruct x
      | |- appends (let _ := _ in _) => cbv zeta
      end ].

Lemma appends_suggest_slots (E : env) (st : AgentState) : appends (suggest_slots E st).
Proof. unfold suggest_slots, invoke. repeat appends_step. Qed.
Lemma appends_check_availability (E : env) (st : AgentState) : appends (check_availability_node E st).
Proof. unfold check_availability_node. repeat appends_step. Qed.
Lemma appends_confirm_booking (E : env) (st : AgentState) : appends (confirm_booking E st).
Proof. unfold confirm_booking, invoke. repeat appends_step. Qed.
Lemma appends_cancel_booking (E : env) (st : AgentState) : appends (cancel_booking E st).
Proof. unfold cancel_booking. repeat appends_step. Qed.

Lemma identify_intent_run (E : env) (state : AgentState)
    (content history : string) (log : list effect) :
  last_content (messages state) = Ok content ->
  history_of (messages state) = Ok history ->
  let p := intention_prompt content history in
  identify_intent E state log
  = (Ok match llm_invoke E p with
        | Completion reply => set_intent state (strip reply)
        | LlmFailure e =>
            set_intent
              (say_error state
                 ("Error processing request: " ++ e ++ ". Please try again."))
              "unclear"
        end,
     (log ++ [LlmInvoke p])%list).
Proof.
  intros Hc Hh p. unfold identify_intent, bind, lift, invoke, perform.
  rewrite Hc, Hh. fold p. destruct (llm_invoke E p); reflexivity.
Qed.

Lemma workflow_routed_to_suggest_slots (E : env) (state : AgentState)
    (content history reply : string) (log : list effect) :
  last_content (messages state) = Ok content ->
  history_of (messages state) = Ok history ->
  let p := intention_prompt content history in
  llm_invoke E p = Completion reply ->
  route (set_intent state (strip reply)) = "suggest_slots" ->
  workflow E state log
  = suggest_slots E (set_intent state (strip reply))
      (log ++ [LlmInvoke p])%list.
Proof.
  intros Hc Hh p Hr Hroute. unfold workflow, bind.
  rewrite (identify_intent_run E state content history log Hc Hh).
  fold p. rewrite Hr, Hroute. reflexivity.
Qed.

(** C5, as the code has it. A turn always starts with intent
    classification: the first call of the graph is the model call of
    [identify_intent]. The greeting check runs afterwards, inside the
    suggestion handler, when that call returns and the classified intent
    routes there: for a message that is "hi", "hello" or "hey" the turn
    then ends with "Hi!", and for the message "good morning" before noon
    in Asia/Kolkata with "Good morning!", with no call beyond the
    classification. *)
Theorem greeting_after_classification (E : env) (state : AgentState)
    (content history : string) (log : list effect) :
  last_content (messages state) = Ok content ->
  history_of (messages state) = Ok history ->
  let p := intention_prompt content history in
  let message := lower (strip content) in
  (exists rest,
     snd (workflow E state log) = (log ++ LlmInvoke p :: rest)%list)
  /\ (forall reply,
        llm_invoke E p = Completion reply ->
        route (set_intent state (strip reply)) = "suggest_slots" ->
        (In message greetings ->
         workflow E state log
         = (Ok (say (set_intent state (strip reply)) "Hi!"),
            (log ++ [LlmInvoke p])%list))
        /\ (message = "good morning" ->
            ist_hour (asia_kolkata E) (now_utc E) < 12 ->
            workflow E state log
            = (Ok (say (set_intent state (strip reply)) "Good morning!"),
               (log ++ [LlmInvoke p])%list))).
Proof.
  intros Hc Hh p message. split.
  - unfold workflow, bind.
    rewrite (identify_intent_run E state content history log Hc Hh).
    fold p.
    set (st := match llm_invoke E p with
               | Completion reply => set_intent state (strip reply)
               | LlmFailure e => _
               end).
    assert (Hk : appends
              (if String.eqb (route st) "check_availability"
               then bind (check_availability_node E st) (suggest_slots E)
               else if String.eqb (route st) "suggest_slots"
                    then suggest_slots E st
                    else if String.eqb (route st) "confirm_booking"
                         then confirm_booking E st
                         else cancel_booking E st)).
    { destruct (String.eqb (route st) "check_availability").
      - apply appends_bind;
          [apply appends_check_availability
          |intros a; apply appends_suggest_slots].
      - destruct (String.eqb (route st) "suggest_slots");
          [apply appends_suggest_slots|].
        destruct (String.eqb (route st) "confirm_booking");
          [apply appends_confirm_booking|apply appends_cancel_booking]. }
    destruct (Hk (log ++ [LlmInvoke p])%list) as [rest Hrest].
    exists rest. unfold bind in Hrest. rewrite Hrest.
    rewrite <- app_assoc. reflexivity.
  - intros reply Hr Hroute.
    rewrite (workflow_routed_to_suggest_slots E state content history reply
               log Hc Hh Hr Hroute).
    fold p. unfold suggest_slots, bind, lift.
    cbn [messages set_intent]. rewrite Hc, Hh. fold message.
    split.
    + intros Hin.
      assert (Hg : existsb (fun greet => contains greet message) greetings
                   = true).
      { destruct Hin as [H|[H|[H|[]]]]; rewrite <- H; reflexivity. }
      rewrite Hg. reflexivity.
    + intros Hm Hnoon. rewrite Hm.
      apply Z.ltb_lt in Hnoon. rewrite Hnoon. reflexivity.
Qed.

Lemma greeting_after_classification_witness :
  let E := env_answering (Completion "unclear") in
  (* 25 June 2025, 09:00 at +05:30 *)
  let morning :=
    {| llm_invoke := llm_invoke E;
       fuzzy_time := fuzzy_time E;
       strftime_ist := strftime_ist E;
       now_utc := 1750822200;
       asia_kolkata := modern_kolkata;
       backend_availability := backend_availability E;
       backend_book := backend_book E;
       backend_upcoming_events := backend_upcoming_events E;
       backend_cancel := backend_cancel E |} in
  let state := user_says (initial_state greeting_session) " Hello " in
  let p := intention_prompt " Hello " "Hello! How can I assist you today?" in
  let state' :=
    user_says (initial_state greeting_session) "Good morning" in
  let p' :=
    intention_prompt "Good morning" "Hello! How can I assist you today?" in
  run (workflow E state)
  = (Ok (say (set_intent state "unclear") "Hi!"), [LlmInvoke p])
  /\ run (workflow morning state')
     = (Ok (say (set_intent state' "unclear") "Good morning!"),
        [LlmInvoke p']).
Proof.
  intros E morning state p state' p'. split.
  - destruct (greeting_after_classification E state " Hello "
                "Hello! How can I assist you today?" [] eq_refl eq_refl)
      as [_ Hgreet].
    destruct (Hgreet "unclear" eq_refl eq_refl) as [Hhi _].
    apply Hhi. right. left. reflexivity.
  - destruct (greeting_after_classification morning state' "Good morning"
                "Hello! How can I assist you today?" [] eq_refl eq_refl)
      as [_ Hgreet].
    destruct (Hgreet "unclear" eq_refl eq_refl) as [_ Hgm].
    apply Hgm; reflexivity.
Defined.

(** C5, against the claim as stated: the turn for "hi" calls the model for
    classification before any greeting is produced, and when the model
    classifies "hi" as [cancel] no greeting is produced at all. *)
Lemma greeting_runs_after_model_call :
  let state := user_says (initial_state greeting_session) "hi" in
  let p := intention_prompt "hi" "Hello! How can I assist you today?" in
  run (workflow (env_answering (Completion "unclear")) state)
  = (Ok (say (set_intent state "unclear") "Hi!"), [LlmInvoke p])
  /\ run (workflow (env_answering (Completion "cancel")) state)
     = (Ok (say (set_events (set_intent state "cancel") [])
              "No upcoming bookings found."),
        [LlmInvoke p; GetUpcomingEvents]).
Proof. split; reflexivity. Qed.

(** ** The intent classifier *)

(** C7, as the code has it. The classifier stores the model's response
    with its surrounding whitespace stripped, whatever it says, and stores
    "unclear" (after appending an error turn) when the model call fails. A
    stored intent other than the four that have a handler is routed as
    "unclear" is, to the suggestion handler. *)
Theorem intent_stored (E : env) (state : AgentState)
    (content history : string) (log : list effect) :
  last_content (messages state) = Ok content ->
  history_of (messages state) = Ok history ->
  let p := intention_prompt content history in
  (forall reply,
     llm_invoke E p = Completion reply ->
     identify_intent E state log
     = (Ok (set_intent state (strip reply)), (log ++ [LlmInvoke p])%list))
  /\ (forall e,
        llm_invoke E p = LlmFailure e ->
        identify_intent E state log
        = (Ok (set_intent
                 (say_error state
                    ("Error processing request: " ++ e
                     ++ ". Please try again."))
                 "unclear"),
           (log ++ [LlmInvoke p])%list))
  /\ (forall st,
        ~ In (intent st)
            ["book_appointment"; "check_availability"; "confirm_booking";
             "cancel"] ->
        route st = "suggest_slots"
        /\ route st = route (set_intent st "unclear")).
Proof.
  intros Hc Hh p.
  pose proof (identify_intent_run E state content history log Hc Hh) as Hrun.
  cbv zeta in Hrun. fold p in Hrun.
  split; [|split].
  - intros reply Hr. rewrite Hrun, Hr. reflexivity.
  - intros e Hr. rewrite Hrun, Hr. reflexivity.
  - intros st Hout. unfold route. cbn [intent set_intent].
    destruct (String.eqb_spec (intent st) "book_appointment") as [H1|_];
      [exfalso; apply Hout; rewrite H1; simpl; tauto|].
    destruct (String.eqb_spec (intent st) "check_availability") as [H2|_];
      [exfalso; apply Hout; rewrite H2; simpl; tauto|].
    destruct (String.eqb_spec (intent st) "confirm_booking") as [H3|_];
      [exfalso; apply Hout; rewrite H3; simpl; tauto|].
    destruct (String.eqb_spec (intent st) "cancel") as [H4|_];
      [exfalso; apply Hout; rewrite H4; simpl; tauto|].
    split; reflexivity.
Qed.

Lemma intent_stored_witness :
  let state := user_says (initial_state greeting_session) "hi there" in
  let p := intention_prompt "hi there" "Hello! How can I assist you today?" in
  run (identify_intent (env_answering (Completion " greeting ")) state)
  = (Ok (set_intent state "greeting"), [LlmInvoke p])
  /\ run (identify_intent (env_answering (LlmFailure "rate limit")) state)
     = (Ok (set_intent
              (say_error state
                 "Error processing request: rate limit. Please try again.")
              "unclear"),
        [LlmInvoke p])
  /\ route (set_intent state "greeting") = "suggest_slots".
Proof.
  intros state p.
  destruct (intent_stored (env_answering (Completion " greeting ")) state
              "hi there" "Hello! How can I assist you today?" []
              eq_refl eq_refl) as (Hok & _ & Hroute).
  destruct (intent_stored (env_answering (LlmFailure "rate limit")) state
              "hi there" "Hello! How can I assist you today?" []
              eq_refl eq_refl) as (_ & Hfail & _).
  split; [|split].
  - exact (Hok " greeting " eq_refl).
  - exact (Hfail "rate limit" eq_refl).
  - apply (Hroute (set_intent state "greeting")).
    simpl. intros [H|[H|[H|[H|[]]]]]; discriminate H.
Defined.

(** C7, against the claim as stated: a response outside the closed set is
    stored as it is. *)
Lemma intent_outside_closed_set :
  let state := user_says (initial_state greeting_session) "hi there" in
  fst (run (identify_intent (env_answering (Completion "greeting")) state))
  = Ok (set_intent state "greeting")
  /\ intent (set_intent state "greeting") <> "unclear"
  /\ ~ In (intent (set_intent state "greeting")) INTENTS.
Proof.
  intros state. split; [reflexivity|]. split; [discriminate|].
  simpl. intros [H|[H|[H|[H|[H|[]]]]]]; discriminate H.
Qed.

(** ** The date parser *)

Lemma last_content_user_says (state : AgentState) (content : string) :
  last_content (messages (user_says state content)) = Ok content.
Proof.
  unfold last_content, last_message, user_says, append_message.
  cbn [messages]. rewrite rev_unit. reflexivity.
Qed.

Lemma parse_user_date_invalid_day (now : Z) (message : string)
    (month day year : Z) :
  search_date (lower message) = Some (month, day, year) ->
  1 <= year <= 9999 ->
  ~ (1 <= day <= days_in_month year month) ->
  parse_user_date now message
  = Raise (ValueError "day is out of range for month").
Proof.
  intros Hs Hy Hd. unfold parse_user_date, explicit_range. rewrite Hs.
  unfold datetime_utc.
  replace ((1 <=? year) && (year <=? 9999)) with true
    by (symmetry; apply andb_true_iff; split; apply Z.leb_le; lia).
  cbn [negb].
  destruct ((1 <=? day) && (day <=? days_in_month year month)) eqn:Hv;
    [|reflexivity].
  apply andb_true_iff in Hv. destruct Hv as [H1 H2].
  apply Z.leb_le in H1. apply Z.leb_le in H2. exfalso. apply Hd. lia.
Qed.

Lemma check_availability_parse_raises (E : env) (state : AgentState)
    (content : string) (e : exn) (log : list effect) :
  last_content (messages state) = Ok content ->
  parse_user_date (now_utc E) (lower (strip content)) = Raise e ->
  check_availability_node E state log = (Raise e, log).
Proof.
  intros Hc Hp. unfold check_availability_node, bind, lift.
  rewrite Hc, Hp. reflexivity.
Qed.

(** C6, on the code. An explicit date whose day does not exist in its
    month makes [parse_user_date] raise [ValueError]; the availability
    handler does not catch it: it makes no query with the default range,
    and the exception leaves the handler. So it is for "Book a meeting on
    June 31, 2025", whatever the state, the clock and the backend. *)
Theorem invalid_day_raises (E : env) (state : AgentState)
    (log : list effect) :
  (forall now message month day year,
     search_date (lower message) = Some (month, day, year) ->
     1 <= year <= 9999 ->
     ~ (1 <= day <= days_in_month year month) ->
     parse_user_date now message
     = Raise (ValueError "day is out of range for month"))
  /\ (forall content e,
        last_content (messages state) = Ok content ->
        parse_user_date (now_utc E) (lower (strip content)) = Raise e ->
        check_availability_node E state log = (Raise e, log))
  /\ check_availability_node E
       (user_says state "Book a meeting on June 31, 2025") log
     = (Raise (ValueError "day is out of range for month"), log).
Proof.
  split; [|split].
  - intros now message month day year. apply parse_user_date_invalid_day.
  - intros content e. apply check_availability_parse_raises.
  - apply (check_availability_parse_raises E _
             "Book a meeting on June 31, 2025").
    + apply last_content_user_says.
    + apply (parse_user_date_invalid_day _ _ 6 31 2025).
      * reflexivity.
      * lia.
      * vm_compute. intros [_ H]. apply H. reflexivity.
Qed.

Lemma invalid_day_raises_witness :
  parse_user_date (ist_datetime 2025 6 25 15 0) "June 31, 2025"
  = Raise (ValueError "day is out of range for month")
  /\ run (workflow (env_answering (Completion "book_appointment"))
            (user_says (initial_state greeting_session)
               "Book a meeting on June 31, 2025"))
     = (Raise (ValueError "day is out of range for month"),
        [LlmInvoke
           (intention_prompt "Book a meeting on June 31, 2025"
              "Hello! How can I assist you today?")]).
Proof.
  destruct (invalid_day_raises sample_env (initial_state greeting_session) [])
    as (Hparse & _ & _).
  split.
  - apply (Hparse _ _ 6 31 2025).
    + reflexivity.
    + split; discriminate.
    + intros [_ H]. apply H. reflexivity.
  - reflexivity.
Defined.

Lemma replace_hour_midnight (ordinal h h' : Z) :
  0 <= h < 24 ->
  replace_hour (midnight_utc ordinal + h * 3600) h'
  = midnight_utc ordinal + h' * 3600.
Proof.
  intros Hh. unfold replace_hour, midnight_utc, DAY.
  rewrite Z.div_add_l by lia.
  rewrite (Z.div_small (h * 3600) 86400) by lia.
  lia.
Qed.

Lemma add_days_midnight (ordinal : Z) :
  ordinal < MAX_ORDINAL ->
  add_days (midnight_utc ordinal) 1 = Ok (midnight_utc ordinal + DAY).
Proof.
  intros Hmax. unfold add_days, date_ordinal, midnight_utc, DAY.
  assert (Hdiv : ((ordinal - EPOCH_ORDINAL) * 86400 + 1 * 86400) / 86400
                 = ordinal - EPOCH_ORDINAL + 1).
  { rewrite Z.div_add by lia. rewrite Z.div_mul by lia. reflexivity. }
  rewrite Hdiv.
  replace (ordinal - EPOCH_ORDINAL + 1 + EPOCH_ORDINAL <=? MAX_ORDINAL)
    with true by (symmetry; apply Z.leb_le; lia).
  reflexivity.
Qed.





(** ** A failed calendar insert *)





(** * Further properties of the code *)

(** ** The slot generator: grid, unread events, booked slots *)

(** When the loop returns, [datetime] could represent what it computed at
    every instant of the stride below [end_time]. *)
Lemma slot_loop_Ok_representable (tz : Z -> Z) (offset : Z)
    (busy : list busy_slot) (end_time : Z) (fuel : nat) :
  forall start slots,
  slot_loop tz offset fuel start end_time busy = Ok slots ->
  forall t, In t (stride start fuel) -> t < end_time ->
            representable tz offset t = true.
Proof.
  induction fuel as [|fuel IH]; intros start slots Hloop t Hin Ht;
    [destruct Hin|].
  cbn [slot_loop] in Hloop.
  destruct (start <? end_time) eqn:Hlt.
  2:{ apply Z.ltb_ge in Hlt. apply stride_In in Hin.
      destruct Hin as (k & Hk & ->). unfold HALF_HOUR in Ht. lia. }
  destruct (in_range (start + offset + HALF_HOUR)) eqn:H1;
    cbn [negb] in Hloop; [|discriminate].
  unfold astimezone in Hloop.
  destruct (in_range start && in_range (start + tz start)) eqn:H2;
    [|discriminate].
  assert (Hhere : representable tz offset start = true).
  { unfold representable. apply andb_true_iff in H2. destruct H2 as [H2 H3].
    rewrite H1, H2, H3. reflexivity. }
  cbn [stride] in Hin. destruct Hin as [<-|Hin]; [exact Hhere|].
  destruct ((9 <=? ist_hour tz start) && (ist_hour tz start <? 18)).
  - destruct (any_overlap start (start + HALF_HOUR) busy) as [[|]|e];
      [eapply IH; eassumption| |discriminate].
    destruct (slot_loop tz offset fuel (start + HALF_HOUR) end_time busy)
      as [found|e] eqn:Hrec; [|discriminate].
    eapply IH; eassumption.
  - eapply IH; eassumption.
Qed.

Lemma get_availability_Ok (tz : Z -> Z) (offset start_time end_time : Z)
    (busy : list busy_slot) (slots : list Z) :
  get_availability tz offset start_time end_time busy = Http200 slots ->
  start_time < end_time
  /\ slots
     = filter (fun t => business_hours tz t
                        && negb (existsb (overlaps t) busy))
         (stride start_time (iterations start_time end_time))
  /\ convertible tz end_time = true
  /\ (forall k, 0 <= k -> start_time + HALF_HOUR * k < end_time ->
                representable tz offset (start_time + HALF_HOUR * k) = true).
Proof.
  intros Hget.
  assert (Hlt : start_time < end_time).
  { unfold get_availability in Hget.
    destruct (start_time >=? end_time) eqn:Hge; [discriminate|].
    rewrite Z.geb_leb in Hge. apply Z.leb_gt in Hge. exact Hge. }
  split; [exact Hlt|].
  apply get_availability_200 in Hget; [|exact Hlt].
  destruct Hget as (_ & Hend & Hloop).
  split; [|split; [exact Hend|]].
  - apply slot_loop_Ok in Hloop. rewrite Hloop.
    apply filter_ext_in. intros t Hin.
    apply stride_In in Hin. destruct Hin as (k & Hk & ->).
    assert (Hb : start_time + HALF_HOUR * k < end_time)
      by (apply iterations_spec; lia).
    apply Z.ltb_lt in Hb. rewrite Hb. reflexivity.
  - intros k Hk Hb.
    apply (slot_loop_Ok_representable tz offset busy end_time _ _ _ Hloop);
      [|exact Hb].
    apply stride_In. exists k. split; [|reflexivity].
    split; [lia|]. apply iterations_spec; lia.
Qed.

(** X1. When the range starts on a multiple of 30 minutes, every slot
    returned is a multiple of 30 minutes, and where the offset of
    Asia/Kolkata is one too, the slot reads there a minute of 0 or 30 and
    no seconds. *)
Theorem slots_on_half_hour_grid (tz : Z -> Z)
    (offset start_time end_time : Z) (busy : list busy_slot)
    (slots : list Z) :
  start_time mod HALF_HOUR = 0 ->
  get_availability tz offset start_time end_time busy = Http200 slots ->
  forall t, In t slots ->
    t mod HALF_HOUR = 0
    /\ (tz t mod HALF_HOUR = 0 ->
        (ist_minute tz t = 0 \/ ist_minute tz t = 30)
        /\ (t + tz t) mod 60 = 0).
Proof.
  intros Hal Hget t Hin.
  apply get_availability_Ok in Hget. destruct Hget as (_ & -> & _).
  apply filter_In in Hin. destruct Hin as [Hin _].
  apply stride_In in Hin. destruct Hin as (k & Hk & ->).
  unfold ist_minute, HALF_HOUR in *.
  apply Z.mod_divide in Hal; [|lia]. destruct Hal as [j ->].
  split.
  { replace (j * 1800 + 1800 * k) with ((j + k) * 1800) by lia.
    apply Z.mod_mul. lia. }
  intros Hz. apply Z.mod_divide in Hz; [|lia]. destruct Hz as [z Hz].
  rewrite Hz.
  replace (j * 1800 + 1800 * k + z * 1800) with ((30 * (j + k + z)) * 60)
    by lia.
  rewrite Z.div_mul, Z.mod_mul by lia.
  split; [|reflexivity].
  destruct (Z.even (j + k + z)) eqn:He.
  - left. apply Z.even_spec in He. destruct He as [h ->].
    replace (30 * (2 * h)) with (h * 60) by lia. apply Z.mod_mul. lia.
  - right. rewrite <- Z.negb_odd in He. apply negb_false_iff in He.
    apply Z.odd_spec in He. destruct He as [h ->].
    replace (30 * (2 * h + 1)) with (30 + h * 60) by lia.
    rewrite Z.mod_add by lia. reflexivity.
Qed.

Lemma slots_on_half_hour_grid_witness :
  (* 26 June 2025 at +05:30, 09:00 to 11:00; the slot at 10:30 *)
  1750914000 mod HALF_HOUR = 0
  /\ (ist_minute modern_kolkata 1750914000 = 0
      \/ ist_minute modern_kolkata 1750914000 = 30)
  /\ (1750914000 + modern_kolkata 1750914000) mod 60 = 0.
Proof.
  destruct (slots_on_half_hour_grid modern_kolkata 0 1750908600 1750915800
              [booked 1750910400] [1750908600; 1750912200; 1750914000]
              eq_refl eq_refl 1750914000) as [Hgrid Hzone].
  - right. right. left. reflexivity.
  - split; [exact Hgrid|]. apply Hzone. reflexivity.
Defined.

Lemma slot_loop_no_business (tz : Z -> Z) (offset : Z)
    (busy : list busy_slot) (end_time : Z) (fuel : nat) :
  forall start,
  (forall t, In t (stride start fuel) -> t < end_time ->
             business_hours tz t = false
             /\ representable tz offset t = true) ->
  slot_loop tz offset fuel start end_time busy = Ok [].
Proof.
  induction fuel as [|fuel IH]; intros start Hnone; simpl; [reflexivity|].
  destruct (start <? end_time) eqn:Hlt; [|reflexivity].
  apply Z.ltb_lt in Hlt.
  destruct (Hnone start (or_introl eq_refl) Hlt) as [Hbh Hrep].
  destruct (representable_astimezone tz offset start Hrep) as [-> ->].
  fold (business_hours tz start). rewrite Hbh.
  apply IH. intros t Hin. apply Hnone. right. exact Hin.
Qed.

Lemma slot_loop_untimed_head (tz : Z -> Z) (offset : Z) (b : busy_slot)
    (rest : list busy_slot) (end_time : Z) (fuel : nat) :
  bs_start b = None ->
  forall start,
  (exists t, In t (stride start fuel) /\ t < end_time
             /\ business_hours tz t = true) ->
  (slot_loop tz offset fuel start end_time (b :: rest) = Raise none_replace
   \/ slot_loop tz offset fuel start end_time (b :: rest)
      = Raise out_of_range)
  /\ ((forall t, In t (stride start fuel) -> t < end_time ->
                 representable tz offset t = true) ->
      slot_loop tz offset fuel start end_time (b :: rest)
      = Raise none_replace).
Proof.
  intros Hb. induction fuel as [|fuel IH]; intros start (t & Hin & Hlt & Hbh).
  - destruct Hin.
  - cbn [slot_loop].
    assert (Hs : start <= t).
    { apply stride_In in Hin. destruct Hin as (k & Hk & ->).
      unfold HALF_HOUR. lia. }
    assert (Hse : start < end_time) by lia.
    replace (start <? end_time) with true by (symmetry; apply Z.ltb_lt; lia).
    destruct (in_range (start + offset + HALF_HOUR)) eqn:H1; cbn [negb].
    2:{ split; [right; reflexivity|]. intros Hrep.
        specialize (Hrep start (or_introl eq_refl) Hse).
        unfold representable in Hrep. rewrite H1 in Hrep. discriminate. }
    unfold astimezone.
    destruct (in_range start && in_range (start + tz start)) eqn:H2.
    2:{ split; [right; reflexivity|]. intros Hrep.
        specialize (Hrep start (or_introl eq_refl) Hse).
        unfold representable in Hrep. rewrite H1 in Hrep.
        cbn [andb] in Hrep. congruence. }
    fold (business_hours tz start).
    destruct (business_hours tz start) eqn:Hbs.
    + cbn [any_overlap]. rewrite Hb. split; [left|intros _]; reflexivity.
    + assert (Hex : exists t, In t (stride (start + HALF_HOUR) fuel)
                              /\ t < end_time
                              /\ business_hours tz t = true).
      { exists t. split; [|tauto].
        destruct Hin as [<-|Hin]; [congruence|exact Hin]. }
      destruct (IH (start + HALF_HOUR) Hex) as [Hor Himp].
      split; [exact Hor|]. intros Hrep. apply Himp.
      intros u Hu. apply Hrep. right. exact Hu.
Qed.

(** X2. An event without a start [dateTime] at the head of the calendar's
    list makes the request fail with status 500 as soon as the range holds
    a stride instant in business hours: on the missing [dateTime] when
    [datetime] can represent the range, and otherwise either on it or on
    the range. When the range holds no such instant and [datetime] can
    represent it, the events are never read and the answer is 200 with no
    slot, whatever the events are. *)
Theorem untimed_event_fails_in_business_hours (tz : Z -> Z)
    (offset start_time end_time : Z) (b : busy_slot)
    (rest busy : list busy_slot) :
  start_time < end_time ->
  bs_start b = None ->
  let in_datetime_range :=
    convertible tz end_time = true
    /\ (forall k, 0 <= k -> start_time + HALF_HOUR * k < end_time ->
                  representable tz offset (start_time + HALF_HOUR * k)
                  = true) in
  let unread := "'NoneType' object has no attribute 'replace'" in
  ((exists k, 0 <= k /\ start_time + HALF_HOUR * k < end_time
              /\ business_hours tz (start_time + HALF_HOUR * k) = true) ->
   (in_datetime_range ->
    get_availability tz offset start_time end_time (b :: rest)
    = HttpError 500 ("Error fetching availability: " ++ unread))
   /\ (get_availability tz offset start_time end_time (b :: rest)
       = HttpError 500 ("Error fetching availability: " ++ unread)
       \/ get_availability tz offset start_time end_time (b :: rest)
          = HttpError 500
              "Error fetching availability: date value out of range"))
  /\ ((forall k, 0 <= k -> start_time + HALF_HOUR * k < end_time ->
                 business_hours tz (start_time + HALF_HOUR * k) = false) ->
      in_datetime_range ->
      get_availability tz offset start_time end_time busy = Http200 []).
Proof.
  intros Hlt Hb in_datetime_range unread.
  assert (Hge : (start_time >=? end_time) = false)
    by (rewrite Z.geb_leb; apply Z.leb_gt; lia).
  assert (Hstart : in_datetime_range -> convertible tz start_time = true).
  { intros [_ Hrep].
    assert (H0 : representable tz offset (start_time + HALF_HOUR * 0) = true)
      by (apply Hrep; unfold HALF_HOUR; lia).
    replace (start_time + HALF_HOUR * 0) with start_time in H0
      by (unfold HALF_HOUR; lia).
    unfold representable in H0. unfold convertible.
    apply andb_true_iff in H0. destruct H0 as [H0 H3].
    apply andb_true_iff in H0. destruct H0 as [_ H2].
    rewrite H2, H3. reflexivity. }
  assert (Hstride : in_datetime_range ->
            forall t,
              In t (stride start_time (iterations start_time end_time)) ->
              t < end_time -> representable tz offset t = true).
  { intros [_ Hrep] t Hin Ht. apply stride_In in Hin.
    destruct Hin as (k & Hk & ->). apply Hrep; lia. }
  split.
  - intros (k & Hk & Hend & Hbh).
    assert (Hex : exists t,
              In t (stride start_time (iterations start_time end_time))
              /\ t < end_time /\ business_hours tz t = true).
    { exists (start_time + HALF_HOUR * k). split; [|tauto].
      apply stride_In. exists k. split; [|reflexivity].
      split; [lia|]. apply iterations_spec; lia. }
    destruct (slot_loop_untimed_head tz offset b rest end_time _ Hb
                start_time Hex) as [Hor Himp].
    unfold get_availability, astimezone. rewrite Hge.
    fold (convertible tz start_time). fold (convertible tz end_time).
    split.
    + intros Hr. rewrite (Hstart Hr), (proj1 Hr), (Himp (Hstride Hr)).
      reflexivity.
    + destruct (convertible tz start_time); [|right; reflexivity].
      destruct (convertible tz end_time); [|right; reflexivity].
      destruct Hor as [-> | ->]; [left|right]; reflexivity.
  - intros Hnone Hr.
    unfold get_availability, astimezone. rewrite Hge.
    fold (convertible tz start_time). fold (convertible tz end_time).
    rewrite (Hstart Hr), (proj1 Hr).
    rewrite slot_loop_no_business; [reflexivity|].
    intros t Hin Ht. split; [|apply (Hstride Hr); assumption].
    apply stride_In in Hin. destruct Hin as (k & Hk & ->).
    apply Hnone; lia.
Qed.

Lemma untimed_event_fails_in_business_hours_witness :
  (* 26 June 2025 at +05:30: 17:00 to 19:00, then 18:00 to 19:00 *)
  let all_day := {| bs_start := None; bs_end := None |} in
  get_availability modern_kolkata 0 1750937400 1750944600 [all_day]
  = HttpError 500
      "Error fetching availability: 'NoneType' object has no attribute 'replace'"
  /\ get_availability modern_kolkata 0 1750941000 1750944600 [all_day]
     = Http200 [].
Proof.
  intros all_day.
  assert (Hrange : forall s,
            1750937400 <= s ->
            convertible modern_kolkata 1750944600 = true
            /\ (forall k, 0 <= k -> s + HALF_HOUR * k < 1750944600 ->
                  representable modern_kolkata 0 (s + HALF_HOUR * k) = true)).
  { intros s Hs. split; [reflexivity|]. intros k Hk Hb.
    unfold representable, in_range, modern_kolkata, IST_OFFSET, HALF_HOUR,
      MIN_WALL, MAX_WALL in *.
    rewrite !andb_true_iff, !Z.leb_le. lia. }
  split.
  - destruct (untimed_event_fails_in_business_hours modern_kolkata 0
                1750937400 1750944600 all_day [] [] eq_refl eq_refl)
      as [Hfail _].
    destruct Hfail as [Hexact _].
    + exists 0. split; [lia|split; reflexivity].
    + apply Hexact. apply Hrange. lia.
  - destruct (untimed_event_fails_in_business_hours modern_kolkata 0
                1750941000 1750944600 all_day [] [all_day] eq_refl eq_refl)
      as [_ Hnone].
    apply Hnone; [|apply Hrange; lia].
    intros k Hk Hend.
    assert (Hcases : k = 0 \/ k = 1) by (unfold HALF_HOUR in Hend; lia).
    destruct Hcases as [->| ->]; reflexivity.
Defined.

Lemma existsb_same_members {A : Type} (f : A -> bool) (l l' : list A) :
  (forall x, In x l <-> In x l') -> existsb f l = existsb f l'.
Proof.
  intros Hmem.
  destruct (existsb f l) eqn:H1, (existsb f l') eqn:H2; try reflexivity.
  - apply existsb_exists in H1. destruct H1 as (x & Hin & Hf).
    assert (H : existsb f l' = true)
      by (apply existsb_exists; exists x; split; [apply Hmem|]; assumption).
    congruence.
  - apply existsb_exists in H2. destruct H2 as (x & Hin & Hf).
    assert (H : existsb f l = true)
      by (apply existsb_exists; exists x; split; [apply Hmem|]; assumption).
    congruence.
Qed.

Lemma filter_twice {A : Type} (f g : A -> bool) (l : list A) :
  filter f (filter g l) = filter (fun x => g x && f x) l.
Proof.
  induction l as [|x l IH]; simpl; [reflexivity|].
  destruct (g x); simpl; [|exact IH].
  destruct (f x); [f_equal|]; exact IH.
Qed.

(** X3. Booking a returned slot takes exactly that slot away: when the
    calendar's list gains the event of the half hour that starts at a slot
    [t] of the answer, and every event carries its instants, the same
    query answers the former slots without [t], in the same order. *)
Theorem booked_slot_disappears (tz : Z -> Z)
    (offset start_time end_time t : Z) (busy busy' : list busy_slot)
    (slots : list Z) :
  forallb is_timed busy = true ->
  get_availability tz offset start_time end_time busy = Http200 slots ->
  In t slots ->
  (forall b, In b busy' <-> b = booked t \/ In b busy) ->
  get_availability tz offset start_time end_time busy'
  = Http200 (filter (fun x => negb (x =? t)) slots).
Proof.
  intros Htimed Hget Hin Hmem.
  apply get_availability_Ok in Hget.
  destruct Hget as (Hlt & Hslots & Hend & Hrep).
  assert (Htimed' : forallb is_timed busy' = true).
  { apply forallb_forall. intros b Hb. apply Hmem in Hb.
    destruct Hb as [->|Hb]; [reflexivity|].
    rewrite forallb_forall in Htimed. apply Htimed. exact Hb. }
  destruct (get_availability_total tz offset start_time end_time busy' Hlt
              Htimed' Hend Hrep) as [slots' Hget'].
  rewrite Hget'. f_equal.
  apply get_availability_Ok in Hget'. destruct Hget' as (_ & -> & _).
  rewrite Hslots, filter_twice. apply filter_ext_in. intros x Hx.
  rewrite Hslots in Hin. apply filter_In in Hin. destruct Hin as [Hin _].
  apply stride_In in Hin. destruct Hin as (k & Hk & ->).
  apply stride_In in Hx. destruct Hx as (j & Hj & ->).
  rewrite (existsb_same_members (overlaps (start_time + HALF_HOUR * j))
             busy' (booked (start_time + HALF_HOUR * k) :: busy)).
  2:{ intros b. rewrite Hmem. simpl. intuition congruence. }
  cbn [existsb]. rewrite negb_orb.
  assert (Hov : overlaps (start_time + HALF_HOUR * j)
                  (booked (start_time + HALF_HOUR * k))
                = (start_time + HALF_HOUR * j =? start_time + HALF_HOUR * k)).
  { unfold overlaps, booked, HALF_HOUR. cbn [bs_start bs_end].
    destruct (Z.eq_dec j k) as [->|Hne].
    - rewrite Z.eqb_refl. apply andb_true_iff.
      split; [apply Z.ltb_lt|apply Z.gtb_lt]; lia.
    - replace (start_time + 1800 * j =? start_time + 1800 * k) with false
        by (symmetry; apply Z.eqb_neq; lia).
      apply andb_false_iff.
      destruct (Z_lt_le_dec j k);
        [left; apply Z.ltb_ge
        |right; rewrite Z.gtb_ltb; apply Z.ltb_ge]; lia. }
  rewrite Hov.
  destruct (business_hours tz (start_time + HALF_HOUR * j)); simpl;
    [|reflexivity].
  apply andb_comm.
Qed.

Lemma booked_slot_disappears_witness :
  (* 26 June 2025 at +05:30, 09:00 to 11:00; events at 09:30 and 10:00 *)
  let start_time := 1750908600 in
  let end_time := 1750915800 in
  let first := booked 1750910400 in
  let second := booked 1750912200 in
  get_availability modern_kolkata 0 start_time end_time [first; second]
  = Http200 [1750908600; 1750914000].
Proof.
  intros start_time end_time first second.
  apply (booked_slot_disappears modern_kolkata 0 start_time end_time
           1750912200 [first] [first; second]
           [1750908600; 1750912200; 1750914000]).
  - reflexivity.
  - reflexivity.
  - right. left. reflexivity.
  - intros b. simpl. split.
    + intros [H|[H|[]]]; [right; left; exact H|left; symmetry; exact H].
    + intros [H|[H|[]]]; [right; left; symmetry; exact H|left; exact H].
Defined.

(** ** The date parser: weekdays, shape of the range, failures *)

(** X4. Rule 1 of the parser: when the message holds neither "today" nor
    "tomorrow", the weekday name that counts is the first of Monday to
    Sunday that occurs in it, and the range is the full UTC day of the
    next date with that weekday, today included: at most six days
    ahead. *)
Theorem weekday_keyword_resolution (now : Z) (message name : string)
    (i : nat) :
  nth_error WEEKDAYS i = Some name ->
  contains "today" message = false ->
  contains "tomorrow" message = false ->
  contains name message = true ->
  (forall j other,
     (j < i)%nat -> nth_error WEEKDAYS j = Some other ->
     contains other message = false) ->
  exists date,
    keyword_range now message
    = (Some (midnight_utc date), Some (midnight_utc date + DAY))
    /\ weekday date = Z.of_nat i
    /\ date_ordinal now <= date <= date_ordinal now + 6
    /\ (weekday (date_ordinal now) = Z.of_nat i -> date = date_ordinal now).
Proof.
  intros Hname Htoday Htomorrow Hin Hprev.
  unfold keyword_range, day_map. cbn [first_day].
  rewrite Htoday, Htomorrow.
  assert (Hw : 0 <= weekday (date_ordinal now) < 7)
    by (unfold weekday; apply Z.mod_pos_bound; lia).
  do 7 (destruct i as [|i];
        [injection Hname as <-;
         repeat match goal with
                | |- context [contains ?w message] =>
                    first [ rewrite Hin
                          | rewrite (Hprev 0%nat w ltac:(lia) eq_refl)
                          | rewrite (Hprev 1%nat w ltac:(lia) eq_refl)
                          | rewrite (Hprev 2%nat w ltac:(lia) eq_refl)
                          | rewrite (Hprev 3%nat w ltac:(lia) eq_refl)
                          | rewrite (Hprev 4%nat w ltac:(lia) eq_refl)
                          | rewrite (Hprev 5%nat w ltac:(lia) eq_refl) ]
                end;
         eexists; split; [reflexivity|];
         unfold weekday in *;
         split; [|split; [|intros Hsame]];
         Z.to_euclidean_division_equations; lia
        |]).
  destruct i; discriminate Hname.
Qed.

Lemma weekday_keyword_resolution_witness :
  keyword_range (ist_datetime 2025 6 25 15 0) "free on friday or monday?"
  = (Some (midnight_utc (ymd2ord 2025 6 30)),
     Some (midnight_utc (ymd2ord 2025 6 30) + DAY))
  /\ weekday (ymd2ord 2025 6 30) = 0.
Proof.
  destruct (weekday_keyword_resolution (ist_datetime 2025 6 25 15 0)
              "free on friday or monday?" "monday" 0 eq_refl eq_refl eq_refl
              eq_refl) as (date & Hrange & Hday & _).
  - intros j other Hj. inversion Hj.
  - split; [reflexivity|reflexivity].
Defined.

Lemma replace_hour_any (t h : Z) :
  replace_hour t h = midnight_utc (date_ordinal t) + h * 3600.
Proof. unfold replace_hour, midnight_utc, date_ordinal. lia. Qed.

Lemma explicit_range_shape (now : Z) (message : string)
    (range : option Z * option Z) :
  explicit_range (keyword_range now message) message = Ok range ->
  range = (None, None)
  \/ exists date,
       range = (Some (midnight_utc date), Some (midnight_utc date + DAY)).
Proof.
  unfold explicit_range.
  destruct (search_date message) as [[[month day] year]|].
  - unfold datetime_utc.
    destruct (negb ((1 <=? year) && (year <=? 9999))); [discriminate|].
    destruct (negb ((1 <=? day) && (day <=? days_in_month year month)));
      [discriminate|].
    unfold add_days.
    destruct (date_ordinal (midnight_utc (ymd2ord year month day) + 1 * DAY)
              <=? MAX_ORDINAL); [|discriminate].
    intros [= <-]. right. exists (ymd2ord year month day).
    reflexivity.
  - intros [= <-]. unfold keyword_range.
    destruct (first_day (day_map (date_ordinal now)) message) as [date|];
      eauto.
Qed.

(** The shape of a range the parser returns. *)
Lemma parse_user_date_shape (now : Z) (message : string)
    (start_date end_date : option Z) :
  parse_user_date now message = Ok (start_date, end_date) ->
  (start_date = None /\ end_date = None)
  \/ exists date h1 h2,
       start_date = Some (midnight_utc date + h1 * 3600)
       /\ end_date = Some (midnight_utc date + h2 * 3600)
       /\ ((h1 = 0 /\ h2 = 24) \/ (h1 = 12 /\ h2 = 18)
           \/ (h1 = 9 /\ h2 = 18)).
Proof.
  unfold parse_user_date.
  destruct (explicit_range (keyword_range now (lower message))
              (lower message)) as [range|e] eqn:Hr; [|discriminate].
  apply explicit_range_shape in Hr. unfold narrow_range.
  destruct Hr as [->|[date ->]].
  - destruct (any_slot_keyword (lower message)).
    + intros [= <- <-]. right.
      exists (date_ordinal (now + DAY)), 9, 18.
      rewrite replace_hour_any.
      rewrite (replace_hour_midnight _ 9 18) by lia.
      split; [reflexivity|split; [reflexivity|lia]].
    + intros [= <- <-]. left. auto.
  - assert (H0 : forall h, replace_hour (midnight_utc date) h
                           = midnight_utc date + h * 3600).
    { intros h. rewrite <- (replace_hour_midnight date 0 h) by lia.
      f_equal. lia. }
    destruct (contains "afternoon" (lower message)).
    + intros [= <- <-]. right. exists date, 12, 18.
      rewrite H0, (replace_hour_midnight _ 12 18) by lia.
      split; [reflexivity|split; [reflexivity|lia]].
    + destruct (any_slot_keyword (lower message)).
      * intros [= <- <-]. right. exists date, 9, 18.
        rewrite H0, (replace_hour_midnight _ 9 18) by lia.
      split; [reflexivity|split; [reflexivity|lia]].
      * intros [= <- <-]. right. exists date, 0, 24.
        split; [f_equal; lia|]. split; [f_equal; unfold DAY; lia|lia].
Qed.

(** X5. Whatever the message, a range the parser returns lies within one
    UTC day: it is absent altogether, or it is that day's 24 hours, its
    12:00 to 18:00, or its 09:00 to 18:00. *)
Theorem parse_user_date_within_one_day (now : Z) (message : string)
    (start_date end_date : option Z) :
  parse_user_date now message = Ok (start_date, end_date) ->
  (start_date = None /\ end_date = None)
  \/ exists date h1 h2,
       start_date = Some (midnight_utc date + h1 * 3600)
       /\ end_date = Some (midnight_utc date + h2 * 3600)
       /\ ((h1 = 0 /\ h2 = 24) \/ (h1 = 12 /\ h2 = 18)
           \/ (h1 = 9 /\ h2 = 18)).
Proof. apply parse_user_date_shape. Qed.

Lemma parse_user_date_within_one_day_witness :
  exists date h1 h2,
    parse_user_date (ist_datetime 2025 6 25 15 0) "Any slot on Friday"
    = Ok (Some (midnight_utc date + h1 * 3600),
          Some (midnight_utc date + h2 * 3600))
    /\ ((h1 = 0 /\ h2 = 24) \/ (h1 = 12 /\ h2 = 18) \/ (h1 = 9 /\ h2 = 18)).
Proof.
  destruct (parse_user_date_within_one_day (ist_datetime 2025 6 25 15 0)
              "Any slot on Friday" _ _ eq_refl)
    as [[H _]|(date & h1 & h2 & Ha & Hb & Hh)]; [discriminate H|].
  exists date, h1, h2. split; [|exact Hh].
  rewrite <- Ha, <- Hb. reflexivity.
Defined.

Lemma digit_value_bounds (c : ascii) :
  is_digit c = true -> 0 <= digit_value c <= 9.
Proof.
  unfold is_digit, digit_value. intros H.
  apply andb_true_iff in H. destruct H as [H1 H2].
  apply N.leb_le in H1. apply N.leb_le in H2. lia.
Qed.

Lemma match_year_bounds (s : string) (year : Z) :
  match_year s = Some year -> 0 <= year <= 9999.
Proof.
  unfold match_year.
  destruct (snd (skip_spaces s)) as [|a [|b [|c [|d r]]]]; try discriminate.
  destruct (is_digit a) eqn:Ha; [|discriminate].
  destruct (is_digit b) eqn:Hb; [|discriminate].
  destruct (is_digit c) eqn:Hc; [|discriminate].
  destruct (is_digit d) eqn:Hd; [|discriminate].
  apply digit_value_bounds in Ha, Hb, Hc, Hd.
  cbn [andb]. intros H.
  assert (Hy : 100 * int2 a b + int2 c d = year) by congruence.
  unfold int2 in Hy. lia.
Qed.

Lemma match_day_year_bounds (s : string) (day year : Z) :
  match_day_year s = Some (day, year) ->
  0 <= day <= 99 /\ 0 <= year <= 9999.
Proof.
  unfold match_day_year.
  destruct s as [|a r1]; [discriminate|].
  destruct (is_digit a) eqn:Ha; [|discriminate].
  apply digit_value_bounds in Ha.
  assert (Hone : match r1 with
                 | String "," r2 =>
                     match match_year r2 with
                     | Some y => Some (digit_value a, y)
                     | None => None
                     end
                 | _ => None
                 end = Some (day, year) ->
                 0 <= day <= 99 /\ 0 <= year <= 9999).
  { destruct r1 as [|c r2]; [discriminate|].
    destruct (ascii_dec c ","%char) as [->|Hne].
    - destruct (match_year r2) as [y|] eqn:Hy; [|discriminate].
      intros [= <- <-]. apply match_year_bounds in Hy. lia.
    - destruct c as [[] [] [] [] [] [] [] []]; try discriminate.
      contradiction Hne. reflexivity. }
  destruct r1 as [|b [|c r3]]; try exact Hone.
  destruct (ascii_dec c ","%char) as [->|Hne].
  - destruct (is_digit b) eqn:Hb; [|exact Hone].
    destruct (match_year r3) as [y|] eqn:Hy; [|exact Hone].
    intros [= <- <-]. apply match_year_bounds in Hy.
    apply digit_value_bounds in Hb. unfold int2. lia.
  - destruct c as [[] [] [] [] [] [] [] []]; try exact Hone.
    contradiction Hne. reflexivity.
Qed.

Lemma match_month_bounds (s r : string) (month : Z) :
  match_month month_map s = Some (month, r) -> 1 <= month <= 12.
Proof.
  unfold month_map. cbn [match_month].
  repeat match goal with
         | |- context [prefix ?name s] => destruct (prefix name s)
         end;
    intros [= <- _]; lia.
Qed.

Lemma search_date_bounds (s : string) (month day year : Z) :
  search_date s = Some (month, day, year) ->
  1 <= month <= 12 /\ 0 <= day <= 99 /\ 0 <= year <= 9999.
Proof.
  assert (Hat : forall t, match_date_at t = Some (month, day, year) ->
                  1 <= month <= 12 /\ 0 <= day <= 99 /\ 0 <= year <= 9999).
  { intros t. unfold match_date_at.
    destruct (match_month month_map t) as [[m r]|] eqn:Hm; [|discriminate].
    apply match_month_bounds in Hm.
    destruct r as [|c r']; [discriminate|].
    destruct (is_space c); [|discriminate].
    destruct (match_day_year (snd (skip_spaces (String c r'))))
      as [[d y]|] eqn:Hd; [|discriminate].
    apply match_day_year_bounds in Hd. intros [= <- <- <-]. lia. }
  induction s as [|c s IH]; cbn [search_date].
  - destruct (match_date_at "") eqn:Hm; [|discriminate].
    intros [= ->]. apply Hat in Hm. exact Hm.
  - destruct (match_date_at (String c s)) eqn:Hm.
    + intros [= ->]. apply Hat in Hm. exact Hm.
    + exact IH.
Qed.

Lemma days_before_year_step (year : Z) :
  days_before_year (year + 1)
  = days_before_year year + 365 + (if is_leap year then 1 else 0).
Proof.
  unfold days_before_year, is_leap.
  replace (year + 1 - 1) with year by lia.
  destruct (Z.eqb_spec (year mod 4) 0); destruct (Z.eqb_spec (year mod 100) 0);
    destruct (Z.eqb_spec (year mod 400) 0); simpl;
    Z.to_euclidean_division_equations; lia.
Qed.

Lemma days_before_year_mono (a b : Z) :
  a <= b -> days_before_year a <= days_before_year b.
Proof.
  intros H. unfold days_before_year.
  Z.to_euclidean_division_equations. lia.
Qed.

Lemma ymd2ord_in_year (year month day : Z) :
  1 <= month <= 12 ->
  1 <= day <= days_in_month year month ->
  days_before_year year < ymd2ord year month day
  /\ ymd2ord year month day <= days_before_year (year + 1)
  /\ (ymd2ord year month day = days_before_year (year + 1) ->
      month = 12 /\ day = 31).
Proof.
  intros Hm Hd. rewrite days_before_year_step.
  unfold ymd2ord, days_before_month, days_in_month in *.
  assert (Hc : month = 1 \/ month = 2 \/ month = 3 \/ month = 4 \/ month = 5
               \/ month = 6 \/ month = 7 \/ month = 8 \/ month = 9
               \/ month = 10 \/ month = 11 \/ month = 12) by lia.
  destruct (is_leap year);
    repeat (destruct Hc as [->|Hc]; [simpl in *; lia|]);
    subst; simpl in *; lia.
Qed.

Lemma ymd2ord_max (year month day : Z) :
  1 <= year <= 9999 ->
  1 <= month <= 12 ->
  1 <= day <= days_in_month year month ->
  ymd2ord year month day <= MAX_ORDINAL
  /\ (ymd2ord year month day = MAX_ORDINAL ->
      year = 9999 /\ month = 12 /\ day = 31).
Proof.
  intros Hy Hm Hd.
  destruct (ymd2ord_in_year year month day Hm Hd) as (_ & Hle & Heq).
  assert (Hmax : days_before_year 10000 = MAX_ORDINAL) by reflexivity.
  pose proof (days_before_year_mono (year + 1) 10000 ltac:(lia)) as Hmono.
  split; [lia|]. intros Hord.
  destruct (Z.eq_dec year 9999) as [->|Hne].
  - split; [reflexivity|]. apply Heq. rewrite Hord. reflexivity.
  - pose proof (days_before_year_mono (year + 1) 9999 ltac:(lia)) as H1.
    pose proof (days_before_year_step 9999) as H2.
    change (9999 + 1) with 10000 in H2.
    destruct (is_leap 9999); lia.
Qed.

(** X6. The failures of the parser, all of them. Without an explicit date
    pattern in the message it returns. With one, the month is one of the
    twelve, the day has at most two digits and the year four, and the
    parser raises [ValueError] for the year 0000 and for a day the month
    does not have, raises [OverflowError] for December 31, 9999, whose next
    day does not exist, and returns for every other date. *)
Theorem parse_user_date_failures (now : Z) (message : string) :
  match search_date (lower message) with
  | None => exists range, parse_user_date now message = Ok range
  | Some (month, day, year) =>
      1 <= month <= 12 /\ 0 <= day <= 99 /\ 0 <= year <= 9999
      /\ (if year =? 0 then
            parse_user_date now message
            = Raise (ValueError "year 0 is out of range")
          else if negb ((1 <=? day) && (day <=? days_in_month year month))
          then
            parse_user_date now message
            = Raise (ValueError "day is out of range for month")
          else if (year =? 9999) && (month =? 12) && (day =? 31) then
            parse_user_date now message
            = Raise (OverflowError "date value out of range")
          else exists range, parse_user_date now message = Ok range)
  end.
Proof.
  destruct (search_date (lower message)) as [[[month day] year]|] eqn:Hs.
  - pose proof (search_date_bounds _ _ _ _ Hs) as (Hm & Hd & Hy).
    split; [exact Hm|]. split; [exact Hd|]. split; [exact Hy|].
    unfold parse_user_date, explicit_range. rewrite Hs. unfold datetime_utc.
    destruct (Z.eqb_spec year 0) as [->|Hy0]; [reflexivity|].
    replace ((1 <=? year) && (year <=? 9999)) with true
      by (symmetry; apply andb_true_iff; split; apply Z.leb_le; lia).
    cbn [negb].
    destruct ((1 <=? day) && (day <=? days_in_month year month)) eqn:Hv;
      cbn [negb]; [|reflexivity].
    apply andb_true_iff in Hv. destruct Hv as [H1 H2].
    apply Z.leb_le in H1. apply Z.leb_le in H2.
    destruct (ymd2ord_max year month day ltac:(lia) Hm ltac:(lia))
      as [Hle Hlast].
    destruct ((year =? 9999) && (month =? 12) && (day =? 31)) eqn:Hl.
    + apply andb_true_iff in Hl. destruct Hl as [Hl H31].
      apply andb_true_iff in Hl. destruct Hl as [H9999 H12].
      apply Z.eqb_eq in H9999, H12, H31. subst. reflexivity.
    + rewrite add_days_midnight; [eauto|].
      destruct (Z.eq_dec (ymd2ord year month day) MAX_ORDINAL) as [He|Hne];
        [|lia].
      destruct (Hlast He) as (-> & -> & ->). discriminate Hl.
  - unfold parse_user_date, explicit_range. rewrite Hs. eauto.
Qed.

(** ** The availability handler: its query, and its error turn *)

Lemma midnight_on_the_hour (date h : Z) :
  (midnight_utc date + h * 3600) mod 3600 = 0.
Proof.
  unfold midnight_utc, DAY.
  replace ((date - EPOCH_ORDINAL) * 86400 + h * 3600)
    with (((date - EPOCH_ORDINAL) * 24 + h) * 3600) by lia.
  apply Z.mod_mul. lia.
Qed.

(** X7. The availability handler either raises before any call or sends
    exactly one query, and a query it sends is well formed: it starts
    before it ends, spans at most seven days, and starts and ends on a
    full hour of UTC. The backend's guard on the range therefore never
    answers it with status 400. *)
Theorem availability_query_well_formed (E : env) (state : AgentState)
    (log log' : list effect) (r : result AgentState) :
  check_availability_node E state log = (r, log') ->
  (log' = log /\ exists e, r = Raise e)
  \/ exists start_time end_time,
       log' = (log ++ [GetAvailability start_time end_time])%list
       /\ start_time < end_time
       /\ end_time - start_time <= 7 * DAY
       /\ start_time mod 3600 = 0 /\ end_time mod 3600 = 0
       /\ (forall tz offset busy detail,
             get_availability tz offset start_time end_time busy
             <> HttpError 400 detail).
Proof.
  unfold check_availability_node, bind, lift, perform.
  destruct (last_content (messages state)) as [content|e];
    [|intros [= <- <-]; left; eauto].
  destruct (parse_user_date (now_utc E) (lower (strip content)))
    as [[start_date end_date]|e] eqn:Hp;
    [|intros [= <- <-]; left; eauto].
  assert (Hguard : forall tz offset s e busy detail,
            s < e ->
            get_availability tz offset s e busy <> HttpError 400 detail).
  { intros tz offset s e busy detail Hlt. unfold get_availability.
    replace (s >=? e) with false
      by (symmetry; rewrite Z.geb_leb; apply Z.leb_gt; lia).
    destruct (astimezone tz s); [|discriminate].
    destruct (astimezone tz e); [|discriminate].
    destruct (slot_loop tz offset (iterations s e) s e busy); discriminate. }
  apply parse_user_date_shape in Hp.
  destruct Hp as [[-> ->]|(date & h1 & h2 & -> & -> & Hh)].
  - intros Hrun. right.
    exists (replace_hour (now_utc E + DAY) 0),
           (replace_hour (now_utc E + DAY) 0 + 7 * DAY).
    rewrite replace_hour_any in *.
    split.
    { destruct (backend_availability E _ _); injection Hrun as _ <-;
        reflexivity. }
    split; [unfold DAY; lia|]. split; [lia|].
    split; [apply midnight_on_the_hour|].
    split.
    { replace (midnight_utc (date_ordinal (now_utc E + DAY)) + 0 * 3600
               + 7 * DAY)
        with (midnight_utc (date_ordinal (now_utc E + DAY)) + 168 * 3600)
        by (unfold DAY; lia).
      apply midnight_on_the_hour. }
    intros tz offset busy detail. apply Hguard. unfold DAY. lia.
  - intros Hrun. right.
    exists (midnight_utc date + h1 * 3600), (midnight_utc date + h2 * 3600).
    split.
    { destruct (backend_availability E _ _); injection Hrun as _ <-;
        reflexivity. }
    split; [lia|]. split; [unfold DAY; lia|].
    split; [apply midnight_on_the_hour|].
    split; [apply midnight_on_the_hour|].
    intros tz offset busy detail. apply Hguard. lia.
Qed.

Lemma availability_query_well_formed_witness :
  let state :=
    user_says (initial_state greeting_session) "Any slot on Friday" in
  exists start_time end_time,
    snd (run (check_availability_node sample_env state))
    = [GetAvailability start_time end_time]
    /\ start_time < end_time.
Proof.
  intros state.
  destruct (availability_query_well_formed sample_env state [] _ _ eq_refl)
    as [[Hlog _]|(s & e & Hlog & Hlt & _)].
  - discriminate Hlog.
  - exists s, e. split; [exact Hlog|exact Hlt].
Defined.

Lemma last_content_error (ms : list turn) (error role : string) :
  last_content (ms ++ [Error error role]) = Raise (KeyError "content").
Proof.
  unfold last_content, last_message. rewrite rev_unit. reflexivity.
Qed.

(** X8. When the model call of the classifier fails, the classifier's
    error turn is the last message, the intent is "unclear", and the
    suggestion handler that the router picks raises [KeyError] on the
    missing "content": the turn ends with that exception after the single
    model call, and the error text of the classifier is not returned. *)
Theorem classifier_failure_raises (E : env) (state : AgentState)
    (content history e : string) (log : list effect) :
  last_content (messages state) = Ok content ->
  history_of (messages state) = Ok history ->
  llm_invoke E (intention_prompt content history) = LlmFailure e ->
  workflow E state log
  = (Raise (KeyError "content"),
     (log ++ [LlmInvoke (intention_prompt content history)])%list).
Proof.
  intros Hc Hh Hr. unfold workflow, bind.
  rewrite (identify_intent_run E state content history log Hc Hh).
  cbv zeta. rewrite Hr.
  change (route (set_intent (say_error state
            ("Error processing request: " ++ e ++ ". Please try again."))
            "unclear")) with "suggest_slots".
  cbn [String.eqb Ascii.eqb Bool.eqb].
  unfold suggest_slots, bind, lift.
  cbn [messages set_intent say_error append_message].
  rewrite last_content_error. reflexivity.
Qed.

Lemma classifier_failure_raises_witness :
  run (workflow (env_answering (LlmFailure "rate limit"))
         (user_says (initial_state greeting_session) "book a meeting"))
  = (Raise (KeyError "content"),
     [LlmInvoke
        (intention_prompt "book a meeting"
           "Hello! How can I assist you today?")]).
Proof.
  apply (classifier_failure_raises (env_answering (LlmFailure "rate limit"))
           _ "book a meeting" "Hello! How can I assist you today?"
           "rate limit" []); reflexivity.
Defined.

(** X9. When the backend answers the availability query with an error
    status, the availability handler appends its error turn and returns;
    the suggestion handler that always follows it then raises [KeyError] on
    the missing "content". The turn ends with that exception after the
    classification and the one query. *)
Theorem availability_error_raises (E : env) (state : AgentState)
    (content history reply err : string) (range : option Z * option Z)
    (log : list effect) :
  last_content (messages state) = Ok content ->
  history_of (messages state) = Ok history ->
  llm_invoke E (intention_prompt content history) = Completion reply ->
  route (set_intent state (strip reply)) = "check_availability" ->
  parse_user_date (now_utc E) (lower (strip content)) = Ok range ->
  (forall s e, backend_availability E s e = HTTPStatusError err) ->
  exists start_time end_time,
    workflow E state log
    = (Raise (KeyError "content"),
       (log ++ [LlmInvoke (intention_prompt content history);
                GetAvailability start_time end_time])%list).
Proof.
  intros Hc Hh Hr Hroute Hp Hb. unfold workflow, bind.
  rewrite (identify_intent_run E state content history log Hc Hh).
  cbv zeta. rewrite Hr, Hroute.
  cbn [String.eqb Ascii.eqb Bool.eqb].
  unfold check_availability_node, bind, lift, perform.
  cbn [messages set_intent]. rewrite Hc, Hp.
  destruct range as [start_date end_date].
  apply parse_user_date_shape in Hp.
  assert (Hcrash : forall st s e,
            messages st = messages state ->
            suggest_slots E
              (say_error st ("Error checking availability: " ++ err))
              ((log ++ [LlmInvoke (intention_prompt content history)])
               ++ [GetAvailability s e])%list
            = (Raise (KeyError "content"),
               (log ++ [LlmInvoke (intention_prompt content history);
                        GetAvailability s e])%list)).
  { intros st s e Hm. unfold suggest_slots, bind, lift.
    cbn [messages say_error append_message].
    rewrite last_content_error, <- app_assoc. reflexivity. }
  destruct Hp as [[-> ->]|(date & h1 & h2 & -> & -> & _)].
  - eexists. eexists. rewrite Hb. apply Hcrash. reflexivity.
  - eexists. eexists. rewrite Hb. apply Hcrash. reflexivity.
Qed.

Lemma availability_error_raises_witness :
  let E :=
    {| llm_invoke := fun _ => Completion "check_availability";
       fuzzy_time := fun _ => None;
       strftime_ist := fun t => NilZero.string_of_int (Z.to_int t);
       now_utc := ist_datetime 2025 6 25 15 0;
       asia_kolkata := modern_kolkata;
       backend_availability := fun _ _ => HTTPStatusError "503";
       backend_book := fun _ _ _ _ => HTTPStatusError "503";
       backend_upcoming_events := HTTPStatusError "503";
       backend_cancel := fun _ => HTTPStatusError "503" |} in
  exists start_time end_time,
    run (workflow E
           (user_says (initial_state greeting_session) "slots tomorrow"))
    = (Raise (KeyError "content"),
       [LlmInvoke
          (intention_prompt "slots tomorrow"
             "Hello! How can I assist you today?");
        GetAvailability start_time end_time]).
Proof.
  intros E.
  eapply (availability_error_raises E _ "slots tomorrow"
            "Hello! How can I assist you today?" "check_availability" "503"
            _ []); reflexivity.
Defined.

(** ** What a turn of the chat loop can and cannot do *)

Lemma emits_ret {A : Type} (P : effect -> Prop) (a : A) : emits P (ret a).
Proof. intros log. exists []. simpl. rewrite app_nil_r. auto. Qed.

Lemma emits_raise {A : Type} (P : effect -> Prop) (e : exn) :
  emits P (@raise A e).
Proof. intros log. exists []. simpl. rewrite app_nil_r. auto. Qed.

Lemma emits_lift {A : Type} (P : effect -> Prop) (r : result A) :
  emits P (lift r).
Proof. intros log. exists []. simpl. rewrite app_nil_r. auto. Qed.

Lemma emits_perform {A : Type} (P : effect -> Prop) (ev : effect) (a : A) :
  P ev -> emits P (perform ev a).
Proof. intros Hev log. exists [ev]. simpl. auto. Qed.

Lemma emits_bind_state {A B : Type} (P : effect -> Prop) (m : M A)
    (k : A -> M B) :
  emits P m ->
  (forall log a log', m log = (Ok a, log') -> emits P (k a)) ->
  emits P (bind m k).
Proof.
  intros Hm Hk log. unfold bind.
  destruct (Hm log) as (l1 & H1 & HP1).
  destruct (m log) as [[a|e] log'] eqn:Hml; simpl in H1; subst log'.
  - destruct (Hk log a _ Hml (log ++ l1)%list) as (l2 & H2 & HP2).
    exists (l1 ++ l2)%list. rewrite H2, app_assoc.
    split; [reflexivity|]. apply Forall_app. auto.
  - exists l1. auto.
Qed.

Lemma emits_bind {A B : Type} (P : effect -> Prop) (m : M A)
    (k : A -> M B) :
  emits P m -> (forall a, emits P (k a)) -> emits P (bind m k).
Proof. intros Hm Hk. apply emits_bind_state; auto. Qed.

Ltac emits_step :=
  first
    [ apply emits_ret | apply emits_raise | apply emits_lift
    | apply emits_perform; exact I
    | apply emits_bind; [|intros ?]
    | match goal with
      | |- emits _ (match ?x with _ => _ end) => destruct x
      | |- emits _ (if ?x then _ else _) => destruct x
      | |- emits _ (let _ := _ in _) => cbv zeta
      end ].

Lemma identify_intent_not_booking (E : env) (st : AgentState) :
  emits not_booking (identify_intent E st).
Proof. unfold identify_intent, invoke. repeat emits_step. Qed.

Lemma check_availability_not_booking (E : env) (st : AgentState) :
  emits not_booking (check_availability_node E st).
Proof. unfold check_availability_node. repeat emits_step. Qed.

Lemma suggest_slots_not_booking (E : env) (st : AgentState) :
  emits not_booking (suggest_slots E st).
Proof. unfold suggest_slots, invoke. repeat emits_step. Qed.

Lemma cancel_booking_not_booking (E : env) (st : AgentState) :
  emits not_booking (cancel_booking E st).
Proof. unfold cancel_booking. repeat emits_step. Qed.

Lemma confirm_booking_without_slots (E : env) (st : AgentState) :
  suggested_slots st = [] -> emits not_booking (confirm_booking E st).
Proof.
  intros Hs. unfold confirm_booking. rewrite Hs.
  apply emits_bind; [apply emits_lift|]. intros content.
  cbv zeta. rewrite select_slot_nil. apply emits_ret.
Qed.

Lemma identify_intent_keeps_slots (E : env) (st st' : AgentState)
    (log log' : list effect) :
  identify_intent E st log = (Ok st', log') ->
  suggested_slots st' = suggested_slots st.
Proof.
  unfold identify_intent, bind, lift, invoke, perform.
  destruct (last_content (messages st)); [|discriminate].
  destruct (history_of (messages st)); [|discriminate].
  destruct (llm_invoke E _); intros [= <- _]; reflexivity.
Qed.

(** X10. A graph run that starts without suggested slots never calls
    [POST /book], whatever the model, the message and the backend: the
    booking handler is reached only straight from the classifier, where it
    finds the empty list. [main] starts every run so, so no turn of the
    chat books anything. *)
Theorem no_turn_ever_books (E : env) :
  (forall state,
     suggested_slots state = [] -> emits not_booking (workflow E state))
  /\ (forall session prompt,
        Forall not_booking (snd (main E session prompt))).
Proof.
  assert (Hflow : forall state,
            suggested_slots state = [] ->
            emits not_booking (workflow E state)).
  { intros state Hs. unfold workflow.
    apply emits_bind_state; [apply identify_intent_not_booking|].
    intros log st log' Hid. apply identify_intent_keeps_slots in Hid.
    cbv zeta.
    destruct (String.eqb (route st) "check_availability").
    - apply emits_bind; [apply check_availability_not_booking|].
      intros st2. apply suggest_slots_not_booking.
    - destruct (String.eqb (route st) "suggest_slots");
        [apply suggest_slots_not_booking|].
      destruct (String.eqb (route st) "confirm_booking").
      + apply confirm_booking_without_slots. congruence.
      + apply cancel_booking_not_booking. }
  split; [exact Hflow|].
  intros session prompt. unfold main.
  destruct prompt as [[|c text]|]; [constructor| |constructor].
  unfold main_turn.
  destruct (copy_messages (session ++ [Content (String c text) "user"]))
    as [copied|e]; [|constructor].
  unfold run.
  destruct (Hflow (initial_state copied) eq_refl []) as (l & Hl & HP).
  destruct (workflow E (initial_state copied) []) as [[result|e] log];
    simpl in Hl; subst log; simpl.
  - destruct (last_message (messages result)) as [t|e]; [|exact HP].
    destruct (get_content (as_assistant t)); exact HP.
  - exact HP.
Qed.

Lemma no_turn_ever_books_witness :
  Forall not_booking
    (snd (main (env_answering (Completion "confirm_booking"))
            greeting_session (Some "yes, book the first slot")))
  /\ fst (main (env_answering (Completion "confirm_booking"))
            greeting_session (Some "yes, book the first slot"))
     = (greeting_session
        ++ [Content "yes, book the first slot" "user";
            Content
              "No available slots to confirm. Please check availability first."
              "assistant"])%list.
Proof.
  split.
  - destruct (no_turn_ever_books (env_answering (Completion "confirm_booking")))
      as [_ Hmain].
    apply Hmain.
  - reflexivity.
Defined.

Lemma adds_ret (state state' : AgentState) (lo hi : nat)
    (added : list turn) :
  messages state' = (messages state ++ added)%list ->
  (lo <= List.length added <= hi)%nat ->
  adds_turns state lo hi (ret state').
Proof.
  intros Hm Hb log st log' [= <- _]. exists added. auto.
Qed.

Lemma adds_raise (state : AgentState) (lo hi : nat) (e : exn) :
  adds_turns state lo hi (raise e).
Proof. intros log st log' H. discriminate H. Qed.

Lemma adds_bind {A : Type} (state : AgentState) (lo hi : nat) (m : M A)
    (k : A -> M AgentState) :
  (forall a, adds_turns state lo hi (k a)) ->
  adds_turns state lo hi (bind m k).
Proof.
  intros Hk log st log'. unfold bind.
  destruct (m log) as [[a|e] l]; [apply Hk|discriminate].
Qed.

Ltac adds_leaf :=
  eapply adds_ret;
  [ cbn [messages say say_error append_message set_intent
         set_suggested_slots set_confirmed_slot set_events];
    first [ reflexivity
          | rewrite <- app_assoc; reflexivity
          | symmetry; apply app_nil_r ]
  | cbn [List.length app]; lia ].

Ltac adds_step :=
  first
    [ adds_leaf
    | apply adds_raise
    | apply adds_bind; intros ?
    | match goal with
      | |- adds_turns _ _ _ (match ?x with _ => _ end) => destruct x
      | |- adds_turns _ _ _ (if ?x then _ else _) => destruct x
      | |- adds_turns _ _ _ (let _ := _ in _) => cbv zeta
      end ].

Lemma check_availability_adds (E : env) (st : AgentState) :
  adds_turns st 1 1 (check_availability_node E st).
Proof. unfold check_availability_node. repeat adds_step. Qed.

Lemma suggest_slots_adds (E : env) (st : AgentState) :
  adds_turns st 1 1 (suggest_slots E st).
Proof. unfold suggest_slots, invoke. repeat adds_step. Qed.

Lemma confirm_booking_adds (E : env) (st : AgentState) :
  adds_turns st 1 2 (confirm_booking E st).
Proof. unfold confirm_booking, invoke. repeat adds_step. Qed.

Lemma cancel_booking_adds (E : env) (st : AgentState) :
  adds_turns st 1 1 (cancel_booking E st).
Proof. unfold cancel_booking. repeat adds_step. Qed.

(** X11. A graph run that returns has kept every earlier message and has
    appended one or two turns: so the last message of its result, which
    [main] shows as the reply, is never the user's own. (The availability
    path appends its slot list and then the suggestion; the booking
    handler its confirmation and then the booking outcome.) *)
Theorem workflow_appends_a_reply (E : env) (state : AgentState) :
  adds_turns state 1 2 (workflow E state).
Proof.
  intros log st' log'. unfold workflow, bind at 1.
  destruct (last_content (messages state)) as [content|e] eqn:Hc.
  2:{ unfold identify_intent, bind, lift. rewrite Hc. discriminate. }
  destruct (history_of (messages state)) as [history|e] eqn:Hh.
  2:{ unfold identify_intent, bind, lift. rewrite Hc, Hh. discriminate. }
  rewrite (identify_intent_run E state content history log Hc Hh).
  cbv zeta.
  destruct (llm_invoke E (intention_prompt content history)) as [reply|e].
  - set (st := set_intent state (strip reply)).
    assert (Hst : messages st = messages state) by reflexivity.
    intros Hrun.
    assert (Hadd : exists added,
               messages st' = (messages st ++ added)%list
               /\ (1 <= List.length added <= 2)%nat).
    { destruct (String.eqb (route st) "check_availability").
      - unfold bind in Hrun.
        destruct (check_availability_node E st _) as [[st2|e] l2] eqn:H2;
          [|discriminate].
        apply check_availability_adds in H2.
        destruct H2 as (a2 & Hm2 & Hl2).
        apply suggest_slots_adds in Hrun.
        destruct Hrun as (a3 & Hm3 & Hl3).
        exists (a2 ++ a3)%list. rewrite Hm3, Hm2, app_assoc, length_app.
        split; [reflexivity|lia].
      - destruct (String.eqb (route st) "suggest_slots").
        + apply suggest_slots_adds in Hrun.
          destruct Hrun as (a & Hm & Hl). exists a. split; [exact Hm|lia].
        + destruct (String.eqb (route st) "confirm_booking").
          * apply confirm_booking_adds in Hrun. exact Hrun.
          * apply cancel_booking_adds in Hrun.
            destruct Hrun as (a & Hm & Hl). exists a. split; [exact Hm|lia]. }
    rewrite Hst in Hadd. exact Hadd.
  - change (route (set_intent (say_error state
              ("Error processing request: " ++ e ++ ". Please try again."))
              "unclear")) with "suggest_slots".
    cbn [String.eqb Ascii.eqb Bool.eqb].
    unfold suggest_slots, bind, lift.
    cbn [messages set_intent say_error append_message].
    rewrite last_content_error. discriminate.
Qed.

Lemma workflow_appends_a_reply_witness :
  exists added,
    messages
      (say (set_intent (user_says (initial_state greeting_session) "hi")
              "unclear") "Hi!")
    = (messages (user_says (initial_state greeting_session) "hi")
       ++ added)%list
    /\ (1 <= List.length added <= 2)%nat.
Proof.
  apply (workflow_appends_a_reply (env_answering (Completion "unclear"))
           (user_says (initial_state greeting_session) "hi") [] _
           [LlmInvoke
              (intention_prompt "hi" "Hello! How can I assist you today?")]).
  reflexivity.
Defined.

Lemma display_history_error (session : list turn) :
  existsb is_error_turn session = true ->
  display_history session = Raise (KeyError "content").
Proof.
  induction session as [|t rest IH]; simpl; [discriminate|].
  destruct t as [content role|error role]; simpl; [|reflexivity].
  intros H. rewrite (IH H). reflexivity.
Qed.

Lemma main_guard (E : env) (session : list turn) (prompt : string) :
  prompt <> "" -> main E session (Some prompt) = main_turn E session prompt.
Proof. destruct prompt; [congruence|reflexivity]. Qed.

(** X12. What [main] does to the session. Without a text, or with an
    empty one, it does nothing. With a text, whatever happens in the turn,
    it keeps the earlier messages, appends the user's message, then one
    reply, or two when the reply is an error turn, which it follows with
    the apology for the missing "content". The last message of the
    session is then a turn with content. *)
Theorem main_appends_replies (E : env) (session : list turn)
    (prompt : string) :
  main E session None = (session, [])
  /\ main E session (Some "") = (session, [])
  /\ (prompt <> "" ->
      exists replies,
        fst (main E session (Some prompt))
        = (session ++ Content prompt "user" :: replies)%list
        /\ ((exists content, replies = [Content content ASSISTANT])
            \/ (exists error,
                  replies = [Error error ASSISTANT;
                             apology (KeyError "content")]))).
Proof.
  split; [reflexivity|]. split; [reflexivity|].
  intros Hne. rewrite (main_guard E session prompt Hne).
  unfold main_turn.
  assert (Hone : forall e,
            exists replies,
              ((session ++ [Content prompt "user"]) ++ [apology e])%list
              = (session ++ Content prompt "user" :: replies)%list
              /\ ((exists content, replies = [Content content ASSISTANT])
                  \/ (exists error,
                        replies = [Error error ASSISTANT;
                                   apology (KeyError "content")]))).
  { intros e. exists [apology e]. rewrite <- app_assoc.
    split; [reflexivity|]. left. unfold apology. eauto. }
  destruct (copy_messages (session ++ [Content prompt "user"]))
    as [copied|e]; [|apply Hone].
  destruct (run (workflow E (initial_state copied))) as [[result|e] log];
    [|apply Hone].
  destruct (last_message (messages result)) as [t|e]; [|apply Hone].
  destruct t as [content role|error role]; cbn [as_assistant get_content fst].
  - exists [Content content ASSISTANT]. rewrite <- app_assoc.
    split; [reflexivity|]. left. eauto.
  - exists [Error error ASSISTANT; apology (KeyError "content")].
    rewrite <- !app_assoc. split; [reflexivity|]. right. eauto.
Qed.

Lemma main_appends_replies_witness :
  exists replies,
    fst (main (env_answering (Completion "unclear")) greeting_session
           (Some "hi"))
    = (greeting_session ++ Content "hi" "user" :: replies)%list
    /\ ((exists content, replies = [Content content ASSISTANT])
        \/ (exists error,
              replies = [Error error ASSISTANT;
                         apology (KeyError "content")])).
Proof.
  destruct (main_appends_replies (env_answering (Completion "unclear"))
              greeting_session "hi") as (_ & _ & Hturn).
  apply Hturn. discriminate.
Defined.

(** X13. An error turn in the session stops the chat for good: every
    later run of the script raises [KeyError('content')] in the loop that
    shows the history, before [main] is reached, so no message is
    answered, nothing is called and nothing is stored. A turn whose graph
    run ends on an error turn stores one, followed by the apology for the
    missing "content". *)
Theorem error_turn_poisons_session (E : env) (session : list turn)
    (prompt : option string) :
  (existsb is_error_turn session = true ->
   script_run E (Some session) prompt = Raise (KeyError "content"))
  /\ (forall text copied result log error role,
        text <> "" ->
        copy_messages (session ++ [Content text "user"])%list = Ok copied ->
        run (workflow E (initial_state copied)) = (Ok result, log) ->
        last_message (messages result) = Ok (Error error role) ->
        let stored := fst (main E session (Some text)) in
        stored
        = (session
           ++ [Content text "user"; Error error ASSISTANT;
               apology (KeyError "content")])%list
        /\ script_run E (Some stored) prompt = Raise (KeyError "content")).
Proof.
  assert (Hpoison : forall l,
            existsb is_error_turn l = true ->
            script_run E (Some l) prompt = Raise (KeyError "content")).
  { intros l Hl. unfold script_run. rewrite display_history_error by exact Hl.
    reflexivity. }
  split; [apply Hpoison|].
  intros text copied result log error role Hne Hcopy Hrun Hlast stored.
  assert (Hstored : stored
                    = (session
                       ++ [Content text "user"; Error error ASSISTANT;
                           apology (KeyError "content")])%list).
  { unfold stored. rewrite (main_guard E session text Hne).
    unfold main_turn. rewrite Hcopy, Hrun, Hlast.
    cbn [as_assistant get_content fst].
    rewrite <- !app_assoc. reflexivity. }
  split; [exact Hstored|].
  apply Hpoison. rewrite Hstored, existsb_app.
  cbn [existsb is_error_turn orb]. apply orb_true_r.
Qed.

Lemma error_turn_poisons_session_witness :
  let E :=
    {| llm_invoke := fun _ => Completion "cancel";
       fuzzy_time := fun _ => None;
       strftime_ist := fun t => NilZero.string_of_int (Z.to_int t);
       now_utc := ist_datetime 2025 6 25 15 0;
       asia_kolkata := modern_kolkata;
       backend_availability := fun _ _ => Reply [];
       backend_book := fun _ _ _ _ => HTTPStatusError "503";
       backend_upcoming_events := HTTPStatusError "503";
       backend_cancel := fun _ => HTTPStatusError "503" |} in
  let first := script_run E None (Some "cancel my meeting") in
  let stored :=
    (greeting_session
     ++ [Content "cancel my meeting" "user";
         Error "Error fetching upcoming events: 503" "assistant";
         apology (KeyError "content")])%list in
  first = Ok (stored, [LlmInvoke
                         (intention_prompt "cancel my meeting"
                            "Hello! How can I assist you today?");
                       GetUpcomingEvents])
  /\ script_run E (Some stored) (Some "hello?") = Raise (KeyError "content")
  /\ script_run E (Some stored) None = Raise (KeyError "content").
Proof.
  intros E first stored.
  split; [reflexivity|].
  split.
  - destruct (error_turn_poisons_session E stored (Some "hello?"))
      as [Hpoison _].
    apply Hpoison. reflexivity.
  - destruct (error_turn_poisons_session E greeting_session None)
      as [_ Hturn].
    destruct (Hturn "cancel my meeting" _ _ _ _ _ ltac:(discriminate)
                eq_refl eq_refl eq_refl) as [_ Hlater].
    exact Hlater.
Defined.

(** ** The cancellation handler *)

Lemma selected_index_spec (message : string) (evs : list event) :
  forall k i,
  selected_index k evs message = Some i ->
  (k <= i < k + List.length evs)%nat
  /\ contains (str (i + 1)) message = true
  /\ (forall j, (k <= j < i)%nat -> contains (str (j + 1)) message = false).
Proof.
  induction evs as [|ev rest IH]; intros k i; cbn [selected_index];
    [discriminate|].
  destruct (contains (str (k + 1)) message) eqn:Hk.
  - intros [= <-]. cbn [List.length]. split; [lia|]. split; [exact Hk|].
    intros j Hj. lia.
  - intros Hsel. apply IH in Hsel. destruct Hsel as (Hr & Hi & Hprev).
    cbn [List.length]. split; [lia|]. split; [exact Hi|].
    intros j Hj. destruct (Nat.eq_dec j k) as [->|Hne]; [exact Hk|].
    apply Hprev. lia.
Qed.

(** X14. The cancellation handler fetches the upcoming events once and
    deletes at most one event, which is one of those fetched: the first
    whose 1-based number occurs in the message as a substring. A message
    without a digit deletes nothing. *)
Theorem cancel_deletes_only_the_selected (E : env) (state : AgentState)
    (log : list effect) :
  exists l,
    snd (cancel_booking E state log) = (log ++ GetUpcomingEvents :: l)%list
    /\ (l = []
        \/ exists evs content i ev,
             backend_upcoming_events E = Reply evs
             /\ last_content (messages state) = Ok content
             /\ nth_error evs i = Some ev
             /\ contains (str (i + 1)) (lower (strip content)) = true
             /\ (forall j, (j < i)%nat ->
                   contains (str (j + 1)) (lower (strip content)) = false)
             /\ l = [DeleteCancel (ev_id ev)])
    /\ (forall content,
          last_content (messages state) = Ok content ->
          has_digit (lower (strip content)) = false ->
          l = []).
Proof.
  unfold cancel_booking, bind, perform, lift.
  destruct (backend_upcoming_events E) as [evs|e|e] eqn:Hev;
    try (exists []; cbn [snd]; split; [reflexivity|]; split; auto).
  cbn [messages set_events].
  destruct (last_content (messages state)) as [content|e] eqn:Hc;
    [|exists []; cbn [snd]; split; [reflexivity|]; split; auto].
  destruct evs as [|ev0 rest];
    [exists []; cbn [snd]; split; [reflexivity|]; split; auto|].
  set (evs := ev0 :: rest) in *.
  destruct (event_lines E 0 evs) as [lines|e];
    [|exists []; cbn [snd]; split; [reflexivity|]; split; auto].
  destruct (negb (contains "select" (lower (strip content)))
            && negb (existsb
                       (fun i => contains (str (i + 1)) (lower (strip content)))
                       (seq 0 (List.length evs))));
    [exists []; cbn [snd]; split; [reflexivity|]; split; auto|].
  destruct (selected_index 0 evs (lower (strip content))) as [i|] eqn:Hsel;
    [|exists []; cbn [snd]; split; [reflexivity|]; split; auto].
  apply selected_index_spec in Hsel. destruct Hsel as (Hr & Hi & Hprev).
  destruct (nth_error evs i) as [ev|] eqn:Hn;
    [|exists []; cbn [snd]; split; [reflexivity|]; split; auto].
  destruct (ev_start ev) as [start|];
    [|exists []; cbn [snd]; split; [reflexivity|]; split; auto].
  destruct (ev_summary ev) as [summary|];
    [|exists []; cbn [snd]; split; [reflexivity|]; split; auto].
  exists [DeleteCancel (ev_id ev)].
  split.
  { destruct (backend_cancel E (ev_id ev)); cbn [snd];
      rewrite <- app_assoc; reflexivity. }
  split.
  - right. exists evs, content, i, ev.
    repeat (split; [first [reflexivity | assumption]|]).
    split; [|reflexivity]. intros j Hj. apply Hprev. lia.
  - intros c [= <-] Hd.
    apply contains_has_digit in Hi; [congruence|apply str_has_digit].
Qed.

Lemma cancel_deletes_only_the_selected_witness :
  let E :=
    {| llm_invoke := fun _ => Completion "cancel";
       fuzzy_time := fun _ => None;
       strftime_ist := fun t => NilZero.string_of_int (Z.to_int t);
       now_utc := ist_datetime 2025 6 25 15 0;
       asia_kolkata := modern_kolkata;
       backend_availability := fun _ _ => Reply [];
       backend_book := fun _ _ _ _ => HTTPStatusError "503";
       backend_upcoming_events :=
         Reply [{| ev_id := "a1"; ev_summary := Some "Meeting";
                   ev_start := Some (ist_datetime 2025 6 26 10 0) |};
                {| ev_id := "b2"; ev_summary := Some "Review";
                   ev_start := Some (ist_datetime 2025 6 27 15 0) |}];
       backend_cancel := fun _ => Reply tt |} in
  snd (run (cancel_booking E
              (user_says (initial_state greeting_session)
                 "cancel the second one")))
  = [GetUpcomingEvents]
  /\ snd (run (cancel_booking E
                 (user_says (initial_state greeting_session) "cancel 2")))
     = [GetUpcomingEvents; DeleteCancel "b2"].
Proof.
  intros E. split; [|reflexivity].
  destruct (cancel_deletes_only_the_selected E
              (user_says (initial_state greeting_session)
                 "cancel the second one") [])
    as (l & Hlog & _ & Hnone).
  unfold run. rewrite Hlog.
  rewrite (Hnone "cancel the second one" eq_refl eq_refl). reflexivity.
Defined.

Lemma prefix_app_left (a b : string) : forall hay,
  prefix (a ++ b) hay = true -> prefix a hay = true.
Proof.
  induction a as [|c a IH]; intros hay; cbn [append];
    [destruct hay; reflexivity|].
  destruct hay as [|d h]; cbn [prefix]; [discriminate|].
  destruct (ascii_dec c d); [apply IH|discriminate].
Qed.

Lemma contains_app_left (a b hay : string) :
  contains (a ++ b) hay = true -> contains a hay = true.
Proof.
  induction hay as [|d h IH]; cbn [contains]; intros H;
    apply orb_true_iff in H; apply orb_true_iff.
  - destruct H as [H|H]; [left; eapply prefix_app_left; exact H|discriminate].
  - destruct H as [H|H]; [left; eapply prefix_app_left; exact H|right; auto].
Qed.

(** X15. The number test of the cancellation handler is a substring test
    taken in increasing order, so the tenth upcoming event can never be
    selected: a message that holds "10" holds "1", and selects the
    first. *)
Theorem tenth_event_unselectable (evs : list event) (message : string) :
  selected_index 0 evs message <> Some 9%nat
  /\ (contains "10" message = true -> evs <> [] ->
      selected_index 0 evs message = Some 0%nat).
Proof.
  assert (Hone : contains "10" message = true ->
                 contains "1" message = true)
    by (apply (contains_app_left "1" "0")).
  split.
  - intros Hsel. apply selected_index_spec in Hsel.
    destruct Hsel as (_ & H10 & Hprev).
    change (str (9 + 1)) with "10" in H10.
    specialize (Hprev 0%nat ltac:(lia)).
    change (str (0 + 1)) with "1" in Hprev.
    rewrite (Hone H10) in Hprev. discriminate.
  - intros H10 Hne. destruct evs as [|ev rest]; [congruence|].
    cbn [selected_index]. change (str (0 + 1)) with "1".
    rewrite (Hone H10). reflexivity.
Qed.

Lemma tenth_event_unselectable_witness :
  selected_index 0
    (repeat {| ev_id := "id"; ev_summary := Some "Meeting";
               ev_start := Some 0 |} 10)
    "cancel 10"
  = Some 0%nat.
Proof.
  destruct (tenth_event_unselectable
              (repeat {| ev_id := "id"; ev_summary := Some "Meeting";
                         ev_start := Some 0 |} 10) "cancel 10")
    as [_ Hfirst].
  apply Hfirst; [reflexivity|discriminate].
Defined.

(** ** What the handlers show and send *)

Lemma firstn_incl {A : Type} (n : nat) (l : list A) : incl (firstn n l) l.
Proof.
  revert l. induction n as [|n IH]; intros l a Ha.
  - destruct Ha.
  - destruct l as [|x l]; [destruct Ha|].
    destruct Ha as [Ha|Ha]; [left; exact Ha|right; apply IH; exact Ha].
Qed.

Lemma presented_slots_incl (E : env) (message : string) (slots : list Z) :
  incl (presented_slots E message slots) slots.
Proof.
  unfold presented_slots. intros x Hx. apply firstn_incl in Hx.
  unfold filtered_slots in Hx.
  destruct (prioritized_slots E (requested_hours message) slots) eqn:Hp.
  - destruct (anytime_keyword message); [|exact Hx].
    apply filter_In in Hx. tauto.
  - rewrite <- Hp, prioritized_slots_filter in Hx.
    apply filter_In in Hx. tauto.
Qed.

(** X16. The suggestion handler never calls the backend and calls the
    model at most once; what it then hands to the model is the rendering
    of at least one and at most five slots, every one of them a slot
    suggested in the state. *)
Theorem suggest_slots_shows_suggested (E : env) (state : AgentState)
    (log : list effect) :
  exists l,
    snd (suggest_slots E state log) = (log ++ l)%list
    /\ (l = []
        \/ exists message shown history,
             l = [LlmInvoke
                    (suggestion_prompt message (map (strftime_ist E) shown)
                       history)]
             /\ shown <> []
             /\ (List.length shown <= 5)%nat
             /\ incl shown (suggested_slots state)).
Proof.
  unfold suggest_slots, bind, lift, invoke, perform.
  destruct (last_content (messages state)) as [content|e];
    [|exists []; cbn [snd]; rewrite app_nil_r; auto].
  destruct (history_of (messages state)) as [history|e];
    [|exists []; cbn [snd]; rewrite app_nil_r; auto].
  destruct (existsb _ greetings);
    [exists []; cbn [snd]; rewrite app_nil_r; auto|].
  destruct (contains "good morning" _ && _);
    [exists []; cbn [snd]; rewrite app_nil_r; auto|].
  destruct (suggested_slots state) as [|s0 rest] eqn:Hs;
    [exists []; cbn [snd]; rewrite app_nil_r; auto|].
  rewrite <- Hs.
  pose proof (presented_slots_incl E (lower (strip content))
                (suggested_slots state)) as Hincl.
  assert (Hlen : (List.length (presented_slots E (lower (strip content))
                                 (suggested_slots state)) <= 5)%nat).
  { unfold presented_slots. rewrite length_firstn. lia. }
  destruct (presented_slots E (lower (strip content)) (suggested_slots state))
    as [|p0 shown] eqn:Hshown;
    [exists []; cbn [snd map]; rewrite app_nil_r; auto|].
  cbn [map].
  eexists. split.
  - destruct (llm_invoke E _); cbn [snd]; reflexivity.
  - right. exists (lower (strip content)), (p0 :: shown), history.
    split; [reflexivity|]. split; [discriminate|]. split; assumption.
Qed.

(** ** Booking: the endpoint and the request the agent sends *)

(** X17. The statuses of [POST /book]. A malformed time answers 400. For
    well-formed times that are not in order, the 400 the body raises is
    caught by the endpoint's own [except Exception] and leaves as 500,
    where [GET /availability] answers 400 for the same range. The calendar
    is asked to insert exactly when both times are well formed and in
    order, and the answer is 200 exactly when that insert succeeds. *)
Theorem book_appointment_statuses
    (str_http_exception : Z -> string -> string)
    (calendar_insert : Z -> Z -> string -> string -> string + string)
    (start_time end_time : parsed) (summary description : string) :
  let answer :=
    book_appointment str_http_exception calendar_insert start_time end_time
      summary description in
  (forall s e,
     start_time = Instant s -> end_time = Instant e -> s >= e ->
     answer
     = (HttpError 500
          ("Error booking appointment: "
           ++ str_http_exception 400 "start_time must be before end_time"),
        [])
     /\ forall tz offset busy,
          get_availability tz offset s e busy
          = HttpError 400 "start_time must be before end_time")
  /\ ((exists msg, start_time = Malformed msg
                   \/ (exists s, start_time = Instant s)
                      /\ end_time = Malformed msg) ->
      exists msg, answer = (HttpError 400 ("Invalid datetime format: " ++ msg),
                            []))
  /\ (snd answer <> [] <->
      exists s e,
        start_time = Instant s /\ end_time = Instant e /\ s < e
        /\ snd answer = [(s, e)])
  /\ ((exists message, fst answer = Http200 message) <->
      exists s e link,
        start_time = Instant s /\ end_time = Instant e /\ s < e
        /\ calendar_insert s e summary description = inl link
        /\ answer = (Http200 ("Event created: " ++ link), [(s, e)])).
Proof.
  intros answer. subst answer. unfold book_appointment, book_body.
  split; [|split; [|split]].
  - intros s e -> -> Hge.
    replace (s >=? e) with true
      by (symmetry; rewrite Z.geb_leb; apply Z.leb_le; lia).
    split; [reflexivity|]. intros tz offset busy. unfold get_availability.
    replace (s >=? e) with true
      by (symmetry; rewrite Z.geb_leb; apply Z.leb_le; lia).
    reflexivity.
  - intros (msg & [->|[(s & ->) ->]]); exists msg; reflexivity.
  - destruct start_time as [s|m]; [|cbn; split;
      [congruence|intros (s & e & H & _); discriminate H]].
    destruct end_time as [e|m]; [|cbn; split;
      [congruence|intros (s' & e & _ & H & _); discriminate H]].
    destruct (s >=? e) eqn:Hge.
    + cbn. split; [congruence|].
      intros (s' & e' & [= <-] & [= <-] & Hlt & _).
      rewrite Z.geb_leb in Hge. apply Z.leb_le in Hge. lia.
    + rewrite Z.geb_leb in Hge. apply Z.leb_gt in Hge.
      destruct (calendar_insert s e summary description); cbn;
        (split; [intros _; exists s, e; auto|discriminate]).
  - destruct start_time as [s|m]; [|cbn; split;
      [intros (x & H); discriminate H
      |intros (s & e & l & H & _); discriminate H]].
    destruct end_time as [e|m]; [|cbn; split;
      [intros (x & H); discriminate H
      |intros (s' & e & l & _ & H & _); discriminate H]].
    destruct (s >=? e) eqn:Hge.
    + cbn. split; [intros (x & H); discriminate H|].
      intros (s' & e' & l & [= <-] & [= <-] & Hlt & _).
      rewrite Z.geb_leb in Hge. apply Z.leb_le in Hge. lia.
    + rewrite Z.geb_leb in Hge. apply Z.leb_gt in Hge.
      destruct (calendar_insert s e summary description) as [link|err] eqn:Hc;
        cbn.
      * split; [intros _; exists s, e, link; auto|eauto].
      * split; [intros (x & H); discriminate H|].
        intros (s' & e' & l & [= <-] & [= <-] & _ & H & _). congruence.
Qed.

Lemma book_appointment_statuses_witness :
  let str_http_exception := fun (status : Z) (detail : string) => detail in
  let calendar_insert :=
    fun (_ _ : Z) (_ _ : string) => @inl string string "https://cal/ev" in
  book_appointment str_http_exception calendar_insert (Instant 1800)
    (Instant 1800) "Meeting" "Booked via TailorTalk"
  = (HttpError 500 "Error booking appointment: start_time must be before end_time",
     [])
  /\ get_availability modern_kolkata 0 1800 1800 []
     = HttpError 400 "start_time must be before end_time".
Proof.
  intros str_http_exception calendar_insert.
  destruct (book_appointment_statuses str_http_exception calendar_insert
              (Instant 1800) (Instant 1800) "Meeting" "Booked via TailorTalk")
    as (Hguard & _).
  destruct (Hguard 1800 1800 eq_refl eq_refl) as [Hbook Hget].
  - discriminate.
  - split; [exact Hbook|apply Hget].
Defined.

Lemma index_loop_In (message : string) (slots : list Z) : forall i slot,
  index_loop i slots message = Some slot -> In slot slots.
Proof.
  induction slots as [|s rest IH]; intros i slot; cbn [index_loop];
    [discriminate|].
  destruct (contains (str i) message || contains ("slot " ++ str i) message
            || contains "first" message && (i =? 1)%nat).
  - intros [= <-]. left. reflexivity.
  - intros H. right. eapply IH. exact H.
Qed.

Lemma time_loop_In (E : env) (hour minute : Z) (slots : list Z)
    (slot : Z) :
  time_loop E hour minute slots = Some slot -> In slot slots.
Proof.
  induction slots as [|s rest IH]; cbn [time_loop]; [discriminate|].
  destruct ((ist_hour (asia_kolkata E) s =? hour)
            && (Z.abs (ist_minute (asia_kolkata E) s - minute) <=? 15)).
  - intros [= <-]. left. reflexivity.
  - intros H. right. apply IH. exact H.
Qed.

Lemma select_slot_In (E : env) (slots : list Z) (message : string)
    (slot : Z) :
  select_slot E slots message = Some slot -> In slot slots.
Proof.
  unfold select_slot.
  destruct (index_loop 1 slots message) as [s|] eqn:Hi.
  - apply index_loop_In in Hi. destruct slots; intros [= <-]; exact Hi.
  - destruct (fuzzy_time E message) as [[hour minute]|].
    + destruct (time_loop E hour minute slots) as [s|] eqn:Ht.
      * apply time_loop_In in Ht. destruct slots; intros [= <-]; exact Ht.
      * destruct slots as [|s0 rest]; [discriminate|].
        intros [= <-]. left. reflexivity.
    + destruct slots as [|s0 rest]; [discriminate|].
      intros [= <-]. left. reflexivity.
Qed.

(** X18. The booking handler calls the model at most once and the backend
    at most once, in that order; the one request it can send books a slot
    of the suggested list for exactly the thirty minutes that follow it,
    under the summary "Meeting". Such a request passes the range check of
    [POST /book]: the endpoint asks the calendar for that insert. *)
Theorem confirm_booking_request (E : env) (state : AgentState)
    (log : list effect) :
  exists l,
    snd (confirm_booking E state log) = (log ++ l)%list
    /\ (l = []
        \/ (exists p, l = [LlmInvoke p])
        \/ exists p slot,
             l = [LlmInvoke p;
                  PostBook slot (slot + HALF_HOUR) "Meeting"
                    "Booked via TailorTalk"]
             /\ In slot (suggested_slots state)
             /\ forall str_http_exception calendar_insert,
                  snd (book_appointment str_http_exception calendar_insert
                         (Instant slot) (Instant (slot + HALF_HOUR))
                         "Meeting" "Booked via TailorTalk")
                  = [(slot, slot + HALF_HOUR)]).
Proof.
  unfold confirm_booking, bind, lift, invoke, perform.
  destruct (last_content (messages state)) as [content|e];
    [|exists []; cbn [snd]; rewrite app_nil_r; auto].
  destruct (select_slot E (suggested_slots state) (lower (strip content)))
    as [slot|] eqn:Hsel;
    [|exists []; cbn [snd]; rewrite app_nil_r; auto].
  apply select_slot_In in Hsel.
  cbn [messages set_confirmed_slot].
  destruct (history_of (messages state)) as [history|e];
    [|exists []; cbn [snd]; rewrite app_nil_r; auto].
  destruct (llm_invoke E _) as [reply|e] eqn:Hr.
  - eexists. split.
    + destruct (backend_book E slot (slot + HALF_HOUR) _ _); cbn [snd];
        rewrite <- app_assoc; reflexivity.
    + right. right. eexists. exists slot.
      split; [reflexivity|]. split; [exact Hsel|].
      intros str_http_exception calendar_insert.
      unfold book_appointment, book_body.
      replace (slot >=? slot + HALF_HOUR) with false
        by (symmetry; rewrite Z.geb_leb; apply Z.leb_gt;
            unfold HALF_HOUR; lia).
      destruct (calendar_insert slot (slot + HALF_HOUR) _ _); reflexivity.
  - eexists. split; [cbn [snd]; reflexivity|]. right. left. eauto.
Qed.

(** X19. In booking selection a digit wins over a time: as soon as the
    message holds the numeral of some position of the list, the slot is
    chosen by the number test alone and the time parse is never consulted.
    With three slots "book at 2pm" books the second, whatever its time and
    even when the third is the one at 14:00. *)
Theorem index_mention_overrides_time (E E' : env) (slots : list Z)
    (message : string) (i : nat) :
  (1 <= i <= List.length slots)%nat ->
  contains (str i) message = true ->
  select_slot E slots message = index_loop 1 slots message
  /\ select_slot E' slots message = select_slot E slots message
  /\ (forall a b c, select_slot E [a; b; c] "book at 2pm" = Some b).
Proof.
  intros Hi Hc.
  assert (Hsome : exists s, index_loop 1 slots message = Some s).
  { rewrite index_loop_find.
    destruct (find (mentions_index message) (seq 1 (List.length slots)))
      as [j|] eqn:Hf.
    - apply find_some in Hf. destruct Hf as [Hin _]. apply in_seq in Hin.
      destruct (nth_error slots (j - 1)) as [s|] eqn:Hn; [eauto|].
      apply nth_error_None in Hn. lia.
    - assert (Hfalse : mentions_index message i = false).
      { apply (find_none _ _ Hf). apply in_seq. lia. }
      unfold mentions_index in Hfalse. rewrite Hc in Hfalse.
      discriminate Hfalse. }
  destruct Hsome as [s Hs].
  split; [|split].
  - unfold select_slot. rewrite Hs. destruct slots; reflexivity.
  - unfold select_slot. rewrite Hs. destruct slots; reflexivity.
  - intros a b c. reflexivity.
Qed.

Lemma index_mention_overrides_time_witness :
  let reads_the_time :=
    {| llm_invoke := fun _ => Completion "confirm_booking";
       fuzzy_time := fun _ => Some (14, 0);
       strftime_ist := fun t => NilZero.string_of_int (Z.to_int t);
       now_utc := ist_datetime 2025 6 25 15 0;
       asia_kolkata := modern_kolkata;
       backend_availability := fun _ _ => Reply [];
       backend_book := fun _ _ _ _ => Reply "Event created";
       backend_upcoming_events := Reply [];
       backend_cancel := fun _ => Reply tt |} in
  let slots := [ist_datetime 2025 6 26 10 0; ist_datetime 2025 6 26 11 0;
                ist_datetime 2025 6 26 14 0] in
  select_slot reads_the_time slots "book at 2pm"
  = Some (ist_datetime 2025 6 26 11 0)
  /\ select_slot reads_the_time slots "book at two pm"
     = Some (ist_datetime 2025 6 26 14 0).
Proof.
  intros reads_the_time slots. split; [|reflexivity].
  destruct (index_mention_overrides_time reads_the_time sample_env slots
              "book at 2pm" 2) as (Hsel & _ & _).
  - simpl. lia.
  - reflexivity.
  - rewrite Hsel. reflexivity.
Defined.

(** ** The availability path with nothing free *)

Lemma contents_app (l : list turn) (t : turn) :
  contents (l ++ [t])
  = match contents l with
    | Raise e => Raise e
    | Ok cs =>
        match get_content t with
        | Raise e => Raise e
        | Ok c => Ok (cs ++ [c])%list
        end
    end.
Proof.
  induction l as [|x l IH]; cbn [app contents].
  - destruct (get_content t); reflexivity.
  - destruct (get_content x); [|reflexivity]. rewrite IH.
    destruct (contents l); [|reflexivity].
    destruct (get_content t); reflexivity.
Qed.

Lemma history_after_append (ms : list turn) (content history : string)
    (t : turn) :
  last_content ms = Ok content ->
  history_of ms = Ok history ->
  exists history', history_of (ms ++ [t]) = Ok history'.
Proof.
  unfold last_content, last_message, history_of.
  rewrite removelast_last.
  destruct (rev ms) as [|x r] eqn:Hrev; [discriminate|].
  assert (Hms : ms = (rev r ++ [x])%list).
  { rewrite <- (rev_involutive ms), Hrev. reflexivity. }
  rewrite Hms, removelast_last, contents_app.
  destruct (contents (rev r)) as [cs|e]; [|discriminate].
  intros Hx _. rewrite Hx. eauto.
Qed.

(** X20. When the classified intent is to book or to check and the backend
    finds no slot, the turn appends the empty list line "Available slots in
    Asia/Kolkata: " and then "No available slots found. Please try a
    different time or date.", after the classification and one query and
    without a second model call. *)
Theorem empty_availability_reply (E : env) (state : AgentState)
    (content history reply : string) (range : option Z * option Z)
    (log : list effect) :
  last_content (messages state) = Ok content ->
  history_of (messages state) = Ok history ->
  llm_invoke E (intention_prompt content history) = Completion reply ->
  route (set_intent state (strip reply)) = "check_availability" ->
  parse_user_date (now_utc E) (lower (strip content)) = Ok range ->
  (forall s e, backend_availability E s e = Reply []) ->
  exists start_time end_time,
    workflow E state log
    = (Ok (say (say (set_suggested_slots (set_intent state (strip reply)) [])
                  "Available slots in Asia/Kolkata: ")
             "No available slots found. Please try a different time or date."),
       (log ++ [LlmInvoke (intention_prompt content history);
                GetAvailability start_time end_time])%list).
Proof.
  intros Hc Hh Hr Hroute Hp Hb. unfold workflow, bind.
  rewrite (identify_intent_run E state content history log Hc Hh).
  cbv zeta. rewrite Hr, Hroute.
  cbn [String.eqb Ascii.eqb Bool.eqb].
  unfold check_availability_node, bind, lift, perform.
  cbn [messages set_intent]. rewrite Hc, Hp.
  destruct range as [start_date end_date].
  apply parse_user_date_shape in Hp.
  destruct (history_after_append (messages state) content history
              (Content "Available slots in Asia/Kolkata: " ASSISTANT) Hc Hh)
    as [history' Hh'].
  assert (Hnext : forall s e,
            suggest_slots E
              (say (set_suggested_slots (set_intent state (strip reply)) [])
                 ("Available slots in Asia/Kolkata: "
                  ++ join ", " (map (strftime_ist E) (firstn 5 []))))
              ((log ++ [LlmInvoke (intention_prompt content history)])
               ++ [GetAvailability s e])%list
            = (Ok (say (say (set_suggested_slots
                               (set_intent state (strip reply)) [])
                          "Available slots in Asia/Kolkata: ")
                     "No available slots found. Please try a different time or date."),
               (log ++ [LlmInvoke (intention_prompt content history);
                        GetAvailability s e])%list)).
  { intros s e. unfold suggest_slots, bind, lift.
    cbn [firstn map join String.concat append].
    cbn [messages say append_message set_suggested_slots set_intent
         suggested_slots].
    unfold last_content at 1, last_message. rewrite rev_unit.
    cbn [get_content]. fold ASSISTANT. rewrite Hh'.
    rewrite <- app_assoc. reflexivity. }
  destruct Hp as [[-> ->]|(date & h1 & h2 & -> & -> & _)].
  - eexists. eexists. rewrite Hb. apply Hnext.
  - eexists. eexists. rewrite Hb. apply Hnext.
Qed.

Lemma empty_availability_reply_witness :
  exists start_time end_time,
    run (workflow (env_answering (Completion "book_appointment"))
           (user_says (initial_state greeting_session) "Book a meeting"))
    = (Ok (say (say (set_suggested_slots
                       (set_intent
                          (user_says (initial_state greeting_session)
                             "Book a meeting") "book_appointment") [])
                  "Available slots in Asia/Kolkata: ")
             "No available slots found. Please try a different time or date."),
       [LlmInvoke
          (intention_prompt "Book a meeting"
             "Hello! How can I assist you today?");
        GetAvailability start_time end_time]).
Proof.
  eapply (empty_availability_reply
            (env_answering (Completion "book_appointment")) _
            "Book a meeting" "Hello! How can I assist you today?"
            "book_appointment" _ []); reflexivity.
Defined.

(** ** The normalisation of the availability query *)

Lemma replace_blank (s : string) :
  replace O " " "+" s
  = map_chars (fun c => if is_blank c then "+"%char else c) s.
Proof.
  induction s as [|c r IH]; [reflexivity|].
  cbn [replace map_chars prefix String.length Nat.sub append].
  unfold is_blank.
  destruct (ascii_dec " " c) as [<-|Hne].
  - destruct r; cbn [prefix]; rewrite IH; reflexivity.
  - replace (Ascii.eqb c " ") with false
      by (symmetry; apply Ascii.eqb_neq; congruence).
    rewrite IH. reflexivity.
Qed.

Lemma replace_without_blank (new s : string) :
  all_chars (fun c => negb (is_blank c)) s = true ->
  replace O " 00:00" new s = s.
Proof.
  induction s as [|c r IH]; [reflexivity|].
  cbn [all_chars replace prefix]. intros H.
  apply andb_true_iff in H. destruct H as [Hc Hr].
  destruct (ascii_dec " " c) as [<-|Hne]; [discriminate Hc|].
  rewrite (IH Hr). reflexivity.
Qed.

Lemma no_blank_after_replace (s : string) :
  all_chars (fun c => negb (is_blank c))
    (map_chars (fun c => if is_blank c then "+"%char else c) s) = true.
Proof.
  induction s as [|c r IH]; [reflexivity|].
  cbn [map_chars all_chars]. rewrite IH.
  destruct (is_blank c) eqn:Hc; [reflexivity|rewrite Hc; reflexivity].
Qed.

Lemma all_chars_lstrip (p : ascii -> bool) (s : string) :
  all_chars p s = true -> all_chars p (lstrip s) = true.
Proof.
  induction s as [|c r IH]; [reflexivity|].
  cbn [lstrip]. destruct (is_space c); [|auto].
  cbn [all_chars]. intros H. apply andb_true_iff in H. apply IH. tauto.
Qed.

Lemma all_chars_rstrip (p : ascii -> bool) (s : string) :
  all_chars p s = true -> all_chars p (rstrip s) = true.
Proof.
  induction s as [|c r IH]; [reflexivity|].
  cbn [all_chars rstrip]. intros H.
  apply andb_true_iff in H. destruct H as [Hc Hr].
  specialize (IH Hr).
  destruct (rstrip r) as [|d r'].
  - destruct (is_space c); cbn [all_chars]; [reflexivity|].
    rewrite Hc. reflexivity.
  - cbn [all_chars] in *. rewrite Hc, IH. reflexivity.
Qed.

Lemma strip_without_space (s : string) :
  all_chars (fun c => negb (is_space c)) s = true -> strip s = s.
Proof.
  unfold strip. intros H.
  assert (Hl : lstrip s = s).
  { destruct s as [|c r]; [reflexivity|].
    cbn [all_chars] in H. apply andb_true_iff in H. destruct H as [Hc _].
    cbn [lstrip]. apply negb_true_iff in Hc. rewrite Hc. reflexivity. }
  rewrite Hl. clear Hl.
  induction s as [|c r IH]; [reflexivity|].
  cbn [all_chars] in H. apply andb_true_iff in H. destruct H as [Hc Hr].
  cbn [rstrip]. rewrite (IH Hr).
  destruct r; [|reflexivity].
  apply negb_true_iff in Hc. rewrite Hc. reflexivity.
Qed.

(** X21. The normalisation of [start] and [end]: the first replacement
    turns every space into "+", so the second replacement, whose pattern
    starts with a space, never applies, and the normalised text holds no
    space. *)
Theorem normalize_leaves_no_space (s : string) :
  replace O " 00:00" "+00:00" (replace O " " "+" s) = replace O " " "+" s
  /\ normalize s
     = strip (map_chars (fun c => if is_blank c then "+"%char else c) s)
  /\ all_chars (fun c => negb (is_blank c)) (normalize s) = true.
Proof.
  assert (H2 : replace O " 00:00" "+00:00" (replace O " " "+" s)
               = replace O " " "+" s).
  { rewrite replace_blank. apply replace_without_blank.
    apply no_blank_after_replace. }
  split; [exact H2|]. unfold normalize. rewrite H2, replace_blank.
  split; [reflexivity|].
  unfold strip. apply all_chars_rstrip, all_chars_lstrip.
  apply no_blank_after_replace.
Qed.

(** X22. The normalisation undoes the decoding of "+": a value without
    white space, such as the ISO-8601 text with its "+00:00" offset that
    the availability handler puts in the query unescaped, comes back
    unchanged once its "+" signs have been decoded to spaces. *)
Theorem normalize_restores_offset (s : string) :
  all_chars (fun c => negb (is_space c)) s = true ->
  normalize (form_decoded s) = s.
Proof.
  intros Hs. unfold normalize.
  rewrite replace_blank.
  assert (Hback : map_chars (fun c => if is_blank c then "+"%char else c)
                    (form_decoded s) = s).
  { unfold form_decoded. induction s as [|c r IH]; [reflexivity|].
    cbn [all_chars] in Hs. apply andb_true_iff in Hs.
    destruct Hs as [Hc Hr]. cbn [map_chars]. rewrite (IH Hr). f_equal.
    destruct (Ascii.eqb_spec c "+") as [->|Hne]; [reflexivity|].
    unfold is_blank. destruct (Ascii.eqb_spec c " ") as [->|_];
      [discriminate Hc|reflexivity]. }
  rewrite Hback.
  rewrite replace_without_blank.
  - apply strip_without_space. exact Hs.
  - clear Hback. induction s as [|c r IH]; [reflexivity|].
    cbn [all_chars] in *. apply andb_true_iff in Hs.
    destruct Hs as [Hc Hr]. rewrite (IH Hr), andb_true_r.
    unfold is_blank. destruct (Ascii.eqb_spec c " ") as [->|_];
      [discriminate Hc|reflexivity].
Qed.

Lemma normalize_restores_offset_witness :
  form_decoded "2025-06-26T00:00:00+00:00" = "2025-06-26T00:00:00 00:00"
  /\ normalize "2025-06-26T00:00:00 00:00" = "2025-06-26T00:00:00+00:00".
Proof.
  split; [reflexivity|].
  apply (normalize_restores_offset "2025-06-26T00:00:00+00:00").
  reflexivity.
Defined.
